(** * ZKSync Lite ingestion and decoding pipeline (rotkehlchen/chain/zksync_lite/manager.py)

    A shallow embedding of [ZksyncLiteManager]: the remote client
    ([_query_api]), the token directory, the transaction normalizer
    ([_deserialize_zksync_transaction]), the paginated fetcher, the storage
    routines and the ledger decoder, followed by the properties of the
    specification that concern them.

    Python objects are modelled as follows.
    - JSON payloads are values of [json]; subscripting, [.get], [len],
      iteration and [==] follow Python's dynamic semantics and raise the
      exception Python raises.
    - Code that performs I/O or mutates the manager or the database is a
      computation in the monad [M]: it threads a [state] and returns either a
      value or the exception raised, the state being kept in both cases
      (Python rolls nothing back when an exception propagates).
    - [while True] loops take a page budget; running out of it is the outcome
      [OutOfFuel], which no handler catches. *)

From stdpp Require Import base list strings gmap.
From Stdlib Require Import ZArith QArith Lia.
From Equations Require Import Equations.

Open Scope string_scope.
Open Scope list_scope.
Open Scope Z_scope.

(** ** JSON values and Python's dynamic operations on them *)

(** The API's numbers are integers (token ids, block numbers); amounts are
    sent as strings. *)
#[warnings="-register-all"]
Inductive json : Type :=
| JNull
| JBool (b : bool)
| JInt (z : Z)
| JStr (s : string)
| JList (l : list json)
| JDict (d : list (string * json)).

Inductive exn : Type :=
| RemoteError
| DeserializationError
| KeyError
| TypeError
| IndexError
| AttributeError
| AssertionError
| IntegrityError
| OutOfFuel.

Inductive result (A : Type) : Type :=
| Ok (a : A)
| Raise (e : exn).
Arguments Ok {A} a.
Arguments Raise {A} e.

#[global] Instance exn_eq_dec : EqDecision exn.
Proof. solve_decision. Defined.

(** [d.get(key)] on a Python dict held as an association list. *)
Fixpoint dict_lookup (key : string) (d : list (string * json)) : option json :=
  match d with
  | [] => None
  | (k, v) :: d' => if String.eqb k key then Some v else dict_lookup key d'
  end.

(** Python's [==] on JSON values: [True == 1], lists element-wise, dicts
    key-wise whatever the order of the keys. *)
Fixpoint py_eq (a b : json) {struct a} : bool :=
  match a, b with
  | JNull, JNull => true
  | JBool x, JBool y => Bool.eqb x y
  | JBool x, JInt y => (if x then 1 else 0) =? y
  | JInt x, JBool y => x =? (if y then 1 else 0)
  | JInt x, JInt y => x =? y
  | JStr x, JStr y => String.eqb x y
  | JList l1, JList l2 =>
      (fix go (l1 l2 : list json) {struct l1} : bool :=
         match l1, l2 with
         | [], [] => true
         | x :: l1', y :: l2' => py_eq x y && go l1' l2'
         | _, _ => false
         end) l1 l2
  | JDict d1, JDict d2 =>
      (length d1 =? length d2)%nat &&
      (fix go (d1 : list (string * json)) {struct d1} : bool :=
         match d1 with
         | [] => true
         | (k, v) :: d1' =>
             match dict_lookup k d2 with
             | Some w => py_eq v w
             | None => false
             end && go d1'
         end) d1
  | _, _ => false
  end.

(** Lists and dicts are unhashable: using one as a dict key raises
    [TypeError]. *)
Definition hashable (j : json) : bool :=
  match j with
  | JList _ | JDict _ => false
  | _ => true
  end.

(** [j[key]] with a string key. *)
Definition getitem (j : json) (key : string) : result json :=
  match j with
  | JDict d =>
      match dict_lookup key d with
      | Some v => Ok v
      | None => Raise KeyError
      end
  | _ => Raise TypeError
  end.

(** [j[idx]] with a non-negative integer index: a list or a string is
    indexed, a dict has no integer key, anything else is not
    subscriptable. *)
Definition getindex (j : json) (idx : nat) : result json :=
  match j with
  | JList l =>
      match l !! idx with
      | Some v => Ok v
      | None => Raise IndexError
      end
  | JStr s =>
      match String.get idx s with
      | Some c => Ok (JStr (String c EmptyString))
      | None => Raise IndexError
      end
  | JDict _ => Raise KeyError
  | _ => Raise TypeError
  end.

(** [j.get(key, default)]: only dicts have the method. *)
Definition get_default (j : json) (key : string) (default : json) : result json :=
  match j with
  | JDict d =>
      match dict_lookup key d with
      | Some v => Ok v
      | None => Ok default
      end
  | _ => Raise AttributeError
  end.

(** The one-character strings a Python string is made of. *)
Definition py_chars (s : string) : list json :=
  map (fun c => JStr (String c EmptyString)) (String.list_ascii_of_string s).

(** The elements [for x in j] visits. *)
Definition py_iter (j : json) : result (list json) :=
  match j with
  | JList l => Ok l
  | JStr s => Ok (py_chars s)
  | JDict d => Ok (map (fun kv => JStr (fst kv)) d)
  | _ => Raise TypeError
  end.

(** [len(j)]. *)
Definition py_len (j : json) : result nat :=
  match j with
  | JList l => Ok (length l)
  | JStr s => Ok (String.length s)
  | JDict d => Ok (length d)
  | _ => Raise TypeError
  end.

(** [j[-1]]. *)
Definition py_last (j : json) : result json :=
  match j with
  | JList l =>
      match last l with
      | Some v => Ok v
      | None => Raise IndexError
      end
  | JStr s =>
      match last (py_chars s) with
      | Some v => Ok v
      | None => Raise IndexError
      end
  | JDict _ => Raise KeyError
  | _ => Raise TypeError
  end.

(** The elements of the slice [j[n:]]. *)
Definition py_slice_from (n : nat) (j : json) : result (list json) :=
  match j with
  | JList l => Ok (drop n l)
  | JStr s => Ok (drop n (py_chars s))
  | _ => Raise TypeError
  end.

(** ** Data model *)

(** Modelled from the spec: [FVal] (rotkehlchen.fval, absent) is an
    arbitrary-precision decimal; it is held as a rational in lowest terms so
    that numeric equality is [=]. *)
Definition FVal : Type := Q.

Definition ZERO : FVal := 0%Q.

(** Modelled from the spec: a resolved asset (rotkehlchen.assets.asset,
    absent), with what the manager reads of a [CryptoAsset]. *)
Record CryptoAsset : Type := {
  identifier : string;
  symbol : string;
  decimals : nat
}.

Definition A_ETH : CryptoAsset :=
  {| identifier := "ETH"; symbol := "ETH"; decimals := 18 |}.

Definition ZERO_ADDRESS : string := "0x0000000000000000000000000000000000000000".

(** Modelled from the spec: [asset_normalized_value] is imported from
    rotkehlchen.chain.ethereum.utils, which is absent; the integer amount is
    scaled by the asset's decimal precision to a human-scale amount, so that
    1000000000000000000 of the native asset is 1. *)
Definition asset_normalized_value (amount : Z) (asset : CryptoAsset) : FVal :=
  Qred (Qmake amount (Z.to_pos (10 ^ Z.of_nat (decimals asset)))).

(** Modelled from the spec: the seven transaction types of
    [ZKSyncLiteTXType] (structures.py, absent). *)
Inductive ZKSyncLiteTXType : Type :=
| TRANSFER
| DEPOSIT
| WITHDRAW
| CHANGEPUBKEY
| FORCEDEXIT
| FULLEXIT
| SWAP.

(** Modelled from the spec: the swap payload of a transaction
    (structures.py, absent), with the four fields the manager reads and
    writes. *)
Record ZKSyncLiteSwapData : Type := {
  from_asset : CryptoAsset;
  from_amount : FVal;
  to_asset : CryptoAsset;
  to_amount : FVal
}.

(** Modelled from the spec: the normalized transaction (structures.py,
    absent), with the fields the manager passes to its constructor.
    [block_number] is whatever the envelope holds, [from_address] and
    [to_address] are [None] or a checksummed address, [fee] is [None] or an
    amount. *)
Record ZKSyncLiteTransaction : Type := {
  tx_hash : string;
  tx_type : ZKSyncLiteTXType;
  timestamp : Z;
  block_number : json;
  from_address : option string;
  to_address : option string;
  asset : CryptoAsset;
  amount : FVal;
  fee : option FVal;
  swap_data : option ZKSyncLiteSwapData
}.

(** Modelled from the spec: the members of [HistoryEventType] and
    [HistoryEventSubType] (rotkehlchen.history.events.structures.types,
    absent) the decoder uses. *)
Inductive HistoryEventType : Type :=
| HET_TRADE
| HET_DEPOSIT
| HET_WITHDRAWAL
| HET_TRANSFER
| HET_SPEND
| HET_RECEIVE
| HET_INFORMATIONAL.

(** Modelled from the spec: see [HistoryEventType]. *)
Inductive HistoryEventSubType : Type :=
| HEST_NONE
| HEST_BRIDGE
| HEST_FEE
| HEST_SPEND
| HEST_RECEIVE.

(** A piece of an f-string: literal text or an interpolated value. The
    notes of an event are kept as the list of their pieces. *)
Inductive note_part : Type :=
| NText (s : string)
| NAmount (a : FVal)
| NAddress (a : option string).

(** Modelled from the spec: the one [Location] the decoder uses. *)
Inductive Location : Type :=
| ZKSYNC_LITE.

(** Modelled from the spec: a ledger event (evm_event.py, absent), with the
    keyword arguments the decoder gives its constructor. *)
Record EvmEvent : Type := {
  event_identifier : string;
  ev_tx_hash : string;
  sequence_index : Z;
  ev_timestamp : Z;
  location : Location;
  event_type : HistoryEventType;
  event_subtype : HistoryEventSubType;
  ev_asset : CryptoAsset;
  balance : FVal;
  location_label : option string;
  address : option string;
  notes : list note_part
}.

#[global] Instance ZKSyncLiteTXType_eq_dec : EqDecision ZKSyncLiteTXType.
Proof. solve_decision. Defined.
#[global] Instance HistoryEventType_eq_dec : EqDecision HistoryEventType.
Proof. solve_decision. Defined.
#[global] Instance HistoryEventSubType_eq_dec : EqDecision HistoryEventSubType.
Proof. solve_decision. Defined.

(** ** Storage *)

(** Modelled from the spec: a row of [zksynclite_transactions] (the schema
    is absent) holds the nine columns written by [serialize_for_db] (kept as
    the record they come from, without its swap data, which lives in
    [zksynclite_swaps]), the row identifier and the [is_decoded] flag. *)
Record tx_row : Type := {
  row_identifier : Z;
  row_columns : ZKSyncLiteTransaction;
  is_decoded : Z
}.

(** Modelled from the spec: the tables the manager reads and writes (the
    schema is absent). Rows are listed in insertion order;
    [zksynclite_swaps] is a child table keyed by the parent's storage
    identifier, hence a finite map from identifiers to swap data: a query by
    [tx_id] yields at most one row. *)
Record database : Type := {
  zksynclite_transactions : list tx_row;
  zksynclite_swaps : gmap Z ZKSyncLiteSwapData;
  history_events : list EvmEvent;
  used_query_ranges : list (string * (Z * Z));
  zksync_lite_accounts : list string
}.

(** ** The remote server, logging and the state threaded by the code *)

Record request : Type := {
  url : string;
  options : list (string * json)
}.

(** What [session.get] gives: a [RequestException], or a response with its
    status code and the result of [jsonloads_dict] on its text ([None] when
    that raises [JSONDecodeError]). *)
Inductive http_reply : Type :=
| RequestException
| Response (status_code : Z) (json_body : option (list (string * json))).

Inductive log_level : Type :=
| DEBUG
| WARNING
| ERROR.

(** [server n r] is the reply to request [r] when [n] requests were issued
    before it. [sleeps], [logs] and [ws_messages] list the [gevent.sleep]
    calls, the log lines and the (total, processed) progress messages, most
    recent first. *)
Record state : Type := {
  server : nat -> request -> http_reply;
  requests : nat;
  sleeps : list Z;
  logs : list (log_level * string);
  ws_messages : list (nat * nat);
  id_to_token : list (json * CryptoAsset);
  symbol_to_token : list (json * CryptoAsset);
  db : database
}.

(** Collaborators of the manager whose code is absent, kept abstract: the
    deserializers, the token registry, the constants of [constants.py], the
    truth value of an [FVal] and the [==] of two transactions. A deserializer
    returns its value or raises. *)
Class Collaborators : Type := {
  ZKSYNCLITE_MAX_LIMIT : nat;
  ZKSYNCLITE_TX_SAVEPREFIX : string;
  ZKL_IDENTIFIER : string -> string;
  deserialize_evm_tx_hash : json -> result string;
  deserialize_evm_address : json -> result string;
  deserialize_int_from_str : json -> result Z;
  iso8601ts_to_timestamp : json -> result Z;
  ZKSyncLiteTXType_deserialize : json -> result ZKSyncLiteTXType;
  get_or_create_evm_token : string -> option CryptoAsset;
  FVal_bool : FVal -> bool;
  transaction_eq : ZKSyncLiteTransaction -> ZKSyncLiteTransaction -> bool
}.

(** ** The monad of the manager's methods *)

Definition M (A : Type) : Type := state -> result A * state.

#[global] Instance M_ret : MRet M := fun A a s => (Ok a, s).

#[global] Instance M_bind : MBind M := fun A B f m s =>
  match m s with
  | (Ok a, s') => f a s'
  | (Raise e, s') => (Raise e, s')
  end.

Definition raise {A : Type} (e : exn) : M A := fun s => (Raise e, s).

(** Lifts a pure result: returns the value or raises the exception. *)
Definition lift {A : Type} (r : result A) : M A := fun s => (r, s).

(** [try: body except <handled>: handler]. *)
Definition try_except {A : Type} (body : M A) (handled : exn -> bool) (handler : exn -> M A) : M A :=
  fun s =>
    match body s with
    | (Ok a, s') => (Ok a, s')
    | (Raise e, s') => if handled e then handler e s' else (Raise e, s')
    end.

Definition log (level : log_level) (msg : string) : M unit :=
  fun s => (Ok tt, {| server := server s; requests := requests s; sleeps := sleeps s;
                      logs := (level, msg) :: logs s; ws_messages := ws_messages s;
                      id_to_token := id_to_token s; symbol_to_token := symbol_to_token s;
                      db := db s |}).

Definition gevent_sleep (seconds : Z) : M unit :=
  fun s => (Ok tt, {| server := server s; requests := requests s; sleeps := seconds :: sleeps s;
                      logs := logs s; ws_messages := ws_messages s;
                      id_to_token := id_to_token s; symbol_to_token := symbol_to_token s;
                      db := db s |}).

(** [self.session.get(query_str, timeout=timeout)]. *)
Definition session_get (r : request) : M http_reply :=
  fun s => (Ok (server s (requests s) r),
            {| server := server s; requests := S (requests s); sleeps := sleeps s;
               logs := logs s; ws_messages := ws_messages s;
               id_to_token := id_to_token s; symbol_to_token := symbol_to_token s;
               db := db s |}).

(** [self.database.msg_aggregator.add_message] with the total and the
    processed count. *)
Definition add_message (total processed : nat) : M unit :=
  fun s => (Ok tt, {| server := server s; requests := requests s; sleeps := sleeps s;
                      logs := logs s; ws_messages := (total, processed) :: ws_messages s;
                      id_to_token := id_to_token s; symbol_to_token := symbol_to_token s;
                      db := db s |}).

Definition get_db : M database := fun s => (Ok (db s), s).

Definition set_db (d : database) : M unit :=
  fun s => (Ok tt, {| server := server s; requests := requests s; sleeps := sleeps s;
                      logs := logs s; ws_messages := ws_messages s;
                      id_to_token := id_to_token s; symbol_to_token := symbol_to_token s;
                      db := d |}).

Definition get_state : M state := fun s => (Ok s, s).

Definition set_tokens (ids syms : list (json * CryptoAsset)) : M unit :=
  fun s => (Ok tt, {| server := server s; requests := requests s; sleeps := sleeps s;
                      logs := logs s; ws_messages := ws_messages s;
                      id_to_token := ids; symbol_to_token := syms;
                      db := db s |}).

(** ** RemoteClient: [_query_api] *)

Definition backoff_limit : Z := 33.

Definition TOO_MANY_REQUESTS : Z := 429.
Definition HTTP_OK : Z := 200.

(** The [while backoff < backoff_limit] loop of [_query_api]. [backoff]
    starts at 1 and is only ever doubled, hence a positive number; the loop
    ends because it grows towards the limit. The value after the loop is the
    initial [result = {}]. *)
Equations _query_api_loop (r : request) (backoff : positive) : M json
  by wf (Z.to_nat (backoff_limit - Z.pos backoff)) lt :=
  _query_api_loop r backoff with Z_lt_dec (Z.pos backoff) backoff_limit := {
    | left _ =>
        log DEBUG "Querying zksync lite";;
        reply ← session_get r;
        match reply with
        | RequestException => raise RemoteError
        | Response status_code json_body =>
            if status_code =? TOO_MANY_REQUESTS then
              if Z.pos backoff >=? backoff_limit then raise RemoteError
              else
                log DEBUG "Got too many requests error from zksync lite. Will backoff";;
                gevent_sleep (Z.pos backoff);;
                _query_api_loop r (2 * backoff)%positive
            else if negb (status_code =? HTTP_OK) then raise RemoteError
            else
              match json_body with
              | None => raise RemoteError
              | Some json_ret =>
                  match dict_lookup "result" json_ret with
                  | None | Some JNull => raise RemoteError
                  | Some result => mret result
                  end
              end
        end
    | right _ => mret (JDict [])
  }.
Next Obligation. unfold backoff_limit in *. lia. Qed.

Definition _query_api (url : string) (options : list (string * json)) : M json :=
  _query_api_loop {| url := url; options := options |} 1%positive.

(** ** Python dicts keyed by JSON values, and pure results *)

#[global] Instance result_ret : MRet result := fun A a => Ok a.

#[global] Instance result_bind : MBind result := fun A B f r =>
  match r with
  | Ok a => f a
  | Raise e => Raise e
  end.

(** [d.get(key, None)]. *)
Fixpoint assoc_find {A : Type} (key : json) (d : list (json * A)) : option A :=
  match d with
  | [] => None
  | (k, v) :: d' => if py_eq k key then Some v else assoc_find key d'
  end.

Definition token_dict_get {A : Type} (key : json) (d : list (json * A)) : result (option A) :=
  if hashable key then Ok (assoc_find key d) else Raise TypeError.

(** [d[key] = v]: the value of an existing key is replaced in place, a new
    key is added at the end. *)
Fixpoint assoc_set {A : Type} (key : json) (v : A) (d : list (json * A)) : list (json * A) :=
  match d with
  | [] => [(key, v)]
  | (k, w) :: d' => if py_eq k key then (k, v) :: d' else (k, w) :: assoc_set key v d'
  end.

Definition token_dict_set {A : Type} (key : json) (v : A) (d : list (json * A)) : result (list (json * A)) :=
  if hashable key then Ok (assoc_set key v d) else Raise TypeError.

(** [for x in l: body(x)]. *)
Fixpoint for_each {A : Type} (body : A -> M unit) (l : list A) : M unit :=
  match l with
  | [] => mret tt
  | x :: l' => body x;; for_each body l'
  end.

(** [entry['op'][key]]. *)
Definition entry_op (entry : json) (key : string) : result json :=
  op ← getitem entry "op"; getitem op key.

Section Manager.

Context `{Collaborators}.

(** ** TokenDirectory *)

(** The body of the [for entry in result[...]] loop of
    [_create_tokens_mapping]. *)
Definition _create_tokens_mapping_entry (entry : json) : M unit :=
  try_except
    (token_id ← lift (getitem entry "id");
     token_symbol ← lift (getitem entry "symbol");
     address_raw ← lift (getitem entry "address");
     address ← lift (deserialize_evm_address address_raw);
     let store (asset : CryptoAsset) : M unit :=
       s ← get_state;
       ids ← lift (token_dict_set token_id asset (id_to_token s));
       set_tokens ids (symbol_to_token s);;
       syms ← lift (token_dict_set token_symbol asset (symbol_to_token s));
       set_tokens ids syms in
     if String.eqb address ZERO_ADDRESS then store A_ETH
     else
       match get_or_create_evm_token address with
       | None => log WARNING "ZKSync lite token id is unknown and as such will be ignored."
       | Some asset => store asset
       end)
    (fun e => bool_decide (e = DeserializationError) || bool_decide (e = KeyError))
    (fun _ => log ERROR "ZKSync lite token entry failed to be parsed").

(** [_create_tokens_mapping]: [pages] bounds the number of iterations of its
    [while True] loop. *)
Fixpoint _create_tokens_mapping_loop (pages : nat) (from_idx : json) : M unit :=
  match pages with
  | O => raise OutOfFuel
  | S pages' =>
      response ← _query_api "tokens"
        [("from", from_idx); ("direction", JStr "newer"); ("limit", JInt (Z.of_nat ZKSYNCLITE_MAX_LIMIT))];
      result ← lift (get_default response "list" JNull);
      match result with
      | JNull =>
          log ERROR "Unexpected zksync lite tokens response. Could not find result in the response.";;
          raise RemoteError
      | _ =>
          entries ← lift (py_slice_from (if py_eq from_idx (JInt 0) then 0 else 1) result);
          for_each _create_tokens_mapping_entry entries;;
          n ← lift (py_len result);
          if (n <? ZKSYNCLITE_MAX_LIMIT)%nat then mret tt
          else
            last_entry ← lift (py_last result);
            from_idx' ← lift (getitem last_entry "id");
            _create_tokens_mapping_loop pages' from_idx'
      end
  end.

Definition _create_tokens_mapping (pages : nat) : M unit :=
  _create_tokens_mapping_loop pages (JInt 0).

Definition _get_token_by_id (pages : nat) (token_id : json) : M (option CryptoAsset) :=
  s ← get_state;
  (if (length (id_to_token s) =? 0)%nat then _create_tokens_mapping pages else mret tt);;
  s' ← get_state;
  lift (token_dict_get token_id (id_to_token s')).

Definition _get_token_by_symbol (pages : nat) (token_symbol : json) : M (option CryptoAsset) :=
  s ← get_state;
  (if (length (symbol_to_token s) =? 0)%nat then _create_tokens_mapping pages else mret tt);;
  s' ← get_state;
  lift (token_dict_get token_symbol (symbol_to_token s')).

(** ** TransactionNormalizer *)

(** [amount_key] is [None] or a key; an empty key is as false as [None]. *)
Definition _get_token_and_amount_by_id_or_log (pages : nat) (entry : json)
    (asset_key : string) (amount_key : option string) : M (option (CryptoAsset * FVal)) :=
  token_id ← lift (entry_op entry asset_key);
  found ← _get_token_by_id pages token_id;
  match found with
  | None =>
      log ERROR "Skipping zksync lite transaction with unknown token id";;
      mret None
  | Some asset =>
      match amount_key with
      | Some key =>
          if String.eqb key "" then mret (Some (asset, ZERO))
          else
            amount_str ← lift (entry_op entry key);
            amount_raw ← lift (deserialize_int_from_str amount_str);
            mret (Some (asset, asset_normalized_value amount_raw asset))
      | None => mret (Some (asset, ZERO))
      end
  end.

(** One iteration of the [for idx in (0, 1)] loop of the Swap branch: the
    sold token and amount of [entry['op']['orders'][idx]], or [None] when
    the token is unknown. *)
Definition _swap_asset_data (pages : nat) (entry : json) (idx : nat) : M (option (CryptoAsset * FVal)) :=
  orders ← lift (entry_op entry "orders");
  order ← lift (getindex orders idx);
  token_sell ← lift (getitem order "tokenSell");
  found ← _get_token_by_id pages token_sell;
  match found with
  | None =>
      log ERROR "Could not deserialize zksync lite swap entry sell token";;
      mret None
  | Some swap_asset =>
      orders' ← lift (entry_op entry "orders");
      order' ← lift (getindex orders' idx);
      amount_str ← lift (getitem order' "amount");
      amount_raw ← lift (deserialize_int_from_str amount_str);
      mret (Some (swap_asset, asset_normalized_value amount_raw swap_asset))
  end.

(** [Fee(asset_normalized_value(fee_raw, asset)) if fee_raw else None]: a
    missing or zero raw fee gives no fee. *)
Definition fee_of (fee_raw : option Z) (asset : CryptoAsset) : option FVal :=
  match fee_raw with
  | Some raw => if raw =? 0 then None else Some (asset_normalized_value raw asset)
  | None => None
  end.

(** The [try] block of [_deserialize_zksync_transaction] followed by its
    [else] clause. A [return None] inside the block is the value [None]. *)
Definition _deserialize_zksync_transaction_body (pages : nat) (entry : json)
    (concerning_address : string) : M (option ZKSyncLiteTransaction) :=
  status ← lift (get_default entry "status" (JStr "finalized"));
  if negb (py_eq status (JStr "finalized")) then
    log DEBUG "Skipping zksynce lite transaction due to status";;
    mret None
  else
    hash_raw ← lift (getitem entry "txHash");
    tx_hash ← lift (deserialize_evm_tx_hash hash_raw);
    type_raw ← lift (entry_op entry "type");
    tx_type ← lift (ZKSyncLiteTXType_deserialize type_raw);
    block_number ← lift (getitem entry "blockNumber");
    created_at ← lift (getitem entry "createdAt");
    timestamp ← lift (iso8601ts_to_timestamp created_at);
    op ← lift (getitem entry "op");
    fee_str ← lift (get_default op "fee" JNull);
    fee_raw ← match fee_str with
              | JNull => mret None
              | _ => raw ← lift (deserialize_int_from_str fee_str); mret (Some raw)
              end;
    let build (tx_hash : string) (from_address to_address : option string)
              (asset : CryptoAsset) (amount : FVal)
              (swap_data : option ZKSyncLiteSwapData) : M (option ZKSyncLiteTransaction) :=
      mret (Some {| tx_hash := tx_hash; tx_type := tx_type; timestamp := timestamp;
                    block_number := block_number;
                    from_address := from_address; to_address := to_address;
                    asset := asset; amount := amount;
                    fee := fee_of fee_raw asset;
                    swap_data := swap_data |}) in
    match tx_type with
    | DEPOSIT =>
        from_raw ← lift (entry_op entry "from");
        from_address ← lift (deserialize_evm_address from_raw);
        to_raw ← lift (entry_op entry "to");
        to_address ← lift (deserialize_evm_address to_raw);
        asset_amount ← _get_token_and_amount_by_id_or_log pages entry "tokenId" (Some "amount");
        match asset_amount with
        | None => mret None
        | Some (asset, amount) => build tx_hash (Some from_address) (Some to_address) asset amount None
        end
    | CHANGEPUBKEY =>
        account_raw ← lift (entry_op entry "account");
        from_address ← lift (deserialize_evm_address account_raw);
        asset_amount ← _get_token_and_amount_by_id_or_log pages entry "feeToken" (Some "fee");
        match asset_amount with
        | None => mret None
        | Some (asset, _) => build tx_hash (Some from_address) None asset ZERO None
        end
    | FORCEDEXIT =>
        target_raw ← lift (entry_op entry "target");
        to_address ← lift (deserialize_evm_address target_raw);
        asset_amount ← _get_token_and_amount_by_id_or_log pages entry "token" None;
        match asset_amount with
        | None => mret None
        | Some (asset, amount) =>
            build tx_hash (Some concerning_address) (Some to_address) asset amount None
        end
    | FULLEXIT =>
        eth_hash_raw ← lift (entry_op entry "ethHash");
        tx_hash' ← lift (deserialize_evm_tx_hash eth_hash_raw);
        asset_amount ← _get_token_and_amount_by_id_or_log pages entry "tokenId" None;
        match asset_amount with
        | None => mret None
        | Some (asset, amount) =>
            build tx_hash' (Some concerning_address) (Some concerning_address) asset amount None
        end
    | SWAP =>
        asset_amount ← _get_token_and_amount_by_id_or_log pages entry "feeToken" (Some "fee");
        match asset_amount with
        | None => mret None
        | Some (asset, amount) =>
            leg0 ← _swap_asset_data pages entry 0;
            match leg0 with
            | None => mret None
            | Some (asset0, amount0) =>
                leg1 ← _swap_asset_data pages entry 1;
                match leg1 with
                | None => mret None
                | Some (asset1, amount1) =>
                    build tx_hash (Some concerning_address) (Some concerning_address) asset amount
                      (Some {| from_asset := asset0; from_amount := amount0;
                               to_asset := asset1; to_amount := amount1 |})
                end
            end
        end
    | TRANSFER | WITHDRAW =>
        from_raw ← lift (entry_op entry "from");
        from_address ← lift (deserialize_evm_address from_raw);
        to_raw ← lift (entry_op entry "to");
        to_address ← lift (deserialize_evm_address to_raw);
        asset_amount ← _get_token_and_amount_by_id_or_log pages entry "token" (Some "amount");
        match asset_amount with
        | None => mret None
        | Some (asset, amount) => build tx_hash (Some from_address) (Some to_address) asset amount None
        end
    end.

(** [except (DeserializationError, KeyError)]: the entry is logged and
    dropped; any other exception propagates. *)
Definition _deserialize_zksync_transaction (pages : nat) (entry : json)
    (concerning_address : string) : M (option ZKSyncLiteTransaction) :=
  try_except
    (_deserialize_zksync_transaction_body pages entry concerning_address)
    (fun e => bool_decide (e = DeserializationError) || bool_decide (e = KeyError))
    (fun _ => log ERROR "Could not deserialize zksync lite transaction";; mret None).

(** ** Storage routines *)

(** Modelled from the spec: [serialize_for_db] (structures.py, absent)
    gives the nine columns of the row, every field but the swap data. *)
Definition serialize_for_db (t : ZKSyncLiteTransaction) : ZKSyncLiteTransaction :=
  {| tx_hash := tx_hash t; tx_type := tx_type t; timestamp := timestamp t;
     block_number := block_number t; from_address := from_address t;
     to_address := to_address t; asset := asset t; amount := amount t; fee := fee t;
     swap_data := None |}.

(** Whether a row of the table holds the transaction hash [h]. *)
Definition hash_stored (h : string) (rows : list tx_row) : bool :=
  existsb (fun r => String.eqb (tx_hash (row_columns r)) h) rows.

(** Modelled from the spec: the storage identifier of a new row is fresh,
    one more than the largest in the table. *)
Definition next_identifier (rows : list tx_row) : Z :=
  1 + foldr (fun r m => Z.max (row_identifier r) m) 0 rows.

(** Modelled from the spec: the table's schema is absent; the transaction
    hash is the natural key and the insertion of a stored hash is rejected
    with the duplicate error. A new row is not decoded. The function stands
    for [INSERT INTO zksynclite_transactions ...] followed by
    [write_cursor.lastrowid]. *)
Definition insert_transaction (t : ZKSyncLiteTransaction) : M Z :=
  d ← get_db;
  if hash_stored (tx_hash t) (zksynclite_transactions d) then raise IntegrityError
  else
    let row_id := next_identifier (zksynclite_transactions d) in
    set_db {| zksynclite_transactions :=
                zksynclite_transactions d ++
                [{| row_identifier := row_id; row_columns := serialize_for_db t; is_decoded := 0 |}];
              zksynclite_swaps := zksynclite_swaps d;
              history_events := history_events d;
              used_query_ranges := used_query_ranges d;
              zksync_lite_accounts := zksync_lite_accounts d |};;
    mret row_id.

(** [INSERT INTO zksynclite_swaps ...]. *)
Definition insert_swap (tx_id : Z) (data : ZKSyncLiteSwapData) : M unit :=
  d ← get_db;
  set_db {| zksynclite_transactions := zksynclite_transactions d;
            zksynclite_swaps := <[tx_id := data]> (zksynclite_swaps d);
            history_events := history_events d;
            used_query_ranges := used_query_ranges d;
            zksync_lite_accounts := zksync_lite_accounts d |}.

(** The body of the [for transaction in transactions] loop of
    [_add_zksynctxs_db]: a duplicate is logged and skipped. Reading
    [serialize_for_db] of missing swap data raises [AttributeError]. *)
Definition _add_zksynctxs_db_transaction (transaction : ZKSyncLiteTransaction) : M unit :=
  try_except
    (row_id ← insert_transaction transaction;
     if bool_decide (tx_type transaction = SWAP) then
       d ← get_db;
       match find (fun r => row_identifier r =? row_id) (zksynclite_transactions d) with
       | None => raise AssertionError
       | Some identifier_row =>
           match swap_data transaction with
           | None => raise AttributeError
           | Some data => insert_swap (row_identifier identifier_row) data
           end
       end
     else mret tt)
    (fun e => bool_decide (e = IntegrityError))
    (fun _ => log ERROR "Did not add zksync transaction to the DB").

Definition _add_zksynctxs_db (transactions : list ZKSyncLiteTransaction) : M unit :=
  for_each _add_zksynctxs_db_transaction transactions.

(** The loop [for entry in cursor] of [get_db_transactions]. [cursor] holds
    the rows of the last statement executed on the cursor that were not
    fetched yet. For a Swap row the loop executes the swaps query on the
    cursor it iterates: the pending rows become those of that query, at most
    one, which [fetchone] takes, so that the loop finds nothing more to
    visit. The stored columns deserialize to the record they were
    serialized from. *)
Fixpoint get_db_transactions_loop (d : database) (cursor : list tx_row)
    (transactions : list ZKSyncLiteTransaction) : M (list ZKSyncLiteTransaction) :=
  match cursor with
  | [] => mret transactions
  | entry :: cursor' =>
      let tx := row_columns entry in
      if bool_decide (tx_type tx = SWAP) then
        match zksynclite_swaps d !! row_identifier entry with
        | None =>
            log ERROR "Could not deserialize zksync lite transaction from the DB due to not finding swap data";;
            mret transactions
        | Some swap_result =>
            mret (transactions ++
                  [{| tx_hash := tx_hash tx; tx_type := tx_type tx; timestamp := timestamp tx;
                      block_number := block_number tx; from_address := from_address tx;
                      to_address := to_address tx; asset := asset tx; amount := amount tx;
                      fee := fee tx; swap_data := Some swap_result |}])
        end
      else get_db_transactions_loop d cursor' (transactions ++ [tx])
  end.

(** [get_db_transactions(queryfilter, bindings)]: the filter is either empty
    ([None]) or [WHERE is_decoded=?] with its binding. *)
Definition get_db_transactions (queryfilter : option Z) : M (list ZKSyncLiteTransaction) :=
  d ← get_db;
  let cursor :=
    match queryfilter with
    | None => zksynclite_transactions d
    | Some v => filter (fun r => is_decoded r = v) (zksynclite_transactions d)
    end in
  get_db_transactions_loop d cursor [].

(** Modelled from the spec: the query-range collaborator
    ([getQueryRange(locationKey) -> range | absent],
    [updateQueryRange(locationKey, range)]) is absent. *)
Definition get_used_query_range (d : database) (name : string) : option (Z * Z) :=
  snd <$> find (fun e => String.eqb (fst e) name) (used_query_ranges d).

(** Modelled from the spec: see [get_used_query_range]; the range stored
    under a key is replaced. *)
Definition update_used_query_range (location_string : string) (queried_range : Z * Z) : M unit :=
  d ← get_db;
  set_db {| zksynclite_transactions := zksynclite_transactions d;
            zksynclite_swaps := zksynclite_swaps d;
            history_events := history_events d;
            used_query_ranges :=
              (location_string, queried_range) ::
              filter (fun e => negb (String.eqb (fst e) location_string)) (used_query_ranges d);
            zksync_lite_accounts := zksync_lite_accounts d |}.

(** ** PaginatedFetcher *)

Inductive Direction : Type :=
| older
| newer.

Definition direction_str (direction : Direction) : string :=
  match direction with
  | older => "older"
  | newer => "newer"
  end.

(** The [for idx, entry in enumerate(result)] loop of
    [_query_zksync_api_transactions], from index [idx] on: it returns the
    list [transactions] and [last_tx_hash] as they are after the loop.
    A transaction object is always true, so [if tx] is [tx is not None]. *)
Fixpoint _query_zksync_api_transactions_entries (fuel : nat) (address : string)
    (idx : nat) (entries : list json) (transactions : list ZKSyncLiteTransaction)
    (last_tx_hash : json) : M (list ZKSyncLiteTransaction * json) :=
  match entries with
  | [] => mret (transactions, last_tx_hash)
  | entry :: entries' =>
      skip ← (if (idx =? 0)%nat then
                entry_hash ← lift (getitem entry "txHash");
                mret (py_eq entry_hash last_tx_hash)
              else mret false);
      if (skip : bool) then
        _query_zksync_api_transactions_entries fuel address (S idx) entries' transactions last_tx_hash
      else
        tx ← _deserialize_zksync_transaction fuel entry address;
        match tx with
        | Some tx =>
            entry_hash ← lift (getitem entry "txHash");
            _query_zksync_api_transactions_entries fuel address (S idx) entries'
              (transactions ++ [tx]) entry_hash
        | None =>
            _query_zksync_api_transactions_entries fuel address (S idx) entries'
              transactions last_tx_hash
        end
  end.

(** The request of one page and the extraction of its [list]: the first
    statements of the [while True] loop of
    [_query_zksync_api_transactions]. *)
Definition _query_zksync_api_transactions_page (address : string) (from_hash : json)
    (direction : Direction) : M json :=
  response ← _query_api ("accounts/" +:+ address +:+ "/transactions")
    [("from", from_hash); ("limit", JInt (Z.of_nat ZKSYNCLITE_MAX_LIMIT));
     ("direction", JStr (direction_str direction))];
  result ← lift (get_default response "list" JNull);
  match result with
  | JNull =>
      log ERROR "Unexpected zksync transactions response. Could not find result in the response.";;
      raise RemoteError
  | _ => mret result
  end.

(** How an iteration of a [while True] loop ends: with [break], or at its
    last statement with the values the next iteration starts from. *)
Inductive loop_control (S : Type) : Type :=
| Break (acc : S)
| Continue (from_hash last_tx_hash : json) (acc : S).
#[global] Arguments Break {S} acc.
#[global] Arguments Continue {S} from_hash last_tx_hash acc.

Section Generator.

(** The generator [_query_zksync_api_transactions] together with the
    [for] loop that consumes it: [body acc batch] is the consumer's loop
    body, run at each [yield] on the batch yielded, [acc] being the
    consumer's variables. *)
Context {S : Type} (body : S -> list ZKSyncLiteTransaction -> M S).

(** One iteration of the generator's [while True] loop. [fuel] is the
    budget handed to the token directory. *)
Definition _query_zksync_api_transactions_iteration (fuel : nat) (address : string)
    (from_hash : json) (direction : Direction) (last_tx_hash : json) (acc : S) :
    M (loop_control S) :=
  result ← _query_zksync_api_transactions_page address from_hash direction;
  entries ← lift (py_iter result);
  '(transactions, last_tx_hash') ←
    _query_zksync_api_transactions_entries fuel address 0 entries [] last_tx_hash;
  acc' ← body acc transactions;
  n ← lift (py_len result);
  if (n <? ZKSYNCLITE_MAX_LIMIT)%nat then mret (Break acc')
  else
    last_entry ← lift (py_last result);
    from_hash' ← lift (getitem last_entry "txHash");
    mret (Continue from_hash' last_tx_hash' acc').

(** The loop itself; [pages] bounds the number of its iterations. *)
Fixpoint _query_zksync_api_transactions_loop (fuel pages : nat) (address : string)
    (from_hash : json) (direction : Direction) (last_tx_hash : json) (acc : S) : M S :=
  match pages with
  | O => raise OutOfFuel
  | Datatypes.S pages' =>
      control ← _query_zksync_api_transactions_iteration fuel address from_hash direction
                  last_tx_hash acc;
      match control with
      | Break acc' => mret acc'
      | Continue from_hash' last_tx_hash' acc' =>
          _query_zksync_api_transactions_loop fuel pages' address from_hash' direction
            last_tx_hash' acc'
      end
  end.

Definition _query_zksync_api_transactions (fuel pages : nat) (address : string)
    (from_hash : json) (direction : Direction) (acc : S) : M S :=
  _query_zksync_api_transactions_loop fuel pages address from_hash direction (JStr "") acc.

End Generator.

(** The consumer [list(...)]: it collects the batches yielded, in order. *)
Definition collect (acc : list (list ZKSyncLiteTransaction))
    (batch : list ZKSyncLiteTransaction) : M (list (list ZKSyncLiteTransaction)) :=
  mret (acc ++ [batch]).

(** [list(self._query_zksync_api_transactions(...))]. *)
Definition yielded_batches (fuel pages : nat) (address : string) (from_hash : json)
    (direction : Direction) : M (list (list ZKSyncLiteTransaction)) :=
  _query_zksync_api_transactions collect fuel pages address from_hash direction [].

(** Python sets of transactions, as lists without repetition for
    [transaction_eq], in the order of first insertion (Python leaves the
    order in which a set is iterated open; this is one such order). *)
Definition set_member (t : ZKSyncLiteTransaction) (s : list ZKSyncLiteTransaction) : bool :=
  existsb (transaction_eq t) s.

Definition set_add (s : list ZKSyncLiteTransaction) (t : ZKSyncLiteTransaction) :
    list ZKSyncLiteTransaction :=
  if set_member t s then s else s ++ [t].

Definition set_union (s1 s2 : list ZKSyncLiteTransaction) : list ZKSyncLiteTransaction :=
  fold_left set_add s2 s1.

Definition set_intersection (s1 s2 : list ZKSyncLiteTransaction) : list ZKSyncLiteTransaction :=
  List.filter (fun t => set_member t s2) s1.

Definition set_difference (s1 s2 : list ZKSyncLiteTransaction) : list ZKSyncLiteTransaction :=
  List.filter (fun t => negb (set_member t s2)) s1.

(** The variables of [_query_and_save_transactions_for_range] that its loop
    updates. *)
Record range_vars : Type := {
  current_start_ts : Z;
  current_end_ts : Z;
  input_transactions : list ZKSyncLiteTransaction
}.

(** The body of the loop of [_query_and_save_transactions_for_range]. *)
Definition _query_and_save_transactions_for_range_body (address : string)
    (direction : Direction) (vars : range_vars)
    (new_transactions : list ZKSyncLiteTransaction) : M range_vars :=
  match last new_transactions with
  | None => mret vars
  | Some last_transaction =>
      let unique_transactions := set_union [] new_transactions in
      let existing_txs :=
        length (set_intersection unique_transactions (input_transactions vars)) in
      unique_transactions' ←
        (if negb (existing_txs =? 0)%nat then
           log DEBUG "Got already queried transactions during pagination";;
           mret (set_difference unique_transactions (input_transactions vars))
         else mret unique_transactions);
      _add_zksynctxs_db unique_transactions';;
      let start_ts' :=
        match direction with
        | older => timestamp last_transaction
        | newer => current_start_ts vars
        end in
      let end_ts' :=
        match direction with
        | older => current_end_ts vars
        | newer => timestamp last_transaction
        end in
      update_used_query_range (ZKSYNCLITE_TX_SAVEPREFIX +:+ address) (start_ts', end_ts');;
      mret {| current_start_ts := start_ts'; current_end_ts := end_ts';
              input_transactions := set_union (input_transactions vars) unique_transactions' |}
  end.

Definition _query_and_save_transactions_for_range (fuel pages : nat) (address : string)
    (start_ts end_ts : Z) (from_hash : json) (direction : Direction) : M unit :=
  _query_zksync_api_transactions
    (_query_and_save_transactions_for_range_body address direction)
    fuel pages address from_hash direction
    {| current_start_ts := start_ts; current_end_ts := end_ts; input_transactions := [] |};;
  mret tt.

(** ** IngestionOrchestrator: [fetch_transactions] *)

(** The single row of [SELECT tx_hash, min(timestamp)] (or [max]) over the
    whole table: the extreme timestamp with the hash of a row that reaches
    it, or [None] for the row of two NULLs an empty table gives. A
    transaction hash is held as the string of its hexadecimal digits. *)
Fixpoint select_tx_hash_min_timestamp (rows : list tx_row) : option (string * Z) :=
  match rows with
  | [] => None
  | r :: rows' =>
      match select_tx_hash_min_timestamp rows' with
      | None => Some (tx_hash (row_columns r), timestamp (row_columns r))
      | Some (h, t) =>
          if timestamp (row_columns r) <=? t
          then Some (tx_hash (row_columns r), timestamp (row_columns r))
          else Some (h, t)
      end
  end.

Fixpoint select_tx_hash_max_timestamp (rows : list tx_row) : option (string * Z) :=
  match rows with
  | [] => None
  | r :: rows' =>
      match select_tx_hash_max_timestamp rows' with
      | None => Some (tx_hash (row_columns r), timestamp (row_columns r))
      | Some (h, t) =>
          if t <=? timestamp (row_columns r)
          then Some (tx_hash (row_columns r), timestamp (row_columns r))
          else Some (h, t)
      end
  end.

(** [cursor.fetchone()]: the next pending row of the cursor, if any, and
    the rows left. *)
Definition fetchone {R : Type} (cursor : list R) : option R * list R :=
  match cursor with
  | [] => (None, [])
  | row :: cursor' => (Some row, cursor')
  end.

(** The arguments of one call of [_query_and_save_transactions_for_range]. *)
Record walk : Type := {
  walk_start_ts : Z;
  walk_end_ts : Z;
  walk_from_hash : string;
  walk_direction : Direction
}.

(** The part of [fetch_transactions] that reads the database and chooses
    the walks to perform, in order. Subscripting the [None] of an exhausted
    cursor raises [TypeError]. [result] is the row of the first query
    throughout, as in the source. Each query gives one row, so the second
    [fetchone] after the second query finds none; the branch it guards is
    kept as written, a NULL [result[1]] being no timestamp ([TypeError]
    here). *)
Definition fetch_transactions_walks (d : database) (address : string) (start_ts end_ts : Z) :
    result (list walk) :=
  let queried_range := get_used_query_range d ("zksynctxs_" +:+ address) in
  let cursor := [select_tx_hash_min_timestamp (zksynclite_transactions d)] in
  let '(result, cursor) := fetchone cursor in
  let '(min_tx_hash, min_timestamp) :=
    match result with
    | Some (Some (h, t)) => ("0x" +:+ h, t)
    | _ => ("latest", start_ts)
    end in
  let cursor := [select_tx_hash_max_timestamp (zksynclite_transactions d)] in
  let '(first_row, cursor) := fetchone cursor in
  match first_row with
  | None => Raise TypeError
  | Some _ =>
      let '(result_hash, cursor) := fetchone cursor in
      '(max_tx_hash, max_timestamp) ←
        match result, result_hash with
        | Some result_row, Some (Some (h, _)) =>
            match result_row with
            | Some (_, t) => Ok ("0x" +:+ h, t)
            | None => Raise TypeError
            end
        | _, _ => Ok ("latest", end_ts)
        end;
      match queried_range with
      | None =>
          Ok [{| walk_start_ts := start_ts; walk_end_ts := end_ts;
                 walk_from_hash := "latest"; walk_direction := older |}]
      | Some (range_start, _) =>
          if negb (range_start =? 0) then
            Ok [{| walk_start_ts := start_ts; walk_end_ts := min_timestamp;
                   walk_from_hash := min_tx_hash; walk_direction := older |};
                {| walk_start_ts := max_timestamp; walk_end_ts := end_ts;
                   walk_from_hash := max_tx_hash; walk_direction := newer |}]
          else
            Ok [{| walk_start_ts := max_timestamp; walk_end_ts := end_ts;
                   walk_from_hash := max_tx_hash; walk_direction := newer |}]
      end
  end.

Definition perform_walk (fuel pages : nat) (address : string) (w : walk) : M unit :=
  _query_and_save_transactions_for_range fuel pages address
    (walk_start_ts w) (walk_end_ts w) (JStr (walk_from_hash w)) (walk_direction w).

(** [fetch_transactions]: the walks run inside [try ... except RemoteError],
    the reads before it. *)
Definition fetch_transactions (fuel pages : nat) (address : string) (start_ts end_ts : Z) :
    M unit :=
  d ← get_db;
  walks ← lift (fetch_transactions_walks d address start_ts end_ts);
  try_except
    (for_each (perform_walk fuel pages address) walks)
    (fun e => bool_decide (e = RemoteError))
    (fun _ => log ERROR "Got error while querying zksync lite transactions from zksync api. Transactions not added to the DB.").

(** ** LedgerDecoder *)

(** [x in tracked_addresses] for an optional address: [None] is no tracked
    address. *)
Definition is_tracked (a : option string) (tracked_addresses : list string) : bool :=
  match a with
  | Some a => existsb (String.eqb a) tracked_addresses
  | None => false
  end.

Definition same_address (a b : option string) : bool :=
  match a, b with
  | Some a, Some b => String.eqb a b
  | None, None => true
  | _, _ => false
  end.

(** An entry of [event_data]: sequence index, type, subtype, asset, amount,
    location label, target and notes. *)
Record event_entry : Type := {
  ee_sequence_index : Z;
  ee_event_type : HistoryEventType;
  ee_event_subtype : HistoryEventSubType;
  ee_asset : CryptoAsset;
  ee_amount : FVal;
  ee_location_label : option string;
  ee_target : option string;
  ee_notes : list note_part
}.

Definition address_suffix (transaction : ZKSyncLiteTransaction) : list note_part :=
  if same_address (from_address transaction) (to_address transaction) then []
  else [NText " address "; NAddress (to_address transaction)].

(** The [match transaction.tx_type] statement of [decode_transaction]: the
    transaction object as the statement leaves it (the ChangePubKey case
    assigns to its [amount] and [fee]) and the list [event_data]. The
    [assert] of the Swap case raises [AssertionError]. *)
Definition decode_transaction_event_data (transaction : ZKSyncLiteTransaction)
    (tracked_addresses : list string) : result (ZKSyncLiteTransaction * list event_entry) :=
  let tracked_from := is_tracked (from_address transaction) tracked_addresses in
  let tracked_to := is_tracked (to_address transaction) tracked_addresses in
  let entry (idx : Z) (ty : HistoryEventType) (sub : HistoryEventSubType)
            (a : CryptoAsset) (amt : FVal) (label target : option string)
            (notes : list note_part) : event_entry :=
    {| ee_sequence_index := idx; ee_event_type := ty; ee_event_subtype := sub;
       ee_asset := a; ee_amount := amt; ee_location_label := label;
       ee_target := target; ee_notes := notes |} in
  match tx_type transaction with
  | DEPOSIT =>
      if tracked_to then
        Ok (transaction,
            [entry 0 HET_WITHDRAWAL HEST_BRIDGE (asset transaction) (amount transaction)
               (to_address transaction) None
               ([NText "Bridge "; NAmount (amount transaction); NText " ";
                 NText (symbol (asset transaction)); NText " from Ethereum to ZKSync Lite"]
                ++ address_suffix transaction)])
      else Ok (transaction, [])
  | WITHDRAW =>
      if tracked_from then
        Ok (transaction,
            [entry 0 HET_DEPOSIT HEST_BRIDGE (asset transaction) (amount transaction)
               (from_address transaction) (to_address transaction)
               ([NText "Bridge "; NAmount (amount transaction); NText " ";
                 NText (symbol (asset transaction)); NText " from ZKSync Lite to Ethereum"]
                ++ address_suffix transaction)])
      else Ok (transaction, [])
  | TRANSFER =>
      if tracked_from && tracked_to then
        Ok (transaction,
            [entry 0 HET_TRANSFER HEST_NONE (asset transaction) (amount transaction)
               (from_address transaction) (to_address transaction)
               [NText "Transfer "; NAmount (amount transaction); NText " ";
                NText (symbol (asset transaction)); NText " to ";
                NAddress (to_address transaction)]])
      else if tracked_from then
        Ok (transaction,
            [entry 0 HET_SPEND HEST_NONE (asset transaction) (amount transaction)
               (from_address transaction) (to_address transaction)
               [NText "Send "; NAmount (amount transaction); NText " ";
                NText (symbol (asset transaction)); NText " to ";
                NAddress (to_address transaction)]])
      else if tracked_to then
        Ok (transaction,
            [entry 0 HET_RECEIVE HEST_NONE (asset transaction) (amount transaction)
               (to_address transaction) (from_address transaction)
               [NText "Receive "; NAmount (amount transaction); NText " ";
                NText (symbol (asset transaction)); NText " from ";
                NAddress (from_address transaction)]])
      else Ok (transaction, [])
  | FULLEXIT | FORCEDEXIT =>
      Ok (transaction,
          [entry 0 HET_INFORMATIONAL HEST_NONE (asset transaction) (amount transaction)
             (from_address transaction) (to_address transaction)
             ([NText (if bool_decide (tx_type transaction = FULLEXIT) then "Full" else "Forced");
               NText " exit to Ethereum"] ++ address_suffix transaction)])
  | CHANGEPUBKEY =>
      match fee transaction with
      | Some fee_amount =>
          if FVal_bool fee_amount then
            let transaction' :=
              {| tx_hash := tx_hash transaction; tx_type := tx_type transaction;
                 timestamp := timestamp transaction; block_number := block_number transaction;
                 from_address := from_address transaction; to_address := to_address transaction;
                 asset := asset transaction; amount := fee_amount; fee := None;
                 swap_data := swap_data transaction |} in
            Ok (transaction',
                [entry 0 HET_SPEND HEST_FEE (asset transaction') (amount transaction')
                   (from_address transaction') (to_address transaction')
                   [NText "Spend "; NAmount (amount transaction'); NText " ETH to ChangePubKey"]])
          else Ok (transaction, [])
      | None => Ok (transaction, [])
      end
  | SWAP =>
      match swap_data transaction with
      | None => Raise AssertionError
      | Some data =>
          Ok (transaction,
              [entry 0 HET_TRADE HEST_SPEND (from_asset data) (from_amount data)
                 (from_address transaction) (to_address transaction)
                 [NText "Swap "; NAmount (from_amount data); NText " ";
                  NText (symbol (from_asset data)); NText " via ZKSync Lite"];
               entry 1 HET_TRADE HEST_RECEIVE (to_asset data) (to_amount data)
                 (from_address transaction) (to_address transaction)
                 [NText "Receive "; NAmount (to_amount data); NText " ";
                  NText (symbol (to_asset data));
                  NText " as the result of a swap via ZKSync Lite"]])
      end
  end.

(** [ts_sec_to_ms]. *)
Definition ts_sec_to_ms (ts : Z) : Z := ts * 1000.

(** The [EvmEvent] built from an entry of [event_data]. *)
Definition event_of_entry (transaction : ZKSyncLiteTransaction) (e : event_entry) : EvmEvent :=
  {| event_identifier := ZKL_IDENTIFIER (tx_hash transaction);
     ev_tx_hash := tx_hash transaction;
     sequence_index := ee_sequence_index e;
     ev_timestamp := ts_sec_to_ms (timestamp transaction);
     location := ZKSYNC_LITE;
     event_type := ee_event_type e;
     event_subtype := ee_event_subtype e;
     ev_asset := ee_asset e;
     balance := ee_amount e;
     location_label := ee_location_label e;
     address := ee_target e;
     notes := ee_notes e |}.

(** The events [decode_transaction] has built when it reaches the
    database: those of [event_data], then the fee event when the
    transaction (as the [match] left it) has a fee, there is an event and
    the first one is no receive. [target] is what the loop over
    [event_data] last bound it to. *)
Definition decode_transaction_events (transaction : ZKSyncLiteTransaction)
    (event_data : list event_entry) : list EvmEvent :=
  let events := map (event_of_entry transaction) event_data in
  let target :=
    match last event_data with
    | Some e => ee_target e
    | None => None
    end in
  match fee transaction, events, last events with
  | Some fee_amount, first_event :: _, Some last_event =>
      if bool_decide (event_type first_event = HET_RECEIVE) then events
      else
        let fee_type :=
          if bool_decide (event_type first_event = HET_SPEND)
             || bool_decide (event_type first_event = HET_TRANSFER) then "Transfer"
          else if bool_decide (event_type first_event = HET_TRADE) then "Swap"
          else "Bridging" in
        events ++
        [{| event_identifier := ZKL_IDENTIFIER (tx_hash transaction);
            ev_tx_hash := tx_hash transaction;
            sequence_index := sequence_index last_event + 1;
            ev_timestamp := ts_sec_to_ms (timestamp transaction);
            location := ZKSYNC_LITE;
            event_type := event_type first_event;
            event_subtype := HEST_FEE;
            ev_asset := asset transaction;
            balance := fee_amount;
            location_label := location_label first_event;
            address := target;
            notes := [NText fee_type; NText " fee of "; NAmount fee_amount; NText " ";
                      NText (symbol (asset transaction))] |}]
  | _, _, _ => events
  end.

(** Modelled from the spec: [DBHistoryEvents.add_history_event] is absent;
    [appendLedgerEvents(events)] appends the events to the store. *)
Definition add_history_events (events : list EvmEvent) : M unit :=
  d ← get_db;
  set_db {| zksynclite_transactions := zksynclite_transactions d;
            zksynclite_swaps := zksynclite_swaps d;
            history_events := history_events d ++ events;
            used_query_ranges := used_query_ranges d;
            zksync_lite_accounts := zksync_lite_accounts d |}.

(** [UPDATE zksynclite_transactions SET is_decoded=? WHERE tx_hash=?]. *)
Definition with_is_decoded (value : Z) (h : string) (rows : list tx_row) : list tx_row :=
  map (fun r => if String.eqb (tx_hash (row_columns r)) h
                then {| row_identifier := row_identifier r;
                        row_columns := row_columns r; is_decoded := value |}
                else r)
      rows.

Definition set_is_decoded (value : Z) (h : string) : M unit :=
  d ← get_db;
  set_db {| zksynclite_transactions := with_is_decoded value h (zksynclite_transactions d);
            zksynclite_swaps := zksynclite_swaps d;
            history_events := history_events d;
            used_query_ranges := used_query_ranges d;
            zksync_lite_accounts := zksync_lite_accounts d |}.

(** [DELETE FROM history_events WHERE event_identifier=?]. *)
Definition without_identifier (event_id : string) (events : list EvmEvent) : list EvmEvent :=
  List.filter (fun e => negb (String.eqb (event_identifier e) event_id)) events.

Definition delete_history_events (event_id : string) : M unit :=
  d ← get_db;
  set_db {| zksynclite_transactions := zksynclite_transactions d;
            zksynclite_swaps := zksynclite_swaps d;
            history_events := without_identifier event_id (history_events d);
            used_query_ranges := used_query_ranges d;
            zksync_lite_accounts := zksync_lite_accounts d |}.

(** [if transaction.fee]: there is a fee and it is true. *)
Definition has_fee (transaction : ZKSyncLiteTransaction) : bool :=
  match fee transaction with
  | Some fee_amount => FVal_bool fee_amount
  | None => false
  end.

(** [decode_transaction]. Python passes the transaction by reference and
    the method assigns to its fields: the value returned here is the
    transaction object as the call leaves it. The error of the ChangePubKey
    case without a fee is logged here. *)
Definition decode_transaction (transaction : ZKSyncLiteTransaction)
    (tracked_addresses : list string) : M ZKSyncLiteTransaction :=
  '(transaction', event_data) ← lift (decode_transaction_event_data transaction tracked_addresses);
  (if bool_decide (tx_type transaction = CHANGEPUBKEY) && negb (has_fee transaction)
   then log ERROR "Found zksync lite ChangePubKey transaction with no fee field. Skipping"
   else mret tt);;
  let events := decode_transaction_events transaction' event_data in
  add_history_events events;;
  set_is_decoded 1 (tx_hash transaction');;
  mret transaction'.

(** The loop of [decode_undecoded_transactions], from index [tx_index] on. *)
Fixpoint decode_undecoded_transactions_loop (send_ws_notifications : bool)
    (total_transactions : nat) (tracked_addresses : list string) (tx_index : nat)
    (transactions : list ZKSyncLiteTransaction) : M unit :=
  match transactions with
  | [] => mret tt
  | transaction :: transactions' =>
      delete_history_events (ZKL_IDENTIFIER (tx_hash transaction));;
      decode_transaction transaction tracked_addresses;;
      (if send_ws_notifications && (tx_index mod 10 =? 0)%nat
       then add_message total_transactions tx_index else mret tt);;
      decode_undecoded_transactions_loop send_ws_notifications total_transactions
        tracked_addresses (S tx_index) transactions'
  end.

Definition decode_undecoded_transactions (force_redecode send_ws_notifications : bool) : M nat :=
  transactions ← get_db_transactions (if force_redecode then None else Some 0);
  d ← get_db;
  let tracked_addresses := zksync_lite_accounts d in
  let total_transactions := length transactions in
  decode_undecoded_transactions_loop send_ws_notifications total_transactions
    tracked_addresses 0 transactions;;
  (if send_ws_notifications then add_message total_transactions total_transactions
   else mret tt);;
  mret (length transactions).

End Manager.

(** ** A concrete setting for the examples

    Collaborators with the simplest behaviour that fits their contract: hashes
    and addresses are strings taken as they are, integers are strings of
    decimal digits, a creation time is the string of its seconds, the page
    limit is 2 and an [FVal] is true when it is not zero. *)
Module Sample.

Fixpoint digits_value (s : string) (acc : Z) : option Z :=
  match s with
  | EmptyString => Some acc
  | String c s' =>
      let n := Z.of_nat (Ascii.nat_of_ascii c) in
      if (48 <=? n) && (n <=? 57) then digits_value s' (10 * acc + (n - 48)) else None
  end.

Definition int_from_str (j : json) : result Z :=
  match j with
  | JStr (String c s) =>
      match digits_value (String c s) 0 with
      | Some z => Ok z
      | None => Raise DeserializationError
      end
  | _ => Raise DeserializationError
  end.

Definition string_of_json (j : json) : result string :=
  match j with
  | JStr s => Ok s
  | _ => Raise DeserializationError
  end.

Definition tx_type_of_json (j : json) : result ZKSyncLiteTXType :=
  match j with
  | JStr s =>
      if String.eqb s "Transfer" then Ok TRANSFER
      else if String.eqb s "Deposit" then Ok DEPOSIT
      else if String.eqb s "Withdraw" then Ok WITHDRAW
      else if String.eqb s "ChangePubKey" then Ok CHANGEPUBKEY
      else if String.eqb s "ForcedExit" then Ok FORCEDEXIT
      else if String.eqb s "FullExit" then Ok FULLEXIT
      else if String.eqb s "Swap" then Ok SWAP
      else Raise DeserializationError
  | _ => Raise DeserializationError
  end.

Definition same_transaction (a b : ZKSyncLiteTransaction) : bool :=
  String.eqb (tx_hash a) (tx_hash b) && bool_decide (tx_type a = tx_type b)
  && (timestamp a =? timestamp b) && Qeq_bool (amount a) (amount b).

#[global] Instance collaborators : Collaborators := {|
  ZKSYNCLITE_MAX_LIMIT := 2;
  ZKSYNCLITE_TX_SAVEPREFIX := "zksynctxs_";
  ZKL_IDENTIFIER := fun h => "zkl" +:+ h;
  deserialize_evm_tx_hash := string_of_json;
  deserialize_evm_address := string_of_json;
  deserialize_int_from_str := int_from_str;
  iso8601ts_to_timestamp := int_from_str;
  ZKSyncLiteTXType_deserialize := tx_type_of_json;
  get_or_create_evm_token := fun a => Some {| identifier := a; symbol := "TKN"; decimals := 6 |};
  FVal_bool := fun q => negb (Qeq_bool q 0);
  transaction_eq := same_transaction
|}.

Definition empty_db : database :=
  {| zksynclite_transactions := []; zksynclite_swaps := ∅; history_events := [];
     used_query_ranges := []; zksync_lite_accounts := [] |}.

(** A manager whose token directory knows token 0, the native asset, and
    whose server answers [serve]. *)
Definition manager (serve : nat -> request -> http_reply) (d : database) : state :=
  {| server := serve; requests := 0; sleeps := []; logs := []; ws_messages := [];
     id_to_token := [(JInt 0, A_ETH)]; symbol_to_token := [(JStr "ETH", A_ETH)];
     db := d |}.

Definition always_429 : nat -> request -> http_reply :=
  fun _ _ => Response TOO_MANY_REQUESTS None.

Definition tracked : string := "0xT".

(** A raw entry of the transactions endpoint. *)
Definition raw_entry (hash status : string) (op : list (string * json)) : json :=
  JDict [("txHash", JStr hash); ("blockNumber", JInt 7); ("createdAt", JStr "1700000000");
         ("status", JStr status); ("op", JDict op)].

Definition change_pub_key_entry : json :=
  raw_entry "c0" "finalized"
    [("type", JStr "ChangePubKey"); ("account", JStr tracked); ("feeToken", JInt 0);
     ("fee", JStr "1000000000000000")].

Definition transfer_entry (hash status from to : string) : json :=
  raw_entry hash status
    [("type", JStr "Transfer"); ("from", JStr from); ("to", JStr to); ("token", JInt 0);
     ("amount", JStr "1000000000000000000"); ("fee", JStr "2000000000000000")].

Definition transaction_of (hash : string) (ty : ZKSyncLiteTXType) (ts : Z)
    (from to : option string) (amount : FVal) (fee : option FVal)
    (swap : option ZKSyncLiteSwapData) : ZKSyncLiteTransaction :=
  {| tx_hash := hash; tx_type := ty; timestamp := ts; block_number := JInt 7;
     from_address := from; to_address := to; asset := A_ETH; amount := amount; fee := fee;
     swap_data := swap |}.

Definition change_pub_key : ZKSyncLiteTransaction :=
  transaction_of "c0" CHANGEPUBKEY 1700000000 (Some tracked) None ZERO (Some (1 # 1000)%Q) None.

Definition foreign_transfer : ZKSyncLiteTransaction :=
  transaction_of "f0" TRANSFER 1700000100 (Some "0xA") (Some "0xB") 1%Q (Some (1 # 500)%Q) None.

Definition usdc : CryptoAsset := {| identifier := "USDC"; symbol := "USDC"; decimals := 6 |}.

Definition legs : ZKSyncLiteSwapData :=
  {| from_asset := A_ETH; from_amount := 1%Q; to_asset := usdc; to_amount := 1800%Q |}.

Definition swap : ZKSyncLiteTransaction :=
  transaction_of "5a" SWAP 1700000200 (Some tracked) (Some tracked) (1 # 1000)%Q
    (Some (1 # 1000)%Q) (Some legs).

Definition row_of (id : Z) (t : ZKSyncLiteTransaction) (decoded : Z) : tx_row :=
  {| row_identifier := id; row_columns := serialize_for_db t; is_decoded := decoded |}.

(** The reply that carries a page of the transactions endpoint. *)
Definition page_reply (entries : list json) : http_reply :=
  Response HTTP_OK (Some [("result", JDict [("list", JList entries)])]).

Definition entry_a : json := transfer_entry "a0" "finalized" tracked "0xB".
Definition entry_b : json := transfer_entry "b0" "finalized" tracked "0xB".
Definition entry_b_pending : json := transfer_entry "b0" "pending" tracked "0xB".
Definition entry_c : json := transfer_entry "c1" "finalized" tracked "0xB".

(** A server whose first two pages overlap on the row [b0]. *)
Definition serve_overlap (boundary : json) : nat -> request -> http_reply :=
  fun n _ =>
    match n with
    | O => page_reply [entry_a; boundary]
    | S O => page_reply [boundary; entry_c]
    | _ => page_reply [entry_c]
    end.

(** A server that fails after its first page. *)
Definition serve_then_fail : nat -> request -> http_reply :=
  fun n _ =>
    match n with
    | O => page_reply [entry_a; entry_b]
    | _ => Response 500 None
    end.

(** The transaction the entries above normalize to. *)
Definition transfer_of (hash : string) : ZKSyncLiteTransaction :=
  transaction_of hash TRANSFER 1700000000 (Some tracked) (Some "0xB") 1%Q (Some (1 # 500)%Q) None.

(** A database that holds a transfer between foreign addresses and a swap,
    with a prior range that did not reach zero. *)
Definition stored_db : database :=
  {| zksynclite_transactions := [row_of 1 foreign_transfer 0; row_of 2 swap 0];
     zksynclite_swaps := {[ 2 := legs ]};
     history_events := [];
     used_query_ranges := [("zksynctxs_0xT", (1700000000, 1700000150))];
     zksync_lite_accounts := [tracked] |}.

(** A database that holds an undecoded ChangePubKey and an undecoded
    transfer between foreign addresses. *)
Definition pending_db : database :=
  {| zksynclite_transactions := [row_of 1 change_pub_key 0; row_of 2 foreign_transfer 0];
     zksynclite_swaps := ∅;
     history_events := [];
     used_query_ranges := [];
     zksync_lite_accounts := [tracked] |}.

End Sample.

(** ** Single-transaction lookup and balances *)

(** [j.items()]: only dicts have the method. The association list of a
    dict holds each key once. *)
Definition py_items (j : json) : result (list (string * json)) :=
  match j with
  | JDict d => Ok d
  | _ => Raise AttributeError
  end.

(** [try: for x in l: body(x) except <handled>: handler], for a body that
    updates the variables [acc] as its last statement: a caught exception
    ends the loop and leaves [acc] as the iterations before it left them. *)
Fixpoint try_for_each {A S : Type} (body : S -> A -> M S) (handled : exn -> bool)
    (handler : exn -> M unit) (l : list A) (acc : S) : M S :=
  match l with
  | [] => mret acc
  | x :: l' =>
      fun s =>
        match body acc x s with
        | (Ok acc', s') => try_for_each body handled handler l' acc' s'
        | (Raise e, s') =>
            if handled e then (handler e;; mret acc) s' else (Raise e, s')
        end
  end.

Section Queries.

Context `{Collaborators}.

(** [query_single_transaction]: the hash is held as the string of its
    hexadecimal digits, which is what [tx_hash.hex()] puts in the URL. *)
Definition query_single_transaction (pages : nat) (tx_hash : string)
    (concerning_address : string) : M (option ZKSyncLiteTransaction) :=
  response ← try_except
    (response ← _query_api ("transactions/" +:+ tx_hash +:+ "/data") [];
     mret (Some response))
    (fun e => bool_decide (e = RemoteError))
    (fun _ =>
       log ERROR "Could not find transaction from zksync lite api due to a remote error";;
       mret None);
  match response with
  | None => mret None
  | Some response =>
      tx_entry ← lift (get_default response "tx" JNull);
      match tx_entry with
      | JNull =>
          log ERROR "Could not find transaction from zksync lite api.";;
          mret None
      | _ =>
          tx ← _deserialize_zksync_transaction pages tx_entry concerning_address;
          match tx with
          | None =>
              log ERROR "Could not deserialize transaction. Got None";;
              mret None
          | Some tx =>
              _add_zksynctxs_db [tx];;
              mret (Some tx)
          end
      end
  end.

(** The price oracle [Inquirer.find_usd_price] and the [==] of two assets
    used as dict keys are absent: they are kept abstract. The oracle is any
    computation that returns a price or raises. *)
Context (find_usd_price : CryptoAsset -> M FVal).
Context (asset_eq : CryptoAsset -> CryptoAsset -> bool).

(** Modelled from the spec: the balance query prices each amount with the
    price oracle; a [Balance(amount, usd_value)] (balance.py, absent) is
    held as the pair of its arguments. *)
Definition Balance : Type := (FVal * FVal)%type.

(** Modelled from the spec: an [FVal] is an arbitrary-precision decimal;
    the product of two of them is their exact product, in lowest terms. *)
Definition FVal_mul (a b : FVal) : FVal := Qred (a * b)%Q.

(** [d[asset] = balance] on the dict of an address. *)
Fixpoint asset_dict_set (asset : CryptoAsset) (balance : Balance)
    (d : list (CryptoAsset * Balance)) : list (CryptoAsset * Balance) :=
  match d with
  | [] => [(asset, balance)]
  | (k, w) :: d' =>
      if asset_eq k asset then (k, balance) :: d' else (k, w) :: asset_dict_set asset balance d'
  end.

(** [balances[address][asset] = balance] on a [defaultdict(dict)]: the
    dict of an address is created when it is first subscripted. *)
Fixpoint balances_set (address : string) (asset : CryptoAsset) (balance : Balance)
    (balances : list (string * list (CryptoAsset * Balance))) :
    list (string * list (CryptoAsset * Balance)) :=
  match balances with
  | [] => [(address, asset_dict_set asset balance [])]
  | (a, d) :: balances' =>
      if String.eqb a address then (a, asset_dict_set asset balance d) :: balances'
      else (a, d) :: balances_set address asset balance balances'
  end.

(** The body of the loop over the [items()] of the balances of an
    address. *)
Definition get_balances_item (pages : nat) (address : string)
    (balances : list (string * list (CryptoAsset * Balance))) (item : string * json) :
    M (list (string * list (CryptoAsset * Balance))) :=
  let '(symbol, raw_amount_str) := item in
  found ← _get_token_by_symbol pages (JStr symbol);
  match found with
  | None =>
      log ERROR "Could not find asset for symbol in zksync mapping";;
      mret balances
  | Some asset =>
      raw_amount ← lift (deserialize_int_from_str raw_amount_str);
      let amount := asset_normalized_value raw_amount asset in
      usd_price ← try_except
        (usd_price ← find_usd_price asset; mret (Some usd_price))
        (fun e => bool_decide (e = RemoteError))
        (fun _ =>
           log ERROR "Error processing zksync lite balance entry due to inability to query USD price. Skipping balance entry";;
           mret None);
      match usd_price with
      | None => mret balances
      | Some usd_price =>
          mret (balances_set address asset (amount, FVal_mul usd_price amount) balances)
      end
  end.

(** The body of the loop of [get_balances] over the addresses. *)
Definition get_balances_address (pages : nat)
    (balances : list (string * list (CryptoAsset * Balance))) (address : string) :
    M (list (string * list (CryptoAsset * Balance))) :=
  result ← _query_api ("accounts/" +:+ address) [];
  finalized_result ← lift (get_default result "finalized" JNull);
  match finalized_result with
  | JNull => raise RemoteError
  | _ =>
      balances_json ← lift (get_default finalized_result "balances" (JDict []));
      items ← lift (py_items balances_json);
      try_for_each (get_balances_item pages address)
        (fun e => bool_decide (e = KeyError) || bool_decide (e = DeserializationError)
                  || bool_decide (e = RemoteError))
        (fun _ => log ERROR "Failed to query zksync balances")
        items balances
  end.

Fixpoint get_balances_loop (pages : nat) (addresses : list string)
    (balances : list (string * list (CryptoAsset * Balance))) :
    M (list (string * list (CryptoAsset * Balance))) :=
  match addresses with
  | [] => mret balances
  | address :: addresses' =>
      balances' ← get_balances_address pages balances address;
      get_balances_loop pages addresses' balances'
  end.

Definition get_balances (pages : nat) (addresses : list string) :
    M (list (string * list (CryptoAsset * Balance))) :=
  get_balances_loop pages addresses [].

End Queries.

(** ** Notions used to state the properties *)

(** The database a decode leaves: the events appended, the rows of the
    hash flagged. *)
Definition decoded_db (h : string) (events : list EvmEvent) (d : database) : database :=
  {| zksynclite_transactions := with_is_decoded 1 h (zksynclite_transactions d);
     zksynclite_swaps := zksynclite_swaps d;
     history_events := history_events d ++ events;
     used_query_ranges := used_query_ranges d;
     zksync_lite_accounts := zksync_lite_accounts d |}.

(** The rows of hash [h] are flagged as decoded. *)
Definition flagged_decoded (h : string) (d : database) : Prop :=
  forall r, r ∈ zksynclite_transactions d -> tx_hash (row_columns r) = h -> is_decoded r = 1.


(** The state after one rate-limited attempt followed by its sleep. *)
Definition backed_off (backoff : Z) (s : state) : state :=
  {| server := server s; requests := S (requests s); sleeps := backoff :: sleeps s;
     logs := (DEBUG, "Got too many requests error from zksync lite. Will backoff")
             :: (DEBUG, "Querying zksync lite") :: logs s;
     ws_messages := ws_messages s;
     id_to_token := id_to_token s; symbol_to_token := symbol_to_token s; db := db s |}.

(** The events a decode of [t] stores. *)
Definition decoded_events `{Collaborators} (t : ZKSyncLiteTransaction)
    (tracked_addresses : list string) : list EvmEvent :=
  match decode_transaction_event_data t tracked_addresses with
  | Ok (t', event_data) => decode_transaction_events t' event_data
  | Raise _ => []
  end.

(** The stored events of an identifier, in order. *)
Definition events_of (event_id : string) (d : database) : list EvmEvent :=
  List.filter (fun e => String.eqb (event_identifier e) event_id) (history_events d).

(** The database after the events of the transaction's identifier were
    deleted and the transaction decoded: what one iteration of the loop of a
    bulk pass does to it. *)
Definition redecoded_db `{Collaborators} (tracked_addresses : list string) (d : database)
    (t : ZKSyncLiteTransaction) : database :=
  decoded_db (tx_hash t) (decoded_events t tracked_addresses)
    {| zksynclite_transactions := zksynclite_transactions d;
       zksynclite_swaps := zksynclite_swaps d;
       history_events := without_identifier (ZKL_IDENTIFIER (tx_hash t)) (history_events d);
       used_query_ranges := used_query_ranges d;
       zksync_lite_accounts := zksync_lite_accounts d |}.

(** The transactions a bulk pass reads, hence decodes. *)
Definition decoded_by_pass `{Collaborators} (force_redecode : bool) (s : state)
    (t : ZKSyncLiteTransaction) : Prop :=
  exists L s', get_db_transactions (if force_redecode then None else Some 0) s = (Ok L, s') /\
               t ∈ L.

Definition stored_hashes (d : database) : list string :=
  map (fun r => tx_hash (row_columns r)) (zksynclite_transactions d).

(** [keeps R m]: whatever its outcome, the computation [m] takes a state
    to one related to it by [R]. *)
Definition keeps {A : Type} (R : state -> state -> Prop) (m : M A) : Prop :=
  forall s, R s (snd (m s)).

(** The database is left as it is. *)
Definition same_db (s s' : state) : Prop := db s' = db s.

(** The stored transaction rows stay, in their place; rows may be added
    after them. *)
Definition rows_kept (s s' : state) : Prop :=
  zksynclite_transactions (db s) `prefix_of` zksynclite_transactions (db s').

(** [walk_point fuel pages address walks s sm]: the run of [walks] from
    [s] with page budget [pages] goes through the state [sm] between two
    pages. Cutting a walk after [k] pages shows the state it is in when the
    batches of these pages are saved and the next page is about to be
    requested. *)
Inductive walk_point `{Collaborators} (fuel pages : nat) (address : string) :
    list walk -> state -> state -> Prop :=
| walk_point_start (walks : list walk) (s : state) :
    walk_point fuel pages address walks s s
| walk_point_page (w : walk) (walks : list walk) (s sk : state) (k : nat) :
    (k <= pages)%nat ->
    perform_walk fuel k address w s = (Raise OutOfFuel, sk) ->
    walk_point fuel pages address (w :: walks) s sk
| walk_point_next (w : walk) (walks : list walk) (s s1 sm : state) :
    perform_walk fuel pages address w s = (Ok tt, s1) ->
    walk_point fuel pages address walks s1 sm ->
    walk_point fuel pages address (w :: walks) s sm.

(** The calls a user of the manager makes. *)
Inductive manager_call : Type :=
| Call_fetch_transactions (fuel pages : nat) (address : string) (start_ts end_ts : Z)
| Call_decode_transaction (transaction : ZKSyncLiteTransaction)
    (tracked_addresses : list string)
| Call_decode_undecoded_transactions (force_redecode send_ws_notifications : bool).

(** The state a call leaves, whether it returns or raises. *)
Definition run_call `{Collaborators} (c : manager_call) (s : state) : state :=
  match c with
  | Call_fetch_transactions fuel pages address start_ts end_ts =>
      snd (fetch_transactions fuel pages address start_ts end_ts s)
  | Call_decode_transaction transaction tracked_addresses =>
      snd (decode_transaction transaction tracked_addresses s)
  | Call_decode_undecoded_transactions force_redecode send_ws_notifications =>
      snd (decode_undecoded_transactions force_redecode send_ws_notifications s)
  end.

(** [later s s']: the manager reaches [s'] from [s] by some calls. *)
Inductive later `{Collaborators} : state -> state -> Prop :=
| later_now (s : state) : later s s
| later_call (s s1 : state) (c : manager_call) : later s s1 -> later s (run_call c s1).

(** Once the hash [h] is stored with its rows flagged as decoded, it stays
    so. *)
Definition stays_decoded (h : string) (s s' : state) : Prop :=
  hash_stored h (zksynclite_transactions (db s)) = true /\ flagged_decoded h (db s) ->
  hash_stored h (zksynclite_transactions (db s')) = true /\ flagged_decoded h (db s').

(** Stored hashes that are distinct stay distinct. *)
Definition stays_distinct (s s' : state) : Prop :=
  NoDup (stored_hashes (db s)) -> NoDup (stored_hashes (db s')).

(** ** Further notions: the remote client *)

(** The state after an attempt that was not rate limited. *)
Definition attempted (s : state) : state :=
  {| server := server s; requests := S (requests s); sleeps := sleeps s;
     logs := (DEBUG, "Querying zksync lite") :: logs s;
     ws_messages := ws_messages s;
     id_to_token := id_to_token s; symbol_to_token := symbol_to_token s; db := db s |}.

(** The sleeps of successive rate-limited attempts. *)
Definition backoffs : list Z := [1; 2; 4; 8; 16; 32].

(** A server that is rate limiting for its first [k] requests and then
    answers [reply]. *)
Definition serve_after (k : nat) (reply : http_reply) : nat -> request -> http_reply :=
  fun n _ => if (n <? k)%nat then Response TOO_MANY_REQUESTS None else reply.

(** The backoff after [k] doublings. *)
Fixpoint doubled (k : nat) (b : positive) : positive :=
  match k with
  | O => b
  | S k' => doubled k' (2 * b)
  end.

(** The sleeps of [k] successive rate-limited attempts, the first one with
    backoff [b]. *)
Fixpoint doubling (b : positive) (k : nat) : list Z :=
  match k with
  | O => []
  | S k' => Z.pos b :: doubling (2 * b) k'
  end.

(** The state after [k] successive rate-limited attempts and their sleeps,
    the first one with backoff [b]. *)
Fixpoint backed_off_times (k : nat) (b : positive) (s : state) : state :=
  match k with
  | O => s
  | S k' => backed_off_times k' (2 * b) (backed_off (Z.pos b) s)
  end.

(** The replies that end a call with [RemoteError]: a failed request, a
    status other than 200 (429 apart), a body that is no JSON object, or
    one without a [result] that is not null. *)
Definition bad_reply (reply : http_reply) : Prop :=
  match reply with
  | RequestException => True
  | Response status_code json_body =>
      status_code <> TOO_MANY_REQUESTS /\
      (status_code <> HTTP_OK \/
       match json_body with
       | None => True
       | Some json_ret =>
           dict_lookup "result" json_ret = None \/ dict_lookup "result" json_ret = Some JNull
       end)
  end.

(** ** Further notions: the normalizer *)

(** [entry['op'][key]] deserializes to the address [a]. *)
Definition op_address `{Collaborators} (entry : json) (key : string) (a : string) : Prop :=
  exists raw, entry_op entry key = Ok raw /\ deserialize_evm_address raw = Ok a.

(** [entry['op'][key]] parses to an integer that, scaled by the decimals
    of the asset [a], is [amt]. *)
Definition op_amount `{Collaborators} (entry : json) (key : string) (a : CryptoAsset)
    (amt : FVal) : Prop :=
  exists amount_str amount_raw,
    entry_op entry key = Ok amount_str /\
    deserialize_int_from_str amount_str = Ok amount_raw /\
    amt = asset_normalized_value amount_raw a.

(** [entry['op'][key]] is a token id the directory resolves to [a]. *)
Definition op_token (entry : json) (key : string) (directory : list (json * CryptoAsset))
    (a : CryptoAsset) : Prop :=
  exists token_id, entry_op entry key = Ok token_id /\
                   token_dict_get token_id directory = Ok (Some a).

(** The order [entry['op']['orders'][idx]] sells the amount [amt] of a
    token the directory resolves to [a]. *)
Definition swap_leg `{Collaborators} (entry : json) (idx : nat)
    (directory : list (json * CryptoAsset)) (a : CryptoAsset) (amt : FVal) : Prop :=
  exists orders order token_sell amount_str amount_raw,
    entry_op entry "orders" = Ok orders /\
    getindex orders idx = Ok order /\
    getitem order "tokenSell" = Ok token_sell /\
    token_dict_get token_sell directory = Ok (Some a) /\
    getitem order "amount" = Ok amount_str /\
    deserialize_int_from_str amount_str = Ok amount_raw /\
    amt = asset_normalized_value amount_raw a.

(** ** Further notions: the token directory *)

(** The options of the request for a page of the tokens endpoint. *)
Definition tokens_options `{Collaborators} (from_idx : json) : list (string * json) :=
  [("from", from_idx); ("direction", JStr "newer");
   ("limit", JInt (Z.of_nat ZKSYNCLITE_MAX_LIMIT))].

(** ** Further notions: what is recorded of a walk *)

(** The used query ranges are left as they are. *)
Definition same_ranges (s s' : state) : Prop :=
  used_query_ranges (db s') = used_query_ranges (db s).

(** The ledger events are left as they are. *)
Definition same_events (s s' : state) : Prop :=
  history_events (db s') = history_events (db s).

(** ** Further notions: stored transactions *)

(** [tx.swap_data = data] on a transaction read from its row. *)
Definition with_swap_data (tx : ZKSyncLiteTransaction) (data : ZKSyncLiteSwapData) :
    ZKSyncLiteTransaction :=
  {| tx_hash := tx_hash tx; tx_type := tx_type tx; timestamp := timestamp tx;
     block_number := block_number tx; from_address := from_address tx;
     to_address := to_address tx; asset := asset tx; amount := amount tx;
     fee := fee tx; swap_data := Some data |}.

(** The row is not that of a Swap. *)
Definition not_swap_row (r : tx_row) : Prop := tx_type (row_columns r) <> SWAP.

(** ** Further notions: decoded events *)

(** The fee event that follows the events of a transaction that carries
    the fee [fee_amount]: it has the type and the label of the first event
    [e], the subtype [FEE], the transaction's asset and the next sequence
    index [idx]. *)
Definition is_fee_event (tx : ZKSyncLiteTransaction) (e : EvmEvent) (idx : Z)
    (fee_amount : FVal) (fee_event : EvmEvent) : Prop :=
  event_type fee_event = event_type e /\
  event_subtype fee_event = HEST_FEE /\
  ev_asset fee_event = asset tx /\
  balance fee_event = fee_amount /\
  location_label fee_event = location_label e /\
  sequence_index fee_event = idx.

(** The events that follow the first event [e] of a transaction whose
    sender pays: the fee event if the transaction carries a fee, nothing
    otherwise. *)
Definition fee_follows (tx : ZKSyncLiteTransaction) (e : EvmEvent) (rest : list EvmEvent) :
    Prop :=
  match fee tx with
  | Some fee_amount => exists fee_event, rest = [fee_event] /\ is_fee_event tx e 1 fee_amount fee_event
  | None => rest = []
  end.

(** ** Further notions: bulk decoding *)

(** The rows a pass that is not forced reads. *)
Definition pending_rows (d : database) : list tx_row :=
  filter (fun r => is_decoded r = 0) (zksynclite_transactions d).

(** ** Further notions: balances *)

(** The computation lets neither a [KeyError] nor a [DeserializationError]
    out. *)
Definition contains_parse_errors {A : Type} (m : M A) : Prop :=
  forall s, fst (m s) <> Raise KeyError /\ fst (m s) <> Raise DeserializationError.

(** The dict of balances is well formed with respect to the addresses
    [seen]: its keys are distinct addresses of [seen] and no address has
    an empty dict. *)
Definition balances_of (seen : list string)
    (balances : list (string * list (CryptoAsset * Balance))) : Prop :=
  NoDup (map fst balances) /\
  Forall (fun entry => fst entry ∈ seen /\ snd entry <> []) balances.

(** ** Further examples *)

Module Examples.

(** A manager whose token directory knows the native asset as token 0 and
    USDC as token 2. *)
Definition manager (serve : nat -> request -> http_reply) (d : database) : state :=
  {| server := serve; requests := 0; sleeps := []; logs := []; ws_messages := [];
     id_to_token := [(JInt 0, A_ETH); (JInt 2, Sample.usdc)];
     symbol_to_token := [(JStr "ETH", A_ETH); (JStr "USDC", Sample.usdc)];
     db := d |}.

Definition swap_entry : json :=
  Sample.raw_entry "5a" "finalized"
    [("type", JStr "Swap"); ("feeToken", JInt 0); ("fee", JStr "1000000000000000");
     ("orders",
      JList [JDict [("tokenSell", JInt 0); ("amount", JStr "1000000000000000000")];
             JDict [("tokenSell", JInt 2); ("amount", JStr "1800000000")]])].

(** The transaction [swap_entry] normalizes to. *)
Definition swap_normalized : ZKSyncLiteTransaction :=
  Sample.transaction_of "5a" SWAP 1700000000 (Some Sample.tracked) (Some Sample.tracked)
    (1 # 1000)%Q (Some (1 # 1000)%Q) (Some Sample.legs).

Definition full_exit_entry : json :=
  Sample.raw_entry "e0" "finalized"
    [("type", JStr "FullExit"); ("ethHash", JStr "ee"); ("tokenId", JInt 0)].

(** The transaction [full_exit_entry] normalizes to. *)
Definition full_exit_normalized : ZKSyncLiteTransaction :=
  Sample.transaction_of "ee" FULLEXIT 1700000000 (Some Sample.tracked) (Some Sample.tracked)
    ZERO None None.

Definition token_entry (id : Z) (symbol address : string) : json :=
  JDict [("id", JInt id); ("symbol", JStr symbol); ("address", JStr address)].

Definition eth_entry : json := token_entry 0 "ETH" ZERO_ADDRESS.
Definition dai_entry : json := token_entry 1 "DAI" "0xD".

(** The reply that carries a page of the tokens endpoint. *)
Definition tokens_reply (entries : list json) : http_reply :=
  Response HTTP_OK (Some [("result", JDict [("list", JList entries)])]).

(** A server whose tokens come in two pages that overlap on [dai_entry]. *)
Definition serve_tokens : nat -> request -> http_reply :=
  fun n _ =>
    match n with
    | O => tokens_reply [eth_entry; dai_entry]
    | _ => tokens_reply [dai_entry]
    end.

(** A manager whose token directory is empty. *)
Definition fresh_manager (serve : nat -> request -> http_reply) (d : database) : state :=
  {| server := serve; requests := 0; sleeps := []; logs := []; ws_messages := [];
     id_to_token := []; symbol_to_token := []; db := d |}.

(** A database whose second row is a Swap, followed by a transfer. *)
Definition swap_in_the_middle : database :=
  {| zksynclite_transactions :=
       [Sample.row_of 1 Sample.foreign_transfer 0; Sample.row_of 2 Sample.swap 0;
        Sample.row_of 3 (Sample.transfer_of "a0") 0];
     zksynclite_swaps := {[ 2 := Sample.legs ]};
     history_events := [];
     used_query_ranges := [];
     zksync_lite_accounts := [Sample.tracked] |}.

(** A server that answers every request with the data of the transfer
    [a0]. *)
Definition serve_single : nat -> request -> http_reply :=
  fun _ _ => Response HTTP_OK (Some [("result", JDict [("tx", Sample.entry_a)])]).

(** A transfer to the tracked address that carries a fee. *)
Definition incoming_transfer : ZKSyncLiteTransaction :=
  Sample.transaction_of "1c" TRANSFER 1700000300 (Some "0xA") (Some Sample.tracked) 1%Q
    (Some (1 # 500)%Q) None.

Definition deposit : ZKSyncLiteTransaction :=
  Sample.transaction_of "d0" DEPOSIT 1700000400 (Some "0xA") (Some Sample.tracked) 2%Q None None.

Definition forced_exit : ZKSyncLiteTransaction :=
  Sample.transaction_of "fe" FORCEDEXIT 1700000500 (Some "0xA") (Some "0xB") ZERO
    (Some (1 # 500)%Q) None.

(** A price oracle that knows the price of the native asset only. *)
Definition usd_price_of (a : CryptoAsset) : M FVal :=
  if String.eqb (identifier a) "ETH" then mret 2000%Q else raise RemoteError.

Definition same_asset (a b : CryptoAsset) : bool := String.eqb (identifier a) (identifier b).

(** The reply of the accounts endpoint for an account that holds one unit
    of the native asset and some USDC. *)
Definition account_reply : http_reply :=
  Response HTTP_OK
    (Some [("result",
            JDict [("finalized",
                    JDict [("balances",
                            JDict [("ETH", JStr "1000000000000000000");
                                   ("USDC", JStr "5000000")])])])]).

End Examples.

(** ** Reasoning about computations in [M] *)

Lemma bind_run {A B : Type} (m : M A) (f : A -> M B) (s : state) :
  (m ≫= f) s =
  match m s with
  | (Ok a, s') => f a s'
  | (Raise e, s') => (Raise e, s')
  end.
Proof. reflexivity. Qed.

Lemma bind_Ok {A B : Type} (m : M A) (f : A -> M B) (s s1 : state) (a : A) :
  m s = (Ok a, s1) -> (m ≫= f) s = f a s1.
Proof. intros Hm. rewrite bind_run, Hm. reflexivity. Qed.

Lemma bind_Raise {A B : Type} (m : M A) (f : A -> M B) (s s1 : state) (e : exn) :
  m s = (Raise e, s1) -> (m ≫= f) s = (Raise e, s1).
Proof. intros Hm. rewrite bind_run, Hm. reflexivity. Qed.

Lemma bind_Ok_inv {A B : Type} (m : M A) (f : A -> M B) (s s' : state) (b : B) :
  (m ≫= f) s = (Ok b, s') ->
  exists a s1, m s = (Ok a, s1) /\ f a s1 = (Ok b, s').
Proof.
  rewrite bind_run. destruct (m s) as [[a|e] s1]; intros Hf; [eauto | discriminate].
Qed.

Lemma lift_Ok_inv {A : Type} (r : result A) (s s' : state) (a : A) :
  lift r s = (Ok a, s') -> r = Ok a /\ s' = s.
Proof. unfold lift. intros Heq. inversion Heq; auto. Qed.

Lemma ret_Ok_inv {A : Type} (a b : A) (s s' : state) :
  mret (M := M) a s = (Ok b, s') -> b = a /\ s' = s.
Proof. unfold mret, M_ret. intros Heq. inversion Heq; auto. Qed.

Lemma result_bind_Ok_inv {A B : Type} (r : result A) (f : A -> result B) (b : B) :
  r ≫= f = Ok b -> exists a, r = Ok a /\ f a = Ok b.
Proof. destruct r as [a|e]; cbn; intros Heq; [eauto | discriminate]. Qed.

Lemma try_except_Ok_inv {A : Type} (body : M A) (handled : exn -> bool)
    (handler : exn -> M A) (s s' : state) (a : A) :
  try_except body handled handler s = (Ok a, s') ->
  body s = (Ok a, s') \/
  exists e s1, body s = (Raise e, s1) /\ handled e = true /\ handler e s1 = (Ok a, s').
Proof.
  unfold try_except. destruct (body s) as [[b|e] s1]; intros Heq.
  - left. exact Heq.
  - destruct (handled e) eqn:Hh; [|discriminate]. right. eauto.
Qed.

(** Steps backwards through a computation known to have returned a value:
    every bind is split, every branch taken is named. *)
Ltac tidy_eqs :=
  repeat match goal with
         | H : ?x = ?x |- _ => clear H
         | H : ?x = _ |- _ => is_var x; subst x
         | H : _ = ?x |- _ => is_var x; subst x
         | H : Ok _ = Ok _ |- _ => injection H as H
         | H : Raise _ = Raise _ |- _ => injection H as H
         | H : Some _ = Some _ |- _ => injection H as H
         | H : (_, _) = (_, _) |- _ => let H' := fresh H in injection H as H H'
         | H : Ok _ = Raise _ |- _ => discriminate H
         | H : Raise _ = Ok _ |- _ => discriminate H
         | H : Some _ = None |- _ => discriminate H
         | H : None = Some _ |- _ => discriminate H
         end.

Ltac invert_run :=
  repeat
    (tidy_eqs;
     match goal with
     | H : (_ ≫= _) _ = (Ok _, _) |- _ =>
         let H1 := fresh "Hstep" in
         apply bind_Ok_inv in H as (? & ? & H1 & H)
     | H : lift _ _ = (Ok _, _) |- _ => apply lift_Ok_inv in H as [H ?]
     | H : mret _ _ = (Ok _, _) |- _ => apply ret_Ok_inv in H as [? ?]
     | H : raise _ _ = (Ok _, _) |- _ => discriminate H
     | H : (if ?b then _ else _) _ = (Ok _, _) |- _ => destruct b eqn:?
     | H : (match ?x with _ => _ end) _ = (Ok _, _) |- _ => destruct x eqn:?
     | H : (let '(_, _) := ?x in _) _ = (Ok _, _) |- _ => destruct x eqn:?
     end);
  tidy_eqs.

Ltac unfold_state_ops :=
  unfold get_db, set_db, get_state, set_tokens, log, gevent_sleep, session_get, add_message in *.

(** Splits the first bind of two runs of the same computation from the same
    state; when it raises, both runs stop there. *)
Ltac step_both Hk Hp :=
  rewrite bind_run in Hk, Hp;
  match type of Hk with
  | context [match ?m ?s with _ => _ end] =>
      destruct (m s) as [[?|?] ?] eqn:?;
      [|inversion Hk; inversion Hp; subst; reflexivity]
  end.

Lemma for_each_app {A : Type} (body : A -> M unit) (l1 l2 : list A) (s : state) :
  for_each body (l1 ++ l2) s =
  match for_each body l1 s with
  | (Ok _, s1) => for_each body l2 s1
  | (Raise e, s1) => (Raise e, s1)
  end.
Proof.
  revert s. induction l1 as [|x l1 IH]; intros s; cbn [for_each app].
  - reflexivity.
  - rewrite !bind_run. destruct (body x s) as [[[]|e] s1]; [apply IH|reflexivity].
Qed.

(** ** What a computation keeps of the state *)

Section Keeps.

Context (R : state -> state -> Prop) `{!PreOrder R}.

Lemma keeps_ret {A : Type} (a : A) : keeps R (mret a).
Proof. intros s. reflexivity. Qed.

Lemma keeps_raise {A : Type} (e : exn) : keeps R (raise (A := A) e).
Proof. intros s. reflexivity. Qed.

Lemma keeps_lift {A : Type} (r : result A) : keeps R (lift r).
Proof. intros s. reflexivity. Qed.

Lemma keeps_bind {A B : Type} (m : M A) (f : A -> M B) :
  keeps R m -> (forall a, keeps R (f a)) -> keeps R (m ≫= f).
Proof.
  intros Hm Hf s. rewrite bind_run. specialize (Hm s).
  destruct (m s) as [[a|e] s1]; cbn in *; [|exact Hm].
  etrans; [exact Hm|apply Hf].
Qed.

Lemma keeps_try_except {A : Type} (body : M A) (handled : exn -> bool) (handler : exn -> M A) :
  keeps R body -> (forall e, keeps R (handler e)) -> keeps R (try_except body handled handler).
Proof.
  intros Hbody Hhandler s. unfold try_except. specialize (Hbody s).
  destruct (body s) as [[a|e] s1]; cbn in *; [exact Hbody|].
  destruct (handled e); [|exact Hbody].
  etrans; [exact Hbody|apply Hhandler].
Qed.

Lemma keeps_for_each {A : Type} (body : A -> M unit) (l : list A) :
  (forall x, keeps R (body x)) -> keeps R (for_each body l).
Proof.
  intros Hbody. induction l as [|x l IH]; cbn [for_each].
  - apply keeps_ret.
  - apply keeps_bind; [apply Hbody|intros _; exact IH].
Qed.

End Keeps.

Lemma keeps_weaken {A : Type} (R1 R2 : state -> state -> Prop) (m : M A) :
  (forall s s', R1 s s' -> R2 s s') -> keeps R1 m -> keeps R2 m.
Proof. intros Himp Hm s. apply Himp, Hm. Qed.

#[global] Instance same_db_preorder : PreOrder same_db.
Proof.
  split; [intros s; reflexivity|].
  intros s1 s2 s3 H12 H23. unfold same_db in *. congruence.
Qed.

#[global] Instance rows_kept_preorder : PreOrder rows_kept.
Proof.
  split; [intros s; unfold rows_kept; reflexivity|].
  intros s1 s2 s3 H12 H23. unfold rows_kept in *. etrans; eassumption.
Qed.

Lemma same_db_rows_kept (s s' : state) : same_db s s' -> rows_kept s s'.
Proof. unfold same_db, rows_kept. intros ->. reflexivity. Qed.

Lemma keeps_same_db_log (level : log_level) (msg : string) : keeps same_db (log level msg).
Proof. intros s. reflexivity. Qed.

Lemma keeps_same_db_gevent_sleep (seconds : Z) : keeps same_db (gevent_sleep seconds).
Proof. intros s. reflexivity. Qed.

Lemma keeps_same_db_session_get (r : request) : keeps same_db (session_get r).
Proof. intros s. reflexivity. Qed.

Lemma keeps_same_db_get_state : keeps same_db get_state.
Proof. intros s. reflexivity. Qed.

Lemma keeps_same_db_get_db : keeps same_db get_db.
Proof. intros s. reflexivity. Qed.

Lemma keeps_same_db_set_tokens (ids syms : list (json * CryptoAsset)) :
  keeps same_db (set_tokens ids syms).
Proof. intros s. reflexivity. Qed.

Lemma keeps_same_db_add_message (total processed : nat) :
  keeps same_db (add_message total processed).
Proof. intros s. reflexivity. Qed.

Create HintDb keeps_db discriminated.

#[global] Hint Resolve keeps_same_db_log keeps_same_db_gevent_sleep keeps_same_db_session_get
  keeps_same_db_get_state keeps_same_db_get_db keeps_same_db_set_tokens
  keeps_same_db_add_message : keeps_db.

(** Decomposes a goal [keeps R m] along the structure of [m]. *)
Ltac keeps_steps :=
  repeat
    (intros;
     match goal with
     | |- keeps _ (mret _) => apply keeps_ret; typeclasses eauto
     | |- keeps _ (raise _) => apply keeps_raise; typeclasses eauto
     | |- keeps _ (lift _) => apply keeps_lift; typeclasses eauto
     | |- keeps _ (_ ≫= _) => apply keeps_bind; [typeclasses eauto| |]
     | |- keeps _ (try_except _ _ _) => apply keeps_try_except; [typeclasses eauto| |]
     | |- keeps _ (for_each _ _) => apply keeps_for_each; [typeclasses eauto|]
     | |- keeps _ (if ?b then _ else _) => destruct b
     | |- keeps _ (match ?x with _ => _ end) => destruct x
     | |- keeps _ (let '(_, _) := ?x in _) => destruct x
     | |- keeps _ _ => solve [auto with keeps_db]
     | |- keeps rows_kept _ =>
         apply (keeps_weaken same_db rows_kept _ same_db_rows_kept); solve [auto with keeps_db]
     end).

Lemma keeps_same_db__query_api_loop (r : request) (backoff : positive) :
  keeps same_db (_query_api_loop r backoff).
Proof.
  funelim (_query_api_loop r backoff); [|apply keeps_ret; typeclasses eauto].
  keeps_steps. intros _ s0. exact (H tt (Response status_code json_body) status_code json_body tt tt s0 s0).
Qed.

Lemma keeps_same_db__query_api (url : string) (options : list (string * json)) :
  keeps same_db (_query_api url options).
Proof. apply keeps_same_db__query_api_loop. Qed.

#[global] Hint Resolve keeps_same_db__query_api : keeps_db.

Lemma keeps_same_db__create_tokens_mapping_entry `{Collaborators} (entry : json) :
  keeps same_db (_create_tokens_mapping_entry entry).
Proof. unfold _create_tokens_mapping_entry. keeps_steps. Qed.

#[global] Hint Resolve keeps_same_db__create_tokens_mapping_entry : keeps_db.

Lemma keeps_same_db__create_tokens_mapping_loop `{Collaborators} (pages : nat) :
  forall from_idx, keeps same_db (_create_tokens_mapping_loop pages from_idx).
Proof.
  induction pages as [|pages IH]; intros from_idx; cbn [_create_tokens_mapping_loop];
    keeps_steps; apply IH.
Qed.

Lemma keeps_same_db__get_token_by_id `{Collaborators} (pages : nat) (token_id : json) :
  keeps same_db (_get_token_by_id pages token_id).
Proof.
  unfold _get_token_by_id, _create_tokens_mapping. keeps_steps.
  apply keeps_same_db__create_tokens_mapping_loop.
Qed.

#[global] Hint Resolve keeps_same_db__get_token_by_id : keeps_db.

Lemma keeps_same_db__get_token_and_amount_by_id_or_log `{Collaborators} (pages : nat)
    (entry : json) (asset_key : string) (amount_key : option string) :
  keeps same_db (_get_token_and_amount_by_id_or_log pages entry asset_key amount_key).
Proof. unfold _get_token_and_amount_by_id_or_log. keeps_steps. Qed.

Lemma keeps_same_db__swap_asset_data `{Collaborators} (pages : nat) (entry : json) (idx : nat) :
  keeps same_db (_swap_asset_data pages entry idx).
Proof. unfold _swap_asset_data. keeps_steps. Qed.

#[global] Hint Resolve keeps_same_db__get_token_and_amount_by_id_or_log
  keeps_same_db__swap_asset_data : keeps_db.

Lemma keeps_same_db__deserialize_zksync_transaction `{Collaborators} (pages : nat)
    (entry : json) (concerning_address : string) :
  keeps same_db (_deserialize_zksync_transaction pages entry concerning_address).
Proof.
  unfold _deserialize_zksync_transaction, _deserialize_zksync_transaction_body. keeps_steps.
Qed.

#[global] Hint Resolve keeps_same_db__deserialize_zksync_transaction : keeps_db.

Lemma keeps_same_db__query_zksync_api_transactions_entries `{Collaborators} (fuel : nat)
    (address : string) (entries : list json) :
  forall idx transactions last_tx_hash,
    keeps same_db
      (_query_zksync_api_transactions_entries fuel address idx entries transactions last_tx_hash).
Proof.
  induction entries as [|entry entries IH]; intros idx transactions last_tx_hash;
    cbn [_query_zksync_api_transactions_entries]; keeps_steps; apply IH.
Qed.

Lemma keeps_same_db__query_zksync_api_transactions_page `{Collaborators} (address : string)
    (from_hash : json) (direction : Direction) :
  keeps same_db (_query_zksync_api_transactions_page address from_hash direction).
Proof. unfold _query_zksync_api_transactions_page. keeps_steps. Qed.

#[global] Hint Resolve keeps_same_db__query_zksync_api_transactions_entries
  keeps_same_db__query_zksync_api_transactions_page : keeps_db.

(** The generator changes the database only through the consumer's loop
    body. *)
Lemma keeps__query_zksync_api_transactions_iteration `{Collaborators} {S : Type}
    (R : state -> state -> Prop) `{!PreOrder R}
    (body : S -> list ZKSyncLiteTransaction -> M S) (fuel : nat) (address : string)
    (direction : Direction) (from_hash last_tx_hash : json) (acc : S) :
  (forall s s', same_db s s' -> R s s') ->
  (forall acc batch, keeps R (body acc batch)) ->
  keeps R (_query_zksync_api_transactions_iteration body fuel address from_hash direction
             last_tx_hash acc).
Proof.
  intros Hsame Hbody.
  assert (Hweak : forall A (m : M A), keeps same_db m -> keeps R m)
    by (intros A m; apply keeps_weaken; exact Hsame).
  unfold _query_zksync_api_transactions_iteration.
  apply keeps_bind; [typeclasses eauto|apply Hweak; auto with keeps_db|intros result].
  apply keeps_bind; [typeclasses eauto|apply keeps_lift; typeclasses eauto|intros entries].
  apply keeps_bind; [typeclasses eauto|apply Hweak; auto with keeps_db|intros [transactions l]].
  apply keeps_bind; [typeclasses eauto|apply Hbody|intros acc'].
  apply keeps_bind; [typeclasses eauto|apply keeps_lift; typeclasses eauto|intros n].
  destruct (n <? ZKSYNCLITE_MAX_LIMIT)%nat; [apply keeps_ret; typeclasses eauto|].
  apply keeps_bind; [typeclasses eauto|apply keeps_lift; typeclasses eauto|intros last_entry].
  apply keeps_bind; [typeclasses eauto|apply keeps_lift; typeclasses eauto|intros from_hash'].
  apply keeps_ret; typeclasses eauto.
Qed.

Lemma keeps__query_zksync_api_transactions_loop `{Collaborators} {S : Type}
    (R : state -> state -> Prop) `{!PreOrder R}
    (body : S -> list ZKSyncLiteTransaction -> M S) (fuel pages : nat) (address : string)
    (direction : Direction) :
  (forall s s', same_db s s' -> R s s') ->
  (forall acc batch, keeps R (body acc batch)) ->
  forall from_hash last_tx_hash acc,
    keeps R (_query_zksync_api_transactions_loop body fuel pages address from_hash direction
               last_tx_hash acc).
Proof.
  intros Hsame Hbody.
  induction pages as [|pages IH]; intros from_hash last_tx_hash acc;
    cbn [_query_zksync_api_transactions_loop].
  - apply keeps_raise; typeclasses eauto.
  - apply keeps_bind; [typeclasses eauto| |intros [acc'|from_hash' last_tx_hash' acc']].
    + apply keeps__query_zksync_api_transactions_iteration; assumption.
    + apply keeps_ret; typeclasses eauto.
    + apply IH.
Qed.

Lemma keeps_rows_insert_transaction `{Collaborators} (t : ZKSyncLiteTransaction) :
  keeps rows_kept (insert_transaction t).
Proof.
  intros s. unfold insert_transaction, rows_kept. rewrite bind_run. cbn.
  destruct (hash_stored (tx_hash t) (zksynclite_transactions (db s))); cbn; [reflexivity|].
  apply prefix_app_r. reflexivity.
Qed.

Lemma keeps_rows_insert_swap (tx_id : Z) (data : ZKSyncLiteSwapData) :
  keeps rows_kept (insert_swap tx_id data).
Proof. intros s. unfold rows_kept. reflexivity. Qed.

Lemma keeps_rows_update_used_query_range (location_string : string) (queried_range : Z * Z) :
  keeps rows_kept (update_used_query_range location_string queried_range).
Proof. intros s. unfold rows_kept. reflexivity. Qed.

#[global] Hint Resolve keeps_rows_insert_transaction keeps_rows_insert_swap
  keeps_rows_update_used_query_range : keeps_db.

Lemma keeps_rows__add_zksynctxs_db `{Collaborators} (transactions : list ZKSyncLiteTransaction) :
  keeps rows_kept (_add_zksynctxs_db transactions).
Proof. unfold _add_zksynctxs_db, _add_zksynctxs_db_transaction. keeps_steps. Qed.

#[global] Hint Resolve keeps_rows__add_zksynctxs_db : keeps_db.

Lemma keeps_rows__query_and_save_transactions_for_range_body `{Collaborators}
    (address : string) (direction : Direction) (vars : range_vars)
    (new_transactions : list ZKSyncLiteTransaction) :
  keeps rows_kept
    (_query_and_save_transactions_for_range_body address direction vars new_transactions).
Proof. unfold _query_and_save_transactions_for_range_body. keeps_steps. Qed.

(** A walk, whatever its outcome, keeps the rows that were stored when it
    started or resumed. *)
Lemma keeps_rows_perform_walk `{Collaborators} (fuel pages : nat) (address : string) (w : walk) :
  keeps rows_kept (perform_walk fuel pages address w).
Proof.
  unfold perform_walk, _query_and_save_transactions_for_range, _query_zksync_api_transactions.
  apply keeps_bind; [typeclasses eauto| |intros; apply keeps_ret; typeclasses eauto].
  apply keeps__query_zksync_api_transactions_loop;
    [typeclasses eauto|exact same_db_rows_kept|].
  intros acc batch. apply keeps_rows__query_and_save_transactions_for_range_body.
Qed.

#[global] Hint Resolve keeps_rows_perform_walk : keeps_db.

Lemma keeps_rows_fetch_transactions `{Collaborators} (fuel pages : nat) (address : string)
    (start_ts end_ts : Z) :
  keeps rows_kept (fetch_transactions fuel pages address start_ts end_ts).
Proof. unfold fetch_transactions. keeps_steps. Qed.

(** ** The remote client under rate limiting *)

Lemma _query_api_loop_too_many_requests (r : request) (backoff : positive) (s : state)
    (body : option (list (string * json))) :
  Z.pos backoff < backoff_limit ->
  server s (requests s) r = Response TOO_MANY_REQUESTS body ->
  _query_api_loop r backoff s = _query_api_loop r (2 * backoff) (backed_off (Z.pos backoff) s).
Proof.
  intros Hlt Hreply. rewrite (_query_api_loop_equation_1 r backoff).
  destruct (Z_lt_dec (Z.pos backoff) backoff_limit) as [Hlt'|Hge]; [|contradiction].
  cbn. unfold mbind, M_bind, log, session_get. cbn. rewrite Hreply. cbn.
  destruct (Z.pos backoff >=? backoff_limit) eqn:Hcmp.
  - apply Z.geb_le in Hcmp. lia.
  - reflexivity.
Qed.

Lemma _query_api_loop_limit_reached (r : request) (backoff : positive) (s : state) :
  backoff_limit <= Z.pos backoff ->
  _query_api_loop r backoff s = (Ok (JDict []), s).
Proof.
  intros Hge. rewrite _query_api_loop_equation_1.
  destruct (Z_lt_dec (Z.pos backoff) backoff_limit) as [Hlt|Hnlt]; [lia|]. reflexivity.
Qed.

(** A server that answers every attempt with status 429 makes [_query_api]
    sleep 1, 2, 4, 8, 16 and 32 seconds and then return the empty dict
    [{}]: the loop condition fails before the [raise] guarded by
    [backoff >= backoff_limit] can be reached. *)
Lemma _query_api_rate_limited (url : string) (options : list (string * json)) (s : state) :
  (forall n r, exists body, server s n r = Response TOO_MANY_REQUESTS body) ->
  exists s',
    _query_api url options s = (Ok (JDict []), s') /\
    sleeps s' = [32; 16; 8; 4; 2; 1] ++ sleeps s /\
    requests s' = (6 + requests s)%nat /\ db s' = db s.
Proof.
  intros Hserver. unfold _query_api.
  set (r := {| url := url; options := options |}).
  assert (Hstep : forall b s0, server s0 = server s -> Z.pos b < backoff_limit ->
            _query_api_loop r b s0 = _query_api_loop r (2 * b) (backed_off (Z.pos b) s0)).
  { intros b s0 Hs0 Hlt. destruct (Hserver (requests s0) r) as [body Hbody].
    apply (_query_api_loop_too_many_requests r b s0 body Hlt). rewrite Hs0. exact Hbody. }
  unfold backoff_limit in Hstep.
  rewrite Hstep by (reflexivity || lia).
  rewrite Hstep by (reflexivity || lia).
  rewrite Hstep by (reflexivity || lia).
  rewrite Hstep by (reflexivity || lia).
  rewrite Hstep by (reflexivity || lia).
  rewrite Hstep by (reflexivity || lia).
  rewrite _query_api_loop_limit_reached by (unfold backoff_limit; lia).
  eexists. split; [reflexivity|]. cbn. auto.
Qed.

(** C1 on a server that always answers 429: [_query_api] raises nothing;
    it returns [{}] after six attempts and 63 seconds of sleep in all, the
    last sleep being of 32 seconds. *)
Theorem _query_api_always_429_returns_empty_dict :
  exists s',
    _query_api "tokens" [] (Sample.manager Sample.always_429 Sample.empty_db)
      = (Ok (JDict []), s') /\
    sleeps s' = [32; 16; 8; 4; 2; 1] /\ requests s' = 6%nat /\
    foldr Z.add 0 (sleeps s') = 63.
Proof. eexists. split; [vm_compute; reflexivity|]. cbn. auto. Qed.

(** ** The normalizer on ChangePubKey envelopes *)

Lemma getitem_get_default (j : json) (key : string) (v default : json) :
  getitem j key = Ok v -> get_default j key default = Ok v.
Proof.
  destruct j; cbn; try discriminate.
  destruct (dict_lookup key d); intros Heq; inversion Heq; reflexivity.
Qed.

Lemma entry_op_inv (entry : json) (key : string) (v : json) :
  entry_op entry key = Ok v ->
  exists op, getitem entry "op" = Ok op /\ getitem op key = Ok v.
Proof. unfold entry_op. intros Heq. apply result_bind_Ok_inv in Heq. exact Heq. Qed.

Lemma _get_token_and_amount_by_id_or_log_amount `{Collaborators} (fuel : nat) (entry : json)
    (asset_key amount_key : string) (s s' : state) (a : CryptoAsset) (amt : FVal) :
  amount_key <> "" ->
  _get_token_and_amount_by_id_or_log fuel entry asset_key (Some amount_key) s
    = (Ok (Some (a, amt)), s') ->
  exists amount_str amount_raw,
    entry_op entry amount_key = Ok amount_str /\
    deserialize_int_from_str amount_str = Ok amount_raw /\
    amt = asset_normalized_value amount_raw a.
Proof.
  intros Hkey Hrun. unfold _get_token_and_amount_by_id_or_log in Hrun.
  invert_run.
  - apply String.eqb_eq in Heqb. contradiction.
  - eauto.
Qed.

(** C2, as amended. A ChangePubKey envelope that normalizes has a fee
    token the directory resolves and an [op.fee] that parses; the record
    built holds zero in [amount] and the fee in [fee]: the parsed integer
    scaled by the asset's decimals, or no fee when [op.fee] is null or
    zero. *)
Theorem change_pub_key_amount_is_zero `{Collaborators} (fuel : nat) (entry : json)
    (concerning_address : string) (s s' : state) (tx : ZKSyncLiteTransaction) :
  _deserialize_zksync_transaction fuel entry concerning_address s = (Ok (Some tx), s') ->
  tx_type tx = CHANGEPUBKEY ->
  amount tx = ZERO /\
  exists fee_str fee_raw,
    entry_op entry "fee" = Ok fee_str /\
    deserialize_int_from_str fee_str = Ok fee_raw /\
    fee tx = (match fee_str with
              | JNull => None
              | _ => if fee_raw =? 0 then None
                     else Some (asset_normalized_value fee_raw (asset tx))
              end).
Proof.
  intros Hrun Hty. unfold _deserialize_zksync_transaction in Hrun.
  apply try_except_Ok_inv in Hrun as [Hrun|(e & s1 & _ & _ & Hrun)].
  2: { invert_run. }
  unfold _deserialize_zksync_transaction_body in Hrun.
  invert_run; cbn in Hty; try discriminate Hty.
  all: cbn.
  all: match goal with
       | Hh : _get_token_and_amount_by_id_or_log _ _ _ (Some "fee") _ = _ |- _ =>
           apply _get_token_and_amount_by_id_or_log_amount in Hh as (str & raw & Hstr & Hraw & _);
           [|discriminate]
       end.
  all: split; [reflexivity|].
  all: exists str, raw; split; [exact Hstr|]; split; [exact Hraw|].
  all: apply entry_op_inv in Hstr as (op & Hop & Hfee).
  all: repeat match goal with
              | H1 : getitem ?e "op" = Ok ?a, H2 : getitem ?e "op" = Ok ?b |- _ =>
                  rewrite H1 in H2; injection H2 as H2; subst
              end.
  all: match goal with
       | Hd : get_default _ "fee" JNull = Ok _ |- _ =>
           rewrite (getitem_get_default _ _ _ JNull Hfee) in Hd; injection Hd as Hd; subst
       end.
  all: try reflexivity.
  all: match goal with
       | H1 : deserialize_int_from_str ?j = Ok ?a, H2 : deserialize_int_from_str ?j = Ok ?b |- _ =>
           rewrite H1 in H2; injection H2 as H2; subst
       end.
  all: reflexivity.
Qed.

Lemma change_pub_key_amount_is_zero_witness :
  exists s',
    _deserialize_zksync_transaction 1 Sample.change_pub_key_entry Sample.tracked
      (Sample.manager Sample.always_429 Sample.empty_db)
    = (Ok (Some Sample.change_pub_key), s') /\
    tx_type Sample.change_pub_key = CHANGEPUBKEY /\
    amount Sample.change_pub_key = ZERO.
Proof.
  set (s := Sample.manager Sample.always_429 Sample.empty_db).
  set (s' := snd (_deserialize_zksync_transaction 1 Sample.change_pub_key_entry
                    Sample.tracked s)).
  assert (Hrun : _deserialize_zksync_transaction 1 Sample.change_pub_key_entry
                   Sample.tracked s = (Ok (Some Sample.change_pub_key), s'))
    by (vm_compute; reflexivity).
  exists s'. split; [exact Hrun|]. split; [reflexivity|].
  exact (proj1 (change_pub_key_amount_is_zero 1 Sample.change_pub_key_entry Sample.tracked
                  s s' Sample.change_pub_key Hrun eq_refl)).
Defined.

(** C2: the claim fails on a ChangePubKey envelope whose [op.fee] is
    1000000000000000 of the native asset: the record's [amount] is zero,
    not the scaled fee 0.001. *)
Lemma change_pub_key_amount_is_not_the_fee :
  exists tx s',
    _deserialize_zksync_transaction 1 Sample.change_pub_key_entry Sample.tracked
      (Sample.manager Sample.always_429 Sample.empty_db) = (Ok (Some tx), s') /\
    tx_type tx = CHANGEPUBKEY /\
    entry_op Sample.change_pub_key_entry "fee" = Ok (JStr "1000000000000000") /\
    deserialize_int_from_str (JStr "1000000000000000") = Ok 1000000000000000 /\
    asset_normalized_value 1000000000000000 (asset tx) = (1 # 1000)%Q /\
    amount tx <> asset_normalized_value 1000000000000000 (asset tx).
Proof.
  do 2 eexists. split; [vm_compute; reflexivity|]. cbn [tx_type asset amount].
  repeat (split; [vm_compute; reflexivity|]). vm_compute. discriminate.
Qed.

(** ** The walks of [fetch_transactions] *)

(** Whatever the database holds, the second [fetchone] on the cursor of
    the [max] query finds it exhausted: every forward walk starts from
    [latest] and covers the empty range from [end_ts] to [end_ts]. *)
Lemma forward_walk_from_latest `{Collaborators} (d : database) (address : string)
    (start_ts end_ts : Z) :
  exists walks,
    fetch_transactions_walks d address start_ts end_ts = Ok walks /\
    forall w, w ∈ walks -> walk_direction w = newer ->
      walk_from_hash w = "latest" /\ walk_start_ts w = end_ts /\ walk_end_ts w = end_ts.
Proof.
  unfold fetch_transactions_walks. cbn.
  destruct (select_tx_hash_min_timestamp (zksynclite_transactions d)) as [[h t]|];
    destruct (get_used_query_range d ("zksynctxs_" +:+ address)) as [[range_start range_end]|];
    cbn; try destruct (negb (range_start =? 0)); eexists; (split; [reflexivity|]);
    intros w Hw Hdir;
    repeat (apply elem_of_cons in Hw as [->|Hw]; [cbn in *; try discriminate; auto|]);
    apply elem_of_nil in Hw; contradiction.
Qed.

(** C3 on a database that holds two transactions, the newest being [5a]
    at 1700000200, and a prior range that did not reach zero: the forward
    walk starts from [latest], not from [0x5a], and covers the range from
    [end_ts] to [end_ts], not from 1700000200. *)
Theorem forward_walk_ignores_newest_stored :
  select_tx_hash_max_timestamp (zksynclite_transactions Sample.stored_db) = Some ("5a", 1700000200) /\
  fetch_transactions_walks Sample.stored_db "0xT" 0 1700000300 =
    Ok [{| walk_start_ts := 0; walk_end_ts := 1700000100;
           walk_from_hash := "0xf0"; walk_direction := older |};
        {| walk_start_ts := 1700000300; walk_end_ts := 1700000300;
           walk_from_hash := "latest"; walk_direction := newer |}].
Proof. split; vm_compute; reflexivity. Qed.

(** ** The decoder *)

Lemma decode_transaction_run `{Collaborators} (tx tx' : ZKSyncLiteTransaction)
    (tracked_addresses : list string) (event_data : list event_entry) (s : state) :
  decode_transaction_event_data tx tracked_addresses = Ok (tx', event_data) ->
  exists s', decode_transaction tx tracked_addresses s = (Ok tx', s') /\
             db s' = decoded_db (tx_hash tx') (decode_transaction_events tx' event_data) (db s).
Proof.
  intros Hdata. unfold decode_transaction. rewrite Hdata.
  destruct (bool_decide (tx_type tx = CHANGEPUBKEY) && negb (has_fee tx));
    eexists; (split; [reflexivity|reflexivity]).
Qed.

Lemma decode_transaction_Raise `{Collaborators} (tx : ZKSyncLiteTransaction)
    (tracked_addresses : list string) (e : exn) (s : state) :
  decode_transaction_event_data tx tracked_addresses = Raise e ->
  decode_transaction tx tracked_addresses s = (Raise e, s).
Proof. intros Hdata. unfold decode_transaction. rewrite Hdata. reflexivity. Qed.

Lemma swap_event_data `{Collaborators} (tx : ZKSyncLiteTransaction)
    (tracked_addresses : list string) (data : ZKSyncLiteSwapData) :
  tx_type tx = SWAP -> swap_data tx = Some data ->
  exists e0 e1,
    decode_transaction_event_data tx tracked_addresses = Ok (tx, [e0; e1]) /\
    (ee_sequence_index e0 = 0 /\ ee_event_type e0 = HET_TRADE /\
     ee_event_subtype e0 = HEST_SPEND /\ ee_asset e0 = from_asset data /\
     ee_amount e0 = from_amount data) /\
    (ee_sequence_index e1 = 1 /\ ee_event_type e1 = HET_TRADE /\
     ee_event_subtype e1 = HEST_RECEIVE /\ ee_asset e1 = to_asset data /\
     ee_amount e1 = to_amount data).
Proof.
  intros Hty Hswap. unfold decode_transaction_event_data. rewrite Hty, Hswap.
  do 2 eexists. split; [reflexivity|]. cbn. tauto.
Qed.

(** C6. Decoding a Swap transaction that carries a fee (and, as every
    Swap does, its swap data) stores exactly three events, with sequence
    indices 0, 1 and 2: the trade spend of the sold leg, the trade receive
    of the bought leg and the fee event with the transaction's fee. *)
Theorem swap_with_fee_three_events `{Collaborators} (tx : ZKSyncLiteTransaction)
    (tracked_addresses : list string) (data : ZKSyncLiteSwapData) (fee_amount : FVal)
    (s : state) :
  tx_type tx = SWAP -> swap_data tx = Some data -> fee tx = Some fee_amount ->
  exists (e0 e1 e2 : EvmEvent) (s' : state),
    decode_transaction tx tracked_addresses s = (Ok tx, s') /\
    history_events (db s') = history_events (db s) ++ [e0; e1; e2] /\
    (sequence_index e0 = 0 /\ event_type e0 = HET_TRADE /\ event_subtype e0 = HEST_SPEND /\
     ev_asset e0 = from_asset data /\ balance e0 = from_amount data) /\
    (sequence_index e1 = 1 /\ event_type e1 = HET_TRADE /\ event_subtype e1 = HEST_RECEIVE /\
     ev_asset e1 = to_asset data /\ balance e1 = to_amount data) /\
    (sequence_index e2 = 2 /\ event_type e2 = HET_TRADE /\ event_subtype e2 = HEST_FEE /\
     ev_asset e2 = asset tx /\ balance e2 = fee_amount).
Proof.
  intros Hty Hswap Hfee.
  destruct (swap_event_data tx tracked_addresses data Hty Hswap)
    as (d0 & d1 & Hdata & (Hi0 & Ht0 & Hs0 & Ha0 & Hb0) & (Hi1 & Ht1 & Hs1 & Ha1 & Hb1)).
  destruct (decode_transaction_run tx tx tracked_addresses [d0; d1] s Hdata) as (s' & Hrun & Hdb).
  unfold decode_transaction_events in Hdb. rewrite Hfee in Hdb. cbn in Hdb.
  rewrite Ht0 in Hdb. rewrite bool_decide_eq_false_2 in Hdb by discriminate.
  do 3 eexists. exists s'. split; [exact Hrun|].
  split; [rewrite Hdb; reflexivity|]. cbn.
  rewrite Hi0, Hi1, Hs0, Hs1, Ha0, Ha1, Hb0, Hb1, Ht1. tauto.
Qed.

Lemma swap_with_fee_three_events_witness :
  Sample.swap.(tx_type) = SWAP /\
  exists (e0 e1 e2 : EvmEvent) (s' : state),
    decode_transaction Sample.swap [Sample.tracked]
      (Sample.manager Sample.always_429 Sample.empty_db) = (Ok Sample.swap, s') /\
    history_events (db s') = [e0; e1; e2] /\
    sequence_index e0 = 0 /\ sequence_index e1 = 1 /\ sequence_index e2 = 2 /\
    balance e2 = (1 # 1000)%Q.
Proof.
  split; [reflexivity|].
  destruct (swap_with_fee_three_events Sample.swap [Sample.tracked] Sample.legs (1 # 1000)%Q
              (Sample.manager Sample.always_429 Sample.empty_db)
              eq_refl eq_refl eq_refl)
    as (e0 & e1 & e2 & s' & Hrun & Hev & (Hi0 & _) & (Hi1 & _) & (Hi2 & _ & _ & _ & Hb2)).
  exists e0, e1, e2, s'. tauto.
Defined.

Lemma event_data_transaction `{Collaborators} (tx tx' : ZKSyncLiteTransaction)
    (tracked_addresses : list string) (event_data : list event_entry) :
  decode_transaction_event_data tx tracked_addresses = Ok (tx', event_data) ->
  (tx_type tx = CHANGEPUBKEY /\ has_fee tx = true /\
   exists fee_amount, fee tx = Some fee_amount /\
     tx' = {| tx_hash := tx_hash tx; tx_type := tx_type tx; timestamp := timestamp tx;
              block_number := block_number tx; from_address := from_address tx;
              to_address := to_address tx; asset := asset tx; amount := fee_amount;
              fee := None; swap_data := swap_data tx |}) \/
  (~ (tx_type tx = CHANGEPUBKEY /\ has_fee tx = true) /\ tx' = tx).
Proof.
  unfold decode_transaction_event_data, has_fee.
  destruct (tx_type tx) eqn:Hty;
    repeat match goal with
           | |- context [if ?b then _ else _] => destruct b eqn:?
           | |- context [match ?o with Some _ => _ | None => _ end] => destruct o eqn:?
           end;
    intros Heq; inversion Heq; subst; clear Heq;
    try (right; split; [intros [? ?]; congruence | reflexivity]).
  left. split; [reflexivity|]. split; [reflexivity|]. eexists. split; reflexivity.
Qed.

(** C5, as amended. [decode_transaction] leaves every field of the
    transaction as it was, except for a ChangePubKey transaction with a
    (true) fee: there it moves the fee into [amount] and clears [fee]; the
    hash, type, timestamp, block number, addresses, asset and swap data are
    never changed. *)
Theorem decode_transaction_fields `{Collaborators} (tx tx' : ZKSyncLiteTransaction)
    (tracked_addresses : list string) (s s' : state) :
  decode_transaction tx tracked_addresses s = (Ok tx', s') ->
  tx_hash tx' = tx_hash tx /\ tx_type tx' = tx_type tx /\ timestamp tx' = timestamp tx /\
  block_number tx' = block_number tx /\ from_address tx' = from_address tx /\
  to_address tx' = to_address tx /\ asset tx' = asset tx /\ swap_data tx' = swap_data tx /\
  ((tx_type tx = CHANGEPUBKEY /\ has_fee tx = true /\
    Some (amount tx') = fee tx /\ fee tx' = None) \/
   (~ (tx_type tx = CHANGEPUBKEY /\ has_fee tx = true) /\
    amount tx' = amount tx /\ fee tx' = fee tx)).
Proof.
  intros Hrun.
  destruct (decode_transaction_event_data tx tracked_addresses) as [[tx1 ed]|e] eqn:Hdata.
  - destruct (decode_transaction_run tx tx1 tracked_addresses ed s Hdata) as (s1 & Hrun1 & _).
    rewrite Hrun1 in Hrun. inversion Hrun; subst; clear Hrun.
    destruct (event_data_transaction tx tx' tracked_addresses ed Hdata)
      as [(Hty & Hfee & f & Hf & ->) | (Hno & ->)]; cbn.
    + repeat (split; [reflexivity|]). left. rewrite Hf. auto.
    + repeat (split; [reflexivity|]). right. auto.
  - rewrite (decode_transaction_Raise tx tracked_addresses e s Hdata) in Hrun. discriminate.
Qed.

Lemma decode_transaction_fields_witness :
  exists s',
    decode_transaction Sample.change_pub_key [Sample.tracked]
      (Sample.manager Sample.always_429 Sample.empty_db)
    = (Ok (Sample.transaction_of "c0" CHANGEPUBKEY 1700000000 (Some Sample.tracked) None
             (1 # 1000)%Q None None), s') /\
    tx_hash (Sample.transaction_of "c0" CHANGEPUBKEY 1700000000 (Some Sample.tracked) None
               (1 # 1000)%Q None None) = tx_hash Sample.change_pub_key.
Proof.
  eexists. split; [vm_compute; reflexivity|].
  eapply (decode_transaction_fields Sample.change_pub_key _ [Sample.tracked]
            (Sample.manager Sample.always_429 Sample.empty_db)).
  vm_compute. reflexivity.
Defined.

(** C5: the claim fails for a ChangePubKey transaction that carries a fee:
    decoding it changes its [amount] and its [fee]. *)
Lemma decode_transaction_changes_change_pub_key :
  exists tx' s',
    decode_transaction Sample.change_pub_key [Sample.tracked]
      (Sample.manager Sample.always_429 Sample.empty_db) = (Ok tx', s') /\
    amount tx' <> amount Sample.change_pub_key /\ fee tx' <> fee Sample.change_pub_key.
Proof.
  do 2 eexists. split; [vm_compute; reflexivity|]. cbn. split; discriminate.
Qed.

Lemma event_data_total `{Collaborators} (tx : ZKSyncLiteTransaction)
    (tracked_addresses : list string) :
  (tx_type tx = SWAP -> swap_data tx <> None) ->
  exists tx' event_data,
    decode_transaction_event_data tx tracked_addresses = Ok (tx', event_data).
Proof.
  intros Hswap. unfold decode_transaction_event_data.
  destruct (tx_type tx) eqn:Hty;
    repeat match goal with
           | |- context [if ?b then _ else _] => destruct b eqn:?
           | |- context [match ?o with Some _ => _ | None => _ end] => destruct o eqn:?
           end;
    try (do 2 eexists; reflexivity).
  exfalso. apply Hswap; reflexivity.
Qed.

Lemma event_data_tx_hash `{Collaborators} (tx tx' : ZKSyncLiteTransaction)
    (tracked_addresses : list string) (event_data : list event_entry) :
  decode_transaction_event_data tx tracked_addresses = Ok (tx', event_data) ->
  tx_hash tx' = tx_hash tx.
Proof.
  intros Hdata.
  destruct (event_data_transaction tx tx' tracked_addresses event_data Hdata)
    as [(_ & _ & f & _ & ->) | (_ & ->)]; reflexivity.
Qed.

Lemma untracked_transfer_event_data `{Collaborators} (tx : ZKSyncLiteTransaction)
    (tracked_addresses : list string) :
  tx_type tx = TRANSFER ->
  is_tracked (from_address tx) tracked_addresses = false ->
  is_tracked (to_address tx) tracked_addresses = false ->
  decode_transaction_event_data tx tracked_addresses = Ok (tx, []).
Proof.
  intros Hty Hfrom Hto. unfold decode_transaction_event_data.
  rewrite Hty, Hfrom, Hto. reflexivity.
Qed.

Lemma with_is_decoded_flag (value : Z) (h : string) (rows : list tx_row) (r : tx_row) :
  r ∈ with_is_decoded value h rows -> tx_hash (row_columns r) = h -> is_decoded r = value.
Proof.
  unfold with_is_decoded. intros Hin Hh.
  apply list_elem_of_fmap in Hin as (r0 & -> & _).
  destruct (String.eqb (tx_hash (row_columns r0)) h) eqn:Heq; [reflexivity|].
  apply String.eqb_neq in Heq. contradiction.
Qed.

(** Every transaction [get_db_transactions] returns comes from a row the
    cursor held. *)
Lemma get_db_transactions_loop_hashes `{Collaborators} (d : database) (cursor : list tx_row) :
  forall (transactions L : list ZKSyncLiteTransaction) (s s' : state) (t : ZKSyncLiteTransaction),
    get_db_transactions_loop d cursor transactions s = (Ok L, s') ->
    t ∈ L ->
    t ∈ transactions \/ exists r, r ∈ cursor /\ tx_hash (row_columns r) = tx_hash t.
Proof.
  induction cursor as [|entry cursor IH]; intros transactions L s s' t Hrun Hin.
  - cbn in Hrun. inversion Hrun; subst. left; assumption.
  - cbn [get_db_transactions_loop] in Hrun.
    destruct (bool_decide (tx_type (row_columns entry) = SWAP)).
    + destruct (zksynclite_swaps d !! row_identifier entry) as [data|].
      * inversion Hrun; subst; clear Hrun.
        apply elem_of_app in Hin as [Hin|Hin]; [left; assumption|].
        apply list_elem_of_singleton in Hin as ->. right.
        exists entry. split; [left|reflexivity].
      * cbn in Hrun. inversion Hrun; subst. left; assumption.
    + destruct (IH _ _ _ _ _ Hrun Hin) as [Hacc|(r & Hr & Hh)].
      * apply elem_of_app in Hacc as [Hacc|Hacc]; [left; assumption|].
        apply list_elem_of_singleton in Hacc as ->. right.
        exists entry. split; [left|reflexivity].
      * right. exists r. split; [right; assumption|assumption].
Qed.

Lemma flagged_decoded_not_pending `{Collaborators} (h : string) (s s' : state)
    (L : list ZKSyncLiteTransaction) :
  flagged_decoded h (db s) ->
  get_db_transactions (Some 0) s = (Ok L, s') ->
  forall t, t ∈ L -> tx_hash t <> h.
Proof.
  intros Hflag Hrun t Hin Hh. unfold get_db_transactions in Hrun. cbn in Hrun.
  destruct (get_db_transactions_loop_hashes _ _ _ _ _ _ t Hrun Hin) as [Hnil|(r & Hr & Hrh)].
  - apply elem_of_nil in Hnil. contradiction.
  - apply list_elem_of_filter in Hr as [Hzero Hr].
    rewrite (Hflag r Hr) in Hzero by congruence. discriminate.
Qed.

(** ** Storage of a batch *)

Lemma hash_stored_app (h : string) (rows1 rows2 : list tx_row) :
  hash_stored h (rows1 ++ rows2) = hash_stored h rows1 || hash_stored h rows2.
Proof. unfold hash_stored. apply existsb_app. Qed.

(** The logged state a rejected insertion leaves. *)
Lemma _add_zksynctxs_db_transaction_duplicate `{Collaborators}
    (transaction : ZKSyncLiteTransaction) (s : state) :
  hash_stored (tx_hash transaction) (zksynclite_transactions (db s)) = true ->
  exists s',
    _add_zksynctxs_db_transaction transaction s = (Ok tt, s') /\
    db s' = db s /\
    logs s' = (ERROR, "Did not add zksync transaction to the DB") :: logs s.
Proof.
  intros Hstored. unfold _add_zksynctxs_db_transaction, try_except, insert_transaction.
  rewrite !bind_run. cbn. rewrite Hstored. cbn.
  eexists. split; [reflexivity|]. split; reflexivity.
Qed.

Lemma find_identifier_app (rows : list tx_row) (r : tx_row) :
  exists r', find (fun x => row_identifier x =? row_identifier r) (rows ++ [r]) = Some r'.
Proof.
  induction rows as [|x rows IH]; cbn.
  - rewrite Z.eqb_refl. eauto.
  - destruct (row_identifier x =? row_identifier r); eauto.
Qed.

(** A transaction whose hash is new is stored, with its swap data if it is
    a Swap; the rows already there stay, in their place. *)
Lemma _add_zksynctxs_db_transaction_fresh `{Collaborators}
    (transaction : ZKSyncLiteTransaction) (s : state) :
  hash_stored (tx_hash transaction) (zksynclite_transactions (db s)) = false ->
  (tx_type transaction = SWAP -> swap_data transaction <> None) ->
  exists s',
    _add_zksynctxs_db_transaction transaction s = (Ok tt, s') /\
    zksynclite_transactions (db s') =
      zksynclite_transactions (db s) ++
      [{| row_identifier := next_identifier (zksynclite_transactions (db s));
          row_columns := serialize_for_db transaction; is_decoded := 0 |}].
Proof.
  intros Hfresh Hswap.
  unfold _add_zksynctxs_db_transaction, try_except, insert_transaction.
  rewrite !bind_run. cbn. rewrite Hfresh. cbn.
  case_bool_decide as Hty; cbn.
  - destruct (find_identifier_app (zksynclite_transactions (db s))
                {| row_identifier := next_identifier (zksynclite_transactions (db s));
                   row_columns := serialize_for_db transaction; is_decoded := 0 |})
      as [r' Hfind].
    cbn in Hfind. unfold set_db, get_db, insert_swap, mbind, M_bind, mret, M_ret. cbn. rewrite Hfind.
    destruct (swap_data transaction) as [data|] eqn:Hdata; [|exfalso; apply (Hswap Hty); reflexivity].
    cbn. eexists. split; reflexivity.
  - eexists. split; reflexivity.
Qed.

Lemma hash_stored_serialize (transaction : ZKSyncLiteTransaction) (rows : list tx_row) (id : Z) :
  hash_stored (tx_hash transaction)
    (rows ++ [{| row_identifier := id; row_columns := serialize_for_db transaction;
                 is_decoded := 0 |}]) = true.
Proof.
  rewrite hash_stored_app. cbn. rewrite String.eqb_refl. cbn. apply orb_true_r.
Qed.

(** A batch of well-formed transactions is stored without raising: the
    rows already there stay and the hash of every transaction of the batch
    is stored at the end. *)
Lemma _add_zksynctxs_db_stores `{Collaborators} (transactions : list ZKSyncLiteTransaction) :
  forall s,
    Forall (fun t => tx_type t = SWAP -> swap_data t <> None) transactions ->
    exists s',
      _add_zksynctxs_db transactions s = (Ok tt, s') /\
      zksynclite_transactions (db s) `prefix_of` zksynclite_transactions (db s') /\
      forall t, t ∈ transactions ->
        hash_stored (tx_hash t) (zksynclite_transactions (db s')) = true.
Proof.
  induction transactions as [|t transactions IH]; intros s Hwf.
  - exists s. split; [reflexivity|]. split; [reflexivity|].
    intros t Ht. apply elem_of_nil in Ht. contradiction.
  - apply Forall_cons in Hwf as [Ht Hwf].
    unfold _add_zksynctxs_db in *. cbn [for_each]. rewrite bind_run.
    destruct (hash_stored (tx_hash t) (zksynclite_transactions (db s))) eqn:Hstored.
    + destruct (_add_zksynctxs_db_transaction_duplicate t s Hstored) as (s1 & -> & Hdb & _).
      destruct (IH s1 Hwf) as (s' & Hrun & Hpre & Hall).
      exists s'. split; [exact Hrun|]. rewrite <- Hdb. split; [exact Hpre|].
      intros t' Ht'. apply elem_of_cons in Ht' as [->|Ht']; [|auto].
      destruct Hpre as [rest Hrest]. rewrite Hrest, hash_stored_app, Hdb, Hstored. reflexivity.
    + destruct (_add_zksynctxs_db_transaction_fresh t s Hstored Ht) as (s1 & -> & Hrows).
      destruct (IH s1 Hwf) as (s' & Hrun & Hpre & Hall).
      exists s'. split; [exact Hrun|]. split.
      * etrans; [|exact Hpre]. rewrite Hrows. apply prefix_app_r. reflexivity.
      * intros t' Ht'. apply elem_of_cons in Ht' as [->|Ht']; [|auto].
        destruct Hpre as [rest Hrest]. rewrite Hrest, Hrows, hash_stored_app.
        rewrite hash_stored_serialize. reflexivity.
Qed.

(** C9. When a transaction of a batch has a hash that is stored already
    (it was there before the batch, or an earlier transaction of the batch
    brought it), its insertion is rejected, logged and leaves the database
    as it is, and the batch goes on with the transactions that follow: they
    are processed exactly as if they were inserted from that state, and,
    being well formed, their hashes are all stored when the call returns. *)
Theorem duplicate_does_not_abort_batch `{Collaborators}
    (before after : list ZKSyncLiteTransaction) (duplicate : ZKSyncLiteTransaction)
    (s s1 : state) :
  _add_zksynctxs_db before s = (Ok tt, s1) ->
  hash_stored (tx_hash duplicate) (zksynclite_transactions (db s1)) = true ->
  Forall (fun t => tx_type t = SWAP -> swap_data t <> None) after ->
  exists s2 s3,
    _add_zksynctxs_db_transaction duplicate s1 = (Ok tt, s2) /\
    db s2 = db s1 /\
    logs s2 = (ERROR, "Did not add zksync transaction to the DB") :: logs s1 /\
    _add_zksynctxs_db (before ++ duplicate :: after) s = _add_zksynctxs_db after s2 /\
    _add_zksynctxs_db after s2 = (Ok tt, s3) /\
    zksynclite_transactions (db s1) `prefix_of` zksynclite_transactions (db s3) /\
    forall t, t ∈ after -> hash_stored (tx_hash t) (zksynclite_transactions (db s3)) = true.
Proof.
  intros Hbefore Hstored Hwf.
  destruct (_add_zksynctxs_db_transaction_duplicate duplicate s1 Hstored)
    as (s2 & Hdup & Hdb & Hlog).
  destruct (_add_zksynctxs_db_stores after s2 Hwf) as (s3 & Hafter & Hpre & Hall).
  exists s2, s3. repeat split; try assumption.
  - unfold _add_zksynctxs_db in *. rewrite for_each_app, Hbefore.
    cbn [for_each]. rewrite bind_run, Hdup. reflexivity.
  - rewrite <- Hdb. exact Hpre.
Qed.

Lemma duplicate_does_not_abort_batch_witness :
  exists s3,
    _add_zksynctxs_db
      ([Sample.transfer_of "a0"] ++ Sample.transfer_of "a0" :: [Sample.transfer_of "c1"])
      (Sample.manager Sample.always_429 Sample.empty_db) = (Ok tt, s3) /\
    hash_stored "c1" (zksynclite_transactions (db s3)) = true.
Proof.
  set (s := Sample.manager Sample.always_429 Sample.empty_db).
  set (s1 := snd (_add_zksynctxs_db [Sample.transfer_of "a0"] s)).
  assert (Hbefore : _add_zksynctxs_db [Sample.transfer_of "a0"] s = (Ok tt, s1))
    by (vm_compute; reflexivity).
  assert (Hstored : hash_stored (tx_hash (Sample.transfer_of "a0"))
                      (zksynclite_transactions (db s1)) = true)
    by (vm_compute; reflexivity).
  assert (Hwf : Forall (fun t => tx_type t = SWAP -> swap_data t <> None)
                  [Sample.transfer_of "c1"]).
  { constructor; [intros Hty; discriminate Hty|constructor]. }
  destruct (duplicate_does_not_abort_batch [Sample.transfer_of "a0"] [Sample.transfer_of "c1"]
              (Sample.transfer_of "a0") s s1 Hbefore Hstored Hwf)
    as (s2 & s3 & _ & _ & _ & Hbatch & Hafter & _ & Hall).
  exists s3. split; [rewrite Hbatch; exact Hafter|].
  apply (Hall (Sample.transfer_of "c1")). left.
Defined.

(** ** Bulk decoding *)

Lemma decoded_events_identifier `{Collaborators} (t : ZKSyncLiteTransaction)
    (tracked_addresses : list string) (e : EvmEvent) :
  e ∈ decoded_events t tracked_addresses ->
  event_identifier e = ZKL_IDENTIFIER (tx_hash t).
Proof.
  unfold decoded_events.
  destruct (decode_transaction_event_data t tracked_addresses) as [[t' ed]|err] eqn:Hdata;
    [|intros Hin; apply elem_of_nil in Hin; contradiction].
  rewrite <- (event_data_tx_hash t t' tracked_addresses ed Hdata).
  unfold decode_transaction_events.
  assert (Hmap : forall e, e ∈ map (event_of_entry t') ed ->
                           event_identifier e = ZKL_IDENTIFIER (tx_hash t')).
  { intros e0 He0. apply list_elem_of_fmap in He0 as (x & -> & _). reflexivity. }
  destruct (fee t') as [f|]; [|apply Hmap].
  destruct (map (event_of_entry t') ed) as [|first_event events] eqn:Hevents; [apply Hmap|].
  destruct (last (first_event :: events)) as [last_event|]; [|apply Hmap].
  destruct (bool_decide (event_type first_event = HET_RECEIVE)); [apply Hmap|].
  intros Hin. apply elem_of_app in Hin as [Hin|Hin]; [apply Hmap; exact Hin|].
  apply list_elem_of_singleton in Hin as ->. reflexivity.
Qed.

Lemma filter_all_true {A : Type} (f : A -> bool) (l : list A) :
  (forall x, x ∈ l -> f x = true) -> List.filter f l = l.
Proof.
  induction l as [|x l IH]; intros Hall; cbn; [reflexivity|].
  rewrite (Hall x) by left. f_equal. apply IH. intros y Hy. apply Hall. right. exact Hy.
Qed.

Lemma filter_all_false {A : Type} (f : A -> bool) (l : list A) :
  (forall x, x ∈ l -> f x = false) -> List.filter f l = [].
Proof.
  induction l as [|x l IH]; intros Hall; cbn; [reflexivity|].
  rewrite (Hall x) by left. apply IH. intros y Hy. apply Hall. right. exact Hy.
Qed.

Lemma filter_filter_neg {A : Type} (f : A -> bool) (l : list A) :
  List.filter f (List.filter (fun x => negb (f x)) l) = [].
Proof.
  apply filter_all_false. intros x Hx. apply list_elem_of_In, filter_In in Hx as [_ Hx].
  apply negb_true_iff in Hx. exact Hx.
Qed.

Lemma filter_filter_other {A : Type} (f g : A -> bool) (l : list A) :
  (forall x, f x = true -> g x = false) ->
  List.filter f (List.filter (fun x => negb (g x)) l) = List.filter f l.
Proof.
  intros Hfg. induction l as [|x l IH]; cbn; [reflexivity|].
  destruct (g x) eqn:Hg; cbn.
  - destruct (f x) eqn:Hf; [rewrite (Hfg x Hf) in Hg; discriminate|exact IH].
  - destruct (f x); [f_equal|]; exact IH.
Qed.

(** One iteration of a bulk pass replaces the events of the transaction's
    identifier by those of its decode and leaves the others alone. *)
Lemma redecoded_db_events_same `{Collaborators} (tracked_addresses : list string)
    (d : database) (t : ZKSyncLiteTransaction) :
  events_of (ZKL_IDENTIFIER (tx_hash t)) (redecoded_db tracked_addresses d t)
  = decoded_events t tracked_addresses.
Proof.
  unfold events_of, redecoded_db, decoded_db, without_identifier. cbn.
  rewrite List.filter_app, filter_filter_neg. cbn.
  apply filter_all_true. intros e He.
  rewrite (decoded_events_identifier t tracked_addresses e He). apply String.eqb_refl.
Qed.

Lemma redecoded_db_events_other `{Collaborators} (tracked_addresses : list string)
    (d : database) (t : ZKSyncLiteTransaction) (event_id : string) :
  event_id <> ZKL_IDENTIFIER (tx_hash t) ->
  events_of event_id (redecoded_db tracked_addresses d t) = events_of event_id d.
Proof.
  intros Hne. unfold events_of, redecoded_db, decoded_db, without_identifier. cbn.
  rewrite List.filter_app.
  rewrite (filter_all_false _ (decoded_events t tracked_addresses)).
  - rewrite app_nil_r. apply filter_filter_other.
    intros e He. apply String.eqb_eq in He. apply String.eqb_neq. congruence.
  - intros e He. rewrite (decoded_events_identifier t tracked_addresses e He).
    apply String.eqb_neq. congruence.
Qed.

Lemma fold_redecoded_events_other `{Collaborators} (tracked_addresses : list string)
    (L : list ZKSyncLiteTransaction) (event_id : string) :
  forall d,
    (forall t, t ∈ L -> ZKL_IDENTIFIER (tx_hash t) <> event_id) ->
    events_of event_id (fold_left (redecoded_db tracked_addresses) L d) = events_of event_id d.
Proof.
  induction L as [|t L IH]; intros d Hne; cbn [fold_left]; [reflexivity|].
  rewrite IH by (intros t' Ht'; apply Hne; right; exact Ht').
  apply redecoded_db_events_other. intros Heq. apply (Hne t); [left|auto].
Qed.

(** After a pass, the events of an identifier are those of the last
    transaction of the pass with that identifier. *)
Lemma fold_redecoded_events_last `{Collaborators} (tracked_addresses : list string)
    (L1 L2 : list ZKSyncLiteTransaction) (t : ZKSyncLiteTransaction) (d : database) :
  (forall t', t' ∈ L2 -> ZKL_IDENTIFIER (tx_hash t') <> ZKL_IDENTIFIER (tx_hash t)) ->
  events_of (ZKL_IDENTIFIER (tx_hash t))
    (fold_left (redecoded_db tracked_addresses) (L1 ++ t :: L2) d)
  = decoded_events t tracked_addresses.
Proof.
  intros Hne. rewrite fold_left_app. cbn [fold_left].
  rewrite fold_redecoded_events_other by exact Hne.
  apply redecoded_db_events_same.
Qed.

(** Reading the transactions leaves the database as it is, never raises,
    and returns transactions of distinct rows, in the order of the rows. *)
Lemma get_db_transactions_loop_run `{Collaborators} (d : database) (cursor : list tx_row) :
  forall (transactions : list ZKSyncLiteTransaction) (s : state),
  exists L s',
    get_db_transactions_loop d cursor transactions s = (Ok (transactions ++ L), s') /\
    db s' = db s /\
    map tx_hash L `sublist_of` map (fun r => tx_hash (row_columns r)) cursor.
Proof.
  induction cursor as [|entry cursor IH]; intros transactions s; cbn [get_db_transactions_loop].
  - exists [], s. rewrite app_nil_r. split; [reflexivity|]. split; [reflexivity|constructor].
  - destruct (bool_decide (tx_type (row_columns entry) = SWAP)).
    + destruct (zksynclite_swaps d !! row_identifier entry) as [data|].
      * eexists [_], s. split; [reflexivity|]. split; [reflexivity|].
        cbn. apply sublist_skip, sublist_nil_l.
      * eexists [], _. rewrite app_nil_r. split; [reflexivity|]. split; [reflexivity|].
        apply sublist_nil_l.
    + destruct (IH (transactions ++ [row_columns entry]) s) as (L & s' & Hrun & Hdb & Hsub).
      exists (row_columns entry :: L), s'. rewrite Hrun, <- app_assoc. cbn.
      split; [reflexivity|]. split; [exact Hdb|]. apply sublist_skip. exact Hsub.
Qed.

Lemma sublist_fmap_filter {A B : Type} (f : A -> B) (P : A -> Prop)
    `{!forall x, Decision (P x)} (l : list A) :
  map f (filter P l) `sublist_of` map f l.
Proof.
  induction l as [|x l IH]; [constructor|]. rewrite filter_cons.
  destruct (decide (P x)); cbn; [apply sublist_skip|apply sublist_cons]; exact IH.
Qed.

Lemma get_db_transactions_run `{Collaborators} (queryfilter : option Z) (s : state) :
  exists L s',
    get_db_transactions queryfilter s = (Ok L, s') /\ db s' = db s /\
    map tx_hash L `sublist_of` stored_hashes (db s).
Proof.
  unfold get_db_transactions. rewrite (bind_Ok get_db _ s s (db s)) by reflexivity.
  match goal with
  | |- context [get_db_transactions_loop ?d ?cursor [] s] =>
      destruct (get_db_transactions_loop_run d cursor [] s) as (L & s' & Hrun & Hdb & Hsub)
  end.
  exists L, s'. split; [exact Hrun|]. split; [exact Hdb|].
  etrans; [exact Hsub|]. unfold stored_hashes.
  destruct queryfilter; [apply sublist_fmap_filter|reflexivity].
Qed.

Lemma redecoded_db_stored_hashes `{Collaborators} (tracked_addresses : list string)
    (d : database) (t : ZKSyncLiteTransaction) :
  stored_hashes (redecoded_db tracked_addresses d t) = stored_hashes d /\
  zksync_lite_accounts (redecoded_db tracked_addresses d t) = zksync_lite_accounts d /\
  zksynclite_swaps (redecoded_db tracked_addresses d t) = zksynclite_swaps d.
Proof.
  split; [|split; reflexivity].
  unfold stored_hashes, redecoded_db, decoded_db, with_is_decoded. cbn.
  rewrite map_map. apply map_ext. intros r.
  destruct (String.eqb (tx_hash (row_columns r)) (tx_hash t)); reflexivity.
Qed.

Lemma fold_redecoded_db_stored_hashes `{Collaborators} (tracked_addresses : list string)
    (L : list ZKSyncLiteTransaction) :
  forall d,
    stored_hashes (fold_left (redecoded_db tracked_addresses) L d) = stored_hashes d /\
    zksync_lite_accounts (fold_left (redecoded_db tracked_addresses) L d)
      = zksync_lite_accounts d.
Proof.
  induction L as [|t L IH]; intros d; cbn [fold_left]; [split; reflexivity|].
  destruct (IH (redecoded_db tracked_addresses d t)) as [-> ->].
  destruct (redecoded_db_stored_hashes tracked_addresses d t) as (-> & -> & _).
  split; reflexivity.
Qed.

(** What the loop of a bulk pass does to the database. *)
Lemma decode_undecoded_transactions_loop_db `{Collaborators} (send_ws_notifications : bool)
    (total_transactions : nat) (tracked_addresses : list string)
    (transactions : list ZKSyncLiteTransaction) :
  forall (tx_index : nat) (s s' : state),
    decode_undecoded_transactions_loop send_ws_notifications total_transactions
      tracked_addresses tx_index transactions s = (Ok tt, s') ->
    db s' = fold_left (redecoded_db tracked_addresses) transactions (db s).
Proof.
  induction transactions as [|t transactions IH]; intros tx_index s s' Hrun;
    cbn [decode_undecoded_transactions_loop fold_left] in *.
  - apply ret_Ok_inv in Hrun as [_ ->]. reflexivity.
  - apply bind_Ok_inv in Hrun as ([] & s1 & Hdel & Hrun).
    apply bind_Ok_inv in Hrun as (t' & s2 & Hdec & Hrun).
    apply bind_Ok_inv in Hrun as ([] & s3 & Hws & Hrun).
    rewrite (IH _ _ _ Hrun). f_equal.
    assert (Hs3 : db s3 = db s2).
    { destruct (send_ws_notifications && (tx_index mod 10 =? 0)%nat);
        unfold_state_ops; inversion Hws; reflexivity. }
    rewrite Hs3. clear Hws Hs3 Hrun.
    unfold delete_history_events in Hdel. unfold_state_ops. cbn in Hdel.
    inversion Hdel; subst s1; clear Hdel.
    destruct (decode_transaction_event_data t tracked_addresses) as [[t1 ed]|e] eqn:Hdata.
    + match type of Hdec with
      | decode_transaction _ _ ?s0 = _ =>
          destruct (decode_transaction_run t t1 tracked_addresses ed s0 Hdata)
            as (s2' & Hrun' & Hdb)
      end.
      rewrite Hrun' in Hdec. inversion Hdec; subst; clear Hdec.
      rewrite Hdb. unfold redecoded_db, decoded_events. rewrite Hdata.
      rewrite (event_data_tx_hash t t' tracked_addresses ed Hdata). reflexivity.
    + rewrite (decode_transaction_Raise t tracked_addresses e _ Hdata) in Hdec. discriminate.
Qed.

(** What a bulk pass does to the database: every transaction it reads is
    decoded afresh, in order. *)
Lemma decode_undecoded_transactions_db `{Collaborators}
    (force_redecode send_ws_notifications : bool) (s s' : state) (n : nat) :
  decode_undecoded_transactions force_redecode send_ws_notifications s = (Ok n, s') ->
  exists L s0,
    get_db_transactions (if force_redecode then None else Some 0) s = (Ok L, s0) /\
    db s' = fold_left (redecoded_db (zksync_lite_accounts (db s))) L (db s).
Proof.
  intros Hrun. unfold decode_undecoded_transactions in Hrun.
  destruct (get_db_transactions_run (if force_redecode then None else Some 0) s)
    as (L & s0 & Hget & Hdb0 & _).
  rewrite (bind_Ok _ _ _ _ _ Hget) in Hrun.
  apply bind_Ok_inv in Hrun as (d & s1 & Hd & Hrun).
  unfold get_db in Hd. inversion Hd; subst d s1; clear Hd.
  apply bind_Ok_inv in Hrun as ([] & s2 & Hloop & Hrun).
  apply decode_undecoded_transactions_loop_db in Hloop.
  apply bind_Ok_inv in Hrun as ([] & s3 & Hws & Hrun).
  apply ret_Ok_inv in Hrun as [_ ->].
  exists L, s0. split; [exact Hget|].
  assert (Hs3 : db s3 = db s2).
  { destruct send_ws_notifications; unfold_state_ops; inversion Hws; reflexivity. }
  rewrite Hs3, Hloop, Hdb0. reflexivity.
Qed.

(** In a pass over transactions of distinct hashes, the events stored for
    a transaction read are those of its decode. *)
Lemma pass_events `{Collaborators} (tracked_addresses : list string)
    (L : list ZKSyncLiteTransaction) (t : ZKSyncLiteTransaction) (d : database) :
  (forall h1 h2, ZKL_IDENTIFIER h1 = ZKL_IDENTIFIER h2 -> h1 = h2) ->
  NoDup (map tx_hash L) -> t ∈ L ->
  events_of (ZKL_IDENTIFIER (tx_hash t)) (fold_left (redecoded_db tracked_addresses) L d)
  = decoded_events t tracked_addresses.
Proof.
  intros Hinj Hnodup Hin.
  apply list_elem_of_split in Hin as (L1 & L2 & ->).
  apply fold_redecoded_events_last. intros t' Ht' Heq. apply Hinj in Heq.
  rewrite map_app in Hnodup. cbn in Hnodup.
  apply NoDup_app in Hnodup as (_ & _ & Hnodup).
  apply NoDup_cons in Hnodup as [Hnotin _]. apply Hnotin.
  rewrite <- Heq. apply list_elem_of_fmap. exists t'. split; [reflexivity|exact Ht'].
Qed.

(** C4. In a database whose stored hashes are distinct, with event
    identifiers that tell hashes apart, take a bulk decode pass, forced or
    not, and then a forced one. For every transaction both passes read, the
    events stored under its identifier after the first pass and after the
    second are the same list, field for field: the events its decode
    produces for the tracked addresses. *)
Theorem decoding_twice_same_events `{Collaborators}
    (force_redecode ws1 ws2 : bool) (s s1 s2 : state) (n1 n2 : nat)
    (t : ZKSyncLiteTransaction) :
  NoDup (stored_hashes (db s)) ->
  (forall h1 h2, ZKL_IDENTIFIER h1 = ZKL_IDENTIFIER h2 -> h1 = h2) ->
  decode_undecoded_transactions force_redecode ws1 s = (Ok n1, s1) ->
  decode_undecoded_transactions true ws2 s1 = (Ok n2, s2) ->
  decoded_by_pass force_redecode s t ->
  decoded_by_pass true s1 t ->
  events_of (ZKL_IDENTIFIER (tx_hash t)) (db s1)
    = events_of (ZKL_IDENTIFIER (tx_hash t)) (db s2) /\
  events_of (ZKL_IDENTIFIER (tx_hash t)) (db s2)
    = decoded_events t (zksync_lite_accounts (db s)).
Proof.
  intros Hnodup Hinj Hpass1 Hpass2 (L1 & sa & Hget1 & Hin1) (L2 & sb & Hget2 & Hin2).
  apply decode_undecoded_transactions_db in Hpass1 as (L1' & sa' & Hget1' & Hdb1).
  apply decode_undecoded_transactions_db in Hpass2 as (L2' & sb' & Hget2' & Hdb2).
  rewrite Hget1 in Hget1'. inversion Hget1'; subst L1' sa'; clear Hget1'.
  rewrite Hget2 in Hget2'. inversion Hget2'; subst L2' sb'; clear Hget2'.
  destruct (get_db_transactions_run (if force_redecode then None else Some 0) s)
    as (L & s0 & Hget & _ & Hsub1).
  rewrite Hget1 in Hget. inversion Hget; subst L s0; clear Hget.
  destruct (get_db_transactions_run None s1) as (L & s0 & Hget & _ & Hsub2).
  cbn in Hget2. rewrite Hget2 in Hget. inversion Hget; subst L s0; clear Hget.
  destruct (fold_redecoded_db_stored_hashes (zksync_lite_accounts (db s)) L1 (db s))
    as [Hhashes Haccounts].
  rewrite <- Hdb1 in Hhashes, Haccounts.
  assert (Hev1 : events_of (ZKL_IDENTIFIER (tx_hash t)) (db s1)
                 = decoded_events t (zksync_lite_accounts (db s))).
  { rewrite Hdb1. apply pass_events; [exact Hinj| |exact Hin1].
    exact (sublist_NoDup _ _ Hnodup Hsub1). }
  assert (Hev2 : events_of (ZKL_IDENTIFIER (tx_hash t)) (db s2)
                 = decoded_events t (zksync_lite_accounts (db s))).
  { rewrite Hdb2, Haccounts. apply pass_events; [exact Hinj| |exact Hin2].
    rewrite Hhashes in Hsub2. exact (sublist_NoDup _ _ Hnodup Hsub2). }
  split; [congruence|exact Hev2].
Qed.

Lemma sample_identifier_injective (h1 h2 : string) :
  ZKL_IDENTIFIER (Collaborators := Sample.collaborators) h1 = ZKL_IDENTIFIER h2 -> h1 = h2.
Proof. cbn. intros Heq. injection Heq as Heq. exact Heq. Qed.

Lemma decoding_twice_same_events_witness :
  exists s1 s2,
    decode_undecoded_transactions false false
      (Sample.manager Sample.always_429 Sample.pending_db) = (Ok 2%nat, s1) /\
    decode_undecoded_transactions true false s1 = (Ok 2%nat, s2) /\
    events_of "zklc0" (db s1) = events_of "zklc0" (db s2) /\
    length (events_of "zklc0" (db s2)) = 1%nat.
Proof.
  set (s := Sample.manager Sample.always_429 Sample.pending_db).
  set (s1 := snd (decode_undecoded_transactions false false s)).
  set (s2 := snd (decode_undecoded_transactions true false s1)).
  assert (Hpass1 : decode_undecoded_transactions false false s = (Ok 2%nat, s1))
    by (vm_compute; reflexivity).
  assert (Hpass2 : decode_undecoded_transactions true false s1 = (Ok 2%nat, s2))
    by (vm_compute; reflexivity).
  assert (Hnodup : NoDup (stored_hashes (db s))).
  { apply NoDup_cons. split; [|apply NoDup_singleton].
    intros Hin. apply list_elem_of_singleton in Hin. discriminate Hin. }
  assert (Hread1 : decoded_by_pass false s Sample.change_pub_key).
  { do 2 eexists. split; [vm_compute; reflexivity|]. left. }
  assert (Hread2 : decoded_by_pass true s1 Sample.change_pub_key).
  { do 2 eexists. split; [vm_compute; reflexivity|]. left. }
  destruct (decoding_twice_same_events false false false s s1 s2 2 2 Sample.change_pub_key
              Hnodup sample_identifier_injective Hpass1 Hpass2 Hread1 Hread2) as [Hsame Hevents].
  exists s1, s2. split; [exact Hpass1|]. split; [exact Hpass2|]. split; [exact Hsame|].
  vm_compute. reflexivity.
Defined.

(** ** Invariants of the stored transactions *)

#[global] Instance stays_decoded_preorder (h : string) : PreOrder (stays_decoded h).
Proof. split; [intros s; unfold stays_decoded; auto|]. intros s1 s2 s3; unfold stays_decoded; auto. Qed.

#[global] Instance stays_distinct_preorder : PreOrder stays_distinct.
Proof. split; [intros s; unfold stays_distinct; auto|]. intros s1 s2 s3; unfold stays_distinct; auto. Qed.

Lemma same_db_stays_decoded (h : string) (s s' : state) : same_db s s' -> stays_decoded h s s'.
Proof. unfold same_db, stays_decoded. intros ->. auto. Qed.

Lemma same_db_stays_distinct (s s' : state) : same_db s s' -> stays_distinct s s'.
Proof. unfold same_db, stays_distinct. intros ->. auto. Qed.

Lemma hash_stored_elem_of (h : string) (rows : list tx_row) :
  hash_stored h rows = true <-> h ∈ map (fun r => tx_hash (row_columns r)) rows.
Proof.
  unfold hash_stored. rewrite existsb_exists. split.
  - intros (r & Hr & Heq). apply String.eqb_eq in Heq. subst h.
    apply list_elem_of_fmap. exists r. split; [reflexivity|]. apply list_elem_of_In. exact Hr.
  - intros Hin. apply list_elem_of_fmap in Hin as (r & -> & Hr).
    exists r. split; [apply list_elem_of_In; exact Hr|apply String.eqb_refl].
Qed.

Lemma keeps_stays_decoded_insert_transaction `{Collaborators} (h : string)
    (t : ZKSyncLiteTransaction) :
  keeps (stays_decoded h) (insert_transaction t).
Proof.
  intros s. unfold insert_transaction, stays_decoded, flagged_decoded.
  unfold get_db, set_db, mbind, M_bind, mret, M_ret, raise. cbn -[hash_stored].
  destruct (hash_stored (tx_hash t) (zksynclite_transactions (db s))) eqn:Hstored;
    cbn -[hash_stored]; [auto|].
  intros [Hh Hflag]. split.
  - rewrite hash_stored_app, Hh. reflexivity.
  - intros r Hr Hrh. apply elem_of_app in Hr as [Hr|Hr]; [auto|].
    apply list_elem_of_singleton in Hr. subst r. cbn in Hrh. congruence.
Qed.

Lemma keeps_stays_distinct_insert_transaction `{Collaborators} (t : ZKSyncLiteTransaction) :
  keeps stays_distinct (insert_transaction t).
Proof.
  intros s. unfold insert_transaction, stays_distinct, stored_hashes.
  unfold get_db, set_db, mbind, M_bind, mret, M_ret, raise. cbn -[hash_stored].
  destruct (hash_stored (tx_hash t) (zksynclite_transactions (db s))) eqn:Hstored;
    cbn -[hash_stored]; [auto|].
  intros Hnodup. rewrite map_app. cbn. apply NoDup_app. split; [exact Hnodup|]. split.
  - intros h Hh Hin. apply list_elem_of_singleton in Hin. subst h.
    apply hash_stored_elem_of in Hh. congruence.
  - apply NoDup_singleton.
Qed.

Lemma with_is_decoded_hashes (value : Z) (h : string) (rows : list tx_row) :
  map (fun r => tx_hash (row_columns r)) (with_is_decoded value h rows)
  = map (fun r => tx_hash (row_columns r)) rows.
Proof.
  unfold with_is_decoded. rewrite map_map. apply map_ext. intros r.
  destruct (String.eqb (tx_hash (row_columns r)) h); reflexivity.
Qed.

Lemma keeps_stays_decoded_set_is_decoded (h h' : string) :
  keeps (stays_decoded h) (set_is_decoded 1 h').
Proof.
  intros s. unfold set_is_decoded, stays_decoded, flagged_decoded.
  unfold get_db, set_db, mbind, M_bind. cbn -[hash_stored with_is_decoded].
  intros [Hh Hflag]. split.
  - apply hash_stored_elem_of. rewrite with_is_decoded_hashes.
    apply hash_stored_elem_of. exact Hh.
  - intros r Hr Hrh. unfold with_is_decoded in Hr.
    apply list_elem_of_fmap in Hr as (r0 & -> & Hr0).
    destruct (String.eqb (tx_hash (row_columns r0)) h'); [reflexivity|auto].
Qed.

Lemma keeps_stays_distinct_set_is_decoded (value : Z) (h' : string) :
  keeps stays_distinct (set_is_decoded value h').
Proof.
  intros s. unfold set_is_decoded, stays_distinct, stored_hashes.
  unfold get_db, set_db, mbind, M_bind. cbn -[with_is_decoded].
  rewrite with_is_decoded_hashes. auto.
Qed.

(** The statements that leave the transaction rows alone. *)
Lemma keeps_rows_alone {A : Type} (R : state -> state -> Prop) (m : M A) :
  (forall s s', zksynclite_transactions (db s') = zksynclite_transactions (db s) -> R s s') ->
  (forall s, zksynclite_transactions (db (snd (m s))) = zksynclite_transactions (db s)) ->
  keeps R m.
Proof. intros HR Hm s. apply HR, Hm. Qed.

Lemma rows_alone_stays_decoded (h : string) (s s' : state) :
  zksynclite_transactions (db s') = zksynclite_transactions (db s) -> stays_decoded h s s'.
Proof. unfold stays_decoded, flagged_decoded. intros ->. auto. Qed.

Lemma rows_alone_stays_distinct (s s' : state) :
  zksynclite_transactions (db s') = zksynclite_transactions (db s) -> stays_distinct s s'.
Proof. unfold stays_distinct, stored_hashes. intros ->. auto. Qed.

Section StoredInvariant.

(** [R] is one of the two invariants above. *)
Context `{Collaborators} (R : state -> state -> Prop) `{!PreOrder R}.
Hypothesis R_same_db : forall s s', same_db s s' -> R s s'.
Hypothesis R_rows_alone :
  forall s s', zksynclite_transactions (db s') = zksynclite_transactions (db s) -> R s s'.
Hypothesis R_insert_transaction : forall t, keeps R (insert_transaction t).
Hypothesis R_set_is_decoded : forall h, keeps R (set_is_decoded 1 h).

Local Ltac from_same_db := apply (keeps_weaken same_db R _ R_same_db); auto with keeps_db.
Local Ltac rows_alone := apply (keeps_rows_alone R _ R_rows_alone); intros; reflexivity.

Lemma invariant__add_zksynctxs_db (transactions : list ZKSyncLiteTransaction) :
  keeps R (_add_zksynctxs_db transactions).
Proof.
  unfold _add_zksynctxs_db. apply keeps_for_each; [typeclasses eauto|]. intros t.
  unfold _add_zksynctxs_db_transaction.
  apply keeps_try_except; [typeclasses eauto| |intros e; from_same_db].
  apply keeps_bind; [typeclasses eauto|apply R_insert_transaction|intros row_id].
  destruct (bool_decide (tx_type t = SWAP)); [|apply keeps_ret; typeclasses eauto].
  apply keeps_bind; [typeclasses eauto|from_same_db|intros d].
  destruct (find _ _); [|apply keeps_raise; typeclasses eauto].
  destruct (swap_data t); [rows_alone|apply keeps_raise; typeclasses eauto].
Qed.

Lemma invariant_perform_walk (fuel pages : nat) (address : string) (w : walk) :
  keeps R (perform_walk fuel pages address w).
Proof.
  unfold perform_walk, _query_and_save_transactions_for_range, _query_zksync_api_transactions.
  apply keeps_bind; [typeclasses eauto| |intros; apply keeps_ret; typeclasses eauto].
  apply keeps__query_zksync_api_transactions_loop; [typeclasses eauto|exact R_same_db|].
  intros acc batch. unfold _query_and_save_transactions_for_range_body.
  destruct (last batch); [|apply keeps_ret; typeclasses eauto].
  apply keeps_bind; [typeclasses eauto| |intros unique].
  { destruct (negb _); [|apply keeps_ret; typeclasses eauto].
    apply keeps_bind; [typeclasses eauto|from_same_db|intros; apply keeps_ret; typeclasses eauto]. }
  apply keeps_bind; [typeclasses eauto|apply invariant__add_zksynctxs_db|intros _].
  apply keeps_bind; [typeclasses eauto|rows_alone|intros; apply keeps_ret; typeclasses eauto].
Qed.

Lemma invariant_fetch_transactions (fuel pages : nat) (address : string) (start_ts end_ts : Z) :
  keeps R (fetch_transactions fuel pages address start_ts end_ts).
Proof.
  unfold fetch_transactions.
  apply keeps_bind; [typeclasses eauto|from_same_db|intros d].
  apply keeps_bind; [typeclasses eauto|apply keeps_lift; typeclasses eauto|intros walks].
  apply keeps_try_except; [typeclasses eauto| |intros e; from_same_db].
  apply keeps_for_each; [typeclasses eauto|]. intros w. apply invariant_perform_walk.
Qed.

Lemma invariant_decode_transaction (transaction : ZKSyncLiteTransaction)
    (tracked_addresses : list string) :
  keeps R (decode_transaction transaction tracked_addresses).
Proof.
  unfold decode_transaction.
  apply keeps_bind; [typeclasses eauto|apply keeps_lift; typeclasses eauto|intros [t' ed]].
  apply keeps_bind; [typeclasses eauto| |intros _].
  { destruct (_ && _); [from_same_db|apply keeps_ret; typeclasses eauto]. }
  apply keeps_bind; [typeclasses eauto|rows_alone|intros _].
  apply keeps_bind; [typeclasses eauto|apply R_set_is_decoded|intros _].
  apply keeps_ret; typeclasses eauto.
Qed.

Lemma invariant_get_db_transactions (queryfilter : option Z) :
  keeps R (get_db_transactions queryfilter).
Proof.
  apply (keeps_weaken same_db R _ R_same_db). intros s.
  destruct (get_db_transactions_run queryfilter s) as (L & s' & -> & Hdb & _). exact Hdb.
Qed.

Lemma invariant_decode_undecoded_transactions_loop (send_ws_notifications : bool)
    (total_transactions : nat) (tracked_addresses : list string)
    (transactions : list ZKSyncLiteTransaction) :
  forall tx_index,
    keeps R (decode_undecoded_transactions_loop send_ws_notifications total_transactions
               tracked_addresses tx_index transactions).
Proof.
  induction transactions as [|t transactions IH]; intros tx_index;
    cbn [decode_undecoded_transactions_loop]; [apply keeps_ret; typeclasses eauto|].
  apply keeps_bind; [typeclasses eauto|rows_alone|intros _].
  apply keeps_bind; [typeclasses eauto|apply invariant_decode_transaction|intros _].
  apply keeps_bind; [typeclasses eauto| |intros _; apply IH].
  destruct (_ && _); [from_same_db|apply keeps_ret; typeclasses eauto].
Qed.

Lemma invariant_decode_undecoded_transactions (force_redecode send_ws_notifications : bool) :
  keeps R (decode_undecoded_transactions force_redecode send_ws_notifications).
Proof.
  unfold decode_undecoded_transactions.
  apply keeps_bind; [typeclasses eauto|apply invariant_get_db_transactions|intros transactions].
  apply keeps_bind; [typeclasses eauto|from_same_db|intros d].
  apply keeps_bind;
    [typeclasses eauto|apply invariant_decode_undecoded_transactions_loop|intros _].
  apply keeps_bind; [typeclasses eauto| |intros _; apply keeps_ret; typeclasses eauto].
  destruct send_ws_notifications; [from_same_db|apply keeps_ret; typeclasses eauto].
Qed.

Lemma invariant_later (s s' : state) : later s s' -> R s s'.
Proof.
  induction 1 as [s|s s1 c Hlater IH]; [reflexivity|].
  etrans; [exact IH|]. destruct c; cbn.
  - apply invariant_fetch_transactions.
  - apply invariant_decode_transaction.
  - apply invariant_decode_undecoded_transactions.
Qed.

End StoredInvariant.

(** Whatever calls follow, a stored hash whose rows are flagged as decoded
    stays stored and flagged. *)
Lemma later_stays_decoded `{Collaborators} (h : string) (s s' : state) :
  later s s' -> stays_decoded h s s'.
Proof.
  apply (invariant_later (stays_decoded h)).
  - apply same_db_stays_decoded.
  - apply rows_alone_stays_decoded.
  - apply keeps_stays_decoded_insert_transaction.
  - apply keeps_stays_decoded_set_is_decoded.
Qed.

(** Whatever calls follow, stored hashes that are distinct stay distinct:
    the uniqueness constraint holds of every database the manager builds
    from an empty one. *)
Lemma later_stays_distinct `{Collaborators} (s s' : state) :
  later s s' -> stays_distinct s s'.
Proof.
  apply (invariant_later stays_distinct).
  - apply same_db_stays_distinct.
  - apply rows_alone_stays_distinct.
  - apply keeps_stays_distinct_insert_transaction.
  - intros h. apply keeps_stays_distinct_set_is_decoded.
Qed.

(** C10. Every decode that runs to its end (a Swap must carry its swap
    data, or the [assert] fails) flags the rows of the transaction's hash as
    decoded, whether events were emitted or not; a Transfer between two
    untracked addresses emits none. When the transaction is stored, no
    later bulk pass that is not forced reads it, whatever calls of the
    manager come in between. *)
Theorem decode_transaction_sets_is_decoded `{Collaborators} (tx : ZKSyncLiteTransaction)
    (tracked_addresses : list string) (s : state) :
  (tx_type tx = SWAP -> swap_data tx <> None) ->
  exists tx' s',
    decode_transaction tx tracked_addresses s = (Ok tx', s') /\
    flagged_decoded (tx_hash tx) (db s') /\
    (tx_type tx = TRANSFER ->
     is_tracked (from_address tx) tracked_addresses = false ->
     is_tracked (to_address tx) tracked_addresses = false ->
     history_events (db s') = history_events (db s)) /\
    (hash_stored (tx_hash tx) (zksynclite_transactions (db s)) = true ->
     forall s2 L s3,
       later s' s2 ->
       get_db_transactions (Some 0) s2 = (Ok L, s3) ->
       forall t, t ∈ L -> tx_hash t <> tx_hash tx).
Proof.
  intros Hswap.
  destruct (event_data_total tx tracked_addresses Hswap) as (tx' & ed & Hdata).
  destruct (decode_transaction_run tx tx' tracked_addresses ed s Hdata) as (s' & Hrun & Hdb).
  pose proof (event_data_tx_hash tx tx' tracked_addresses ed Hdata) as Hhash.
  assert (Hflag : flagged_decoded (tx_hash tx) (db s')).
  { intros r Hr Hh. rewrite Hdb in Hr. cbn in Hr.
    apply (with_is_decoded_flag 1 (tx_hash tx') _ r Hr). congruence. }
  exists tx', s'. split; [exact Hrun|]. split; [exact Hflag|]. split.
  - intros Hty Hfrom Hto.
    rewrite (untracked_transfer_event_data tx tracked_addresses Hty Hfrom Hto) in Hdata.
    inversion Hdata; subst. rewrite Hdb. cbn.
    unfold decode_transaction_events. cbn.
    destruct (fee tx'); apply app_nil_r.
  - intros Hstored s2 L s3 Hlater Hget.
    assert (Hstored' : hash_stored (tx_hash tx) (zksynclite_transactions (db s')) = true).
    { rewrite Hdb. cbn -[hash_stored with_is_decoded].
      apply hash_stored_elem_of. rewrite with_is_decoded_hashes.
      apply hash_stored_elem_of. exact Hstored. }
    destruct (later_stays_decoded (tx_hash tx) s' s2 Hlater (conj Hstored' Hflag))
      as [_ Hflag2].
    exact (flagged_decoded_not_pending _ _ _ _ Hflag2 Hget).
Qed.

Lemma decode_transaction_sets_is_decoded_witness :
  exists tx' s',
    decode_transaction Sample.foreign_transfer [Sample.tracked]
      (Sample.manager Sample.always_429 Sample.pending_db) = (Ok tx', s') /\
    flagged_decoded "f0" (db s') /\
    history_events (db s') = [] /\
    forall L s3,
      get_db_transactions (Some 0)
        (run_call (Call_decode_undecoded_transactions false false) s') = (Ok L, s3) ->
      forall t, t ∈ L -> tx_hash t <> "f0".
Proof.
  destruct (decode_transaction_sets_is_decoded Sample.foreign_transfer [Sample.tracked]
              (Sample.manager Sample.always_429 Sample.pending_db))
    as (tx' & s' & Hrun & Hflag & Hevents & Hlater).
  - intros Hty. discriminate Hty.
  - exists tx', s'. split; [exact Hrun|]. split; [exact Hflag|].
    split; [apply Hevents; reflexivity|].
    intros L s3. apply (Hlater eq_refl).
    apply later_call, later_now.
Defined.


(** ** Batches are saved page by page *)

Lemma hash_stored_prefix (h : string) (rows rows' : list tx_row) :
  rows `prefix_of` rows' -> hash_stored h rows = true -> hash_stored h rows' = true.
Proof.
  intros [rest ->] Hstored. rewrite hash_stored_app, Hstored. reflexivity.
Qed.

Section SavedBatches.

Context `{Collaborators}.

Hypothesis transaction_eq_hash :
  forall a b, transaction_eq a b = true -> tx_hash a = tx_hash b.

Lemma set_member_hash (t : ZKSyncLiteTransaction) (s : list ZKSyncLiteTransaction) :
  set_member t s = true -> exists u, u ∈ s /\ tx_hash u = tx_hash t.
Proof.
  unfold set_member. intros Hmem. apply existsb_exists in Hmem as (u & Hin & Heq).
  exists u. split; [apply list_elem_of_In; exact Hin|].
  symmetry. apply transaction_eq_hash. exact Heq.
Qed.

Lemma set_add_elem (s : list ZKSyncLiteTransaction) (t u : ZKSyncLiteTransaction) :
  u ∈ set_add s t -> u ∈ s \/ u = t.
Proof.
  unfold set_add. destruct (set_member t s); [auto|].
  intros Hin. apply elem_of_app in Hin as [Hin|Hin]; [auto|].
  apply list_elem_of_singleton in Hin. auto.
Qed.

Lemma set_add_keeps (s : list ZKSyncLiteTransaction) (t u : ZKSyncLiteTransaction) :
  u ∈ s -> u ∈ set_add s t.
Proof.
  unfold set_add. destruct (set_member t s); [auto|].
  intros Hin. apply elem_of_app. auto.
Qed.

Lemma set_add_hash (s : list ZKSyncLiteTransaction) (t : ZKSyncLiteTransaction) :
  exists u, u ∈ set_add s t /\ tx_hash u = tx_hash t.
Proof.
  unfold set_add. destruct (set_member t s) eqn:Hmem.
  - apply set_member_hash. exact Hmem.
  - exists t. split; [|reflexivity]. apply elem_of_app. right. apply list_elem_of_singleton. reflexivity.
Qed.

Lemma set_union_elem (l s : list ZKSyncLiteTransaction) (u : ZKSyncLiteTransaction) :
  u ∈ set_union s l -> u ∈ s \/ u ∈ l.
Proof.
  unfold set_union. revert s. induction l as [|t l IH]; intros s; cbn.
  - auto.
  - intros Hin. apply IH in Hin as [Hin|Hin].
    + apply set_add_elem in Hin as [Hin| ->]; [auto|]. right. left.
    + right. right. exact Hin.
Qed.

Lemma set_union_keeps (l s : list ZKSyncLiteTransaction) (u : ZKSyncLiteTransaction) :
  u ∈ s -> u ∈ set_union s l.
Proof.
  unfold set_union. revert s. induction l as [|t l IH]; intros s Hin; cbn; [exact Hin|].
  apply IH, set_add_keeps, Hin.
Qed.

Lemma set_union_hash (l s : list ZKSyncLiteTransaction) (t : ZKSyncLiteTransaction) :
  t ∈ l -> exists u, u ∈ set_union s l /\ tx_hash u = tx_hash t.
Proof.
  unfold set_union. revert s. induction l as [|x l IH]; intros s Hin.
  - apply elem_of_nil in Hin. contradiction.
  - cbn. apply elem_of_cons in Hin as [->|Hin].
    + destruct (set_add_hash s x) as (u & Hu & Hhash).
      exists u. split; [|exact Hhash]. apply (set_union_keeps l), Hu.
    + apply IH, Hin.
Qed.

(** Each transaction of a batch is stored when the loop body of
    [_query_and_save_transactions_for_range] ends, that is before the
    generator resumes and requests the next page: the body stores the
    transactions that no earlier batch of the walk brought, and those were
    stored then. *)
Lemma _query_and_save_transactions_for_range_body_saves
    (address : string) (direction : Direction) (vars : range_vars)
    (new_transactions : list ZKSyncLiteTransaction) (s : state) :
  Forall (fun t => tx_type t = SWAP -> swap_data t <> None) new_transactions ->
  Forall (fun t => hash_stored (tx_hash t) (zksynclite_transactions (db s)) = true)
    (input_transactions vars) ->
  exists vars' s',
    _query_and_save_transactions_for_range_body address direction vars new_transactions s
      = (Ok vars', s') /\
    Forall (fun t => hash_stored (tx_hash t) (zksynclite_transactions (db s')) = true)
      new_transactions /\
    Forall (fun t => hash_stored (tx_hash t) (zksynclite_transactions (db s')) = true)
      (input_transactions vars').
Proof.
  intros Hwf Hinput. unfold _query_and_save_transactions_for_range_body.
  destruct (last new_transactions) as [last_transaction|] eqn:Hlast.
  - set (unique_transactions := set_union [] new_transactions).
    set (chosen :=
           if negb (length (set_intersection unique_transactions (input_transactions vars)) =? 0)%nat
           then set_difference unique_transactions (input_transactions vars)
           else unique_transactions).
    assert (Hsub : forall u, u ∈ chosen -> u ∈ new_transactions).
    { intros u Hu. subst chosen.
      assert (Huniq : u ∈ unique_transactions).
      { destruct (negb _); [|exact Hu].
        unfold set_difference in Hu. apply list_elem_of_In, filter_In in Hu as [Hu _].
        apply list_elem_of_In. exact Hu. }
      apply set_union_elem in Huniq as [Huniq|Huniq]; [|exact Huniq].
      apply elem_of_nil in Huniq. contradiction. }
    assert (Hcover : forall u, u ∈ unique_transactions ->
              u ∈ chosen \/ hash_stored (tx_hash u) (zksynclite_transactions (db s)) = true).
    { intros u Hu. subst chosen. destruct (negb _); [|auto].
      destruct (set_member u (input_transactions vars)) eqn:Hmem.
      - right. apply set_member_hash in Hmem as (v & Hv & <-).
        rewrite Forall_forall in Hinput. apply Hinput, Hv.
      - left. unfold set_difference. apply list_elem_of_In, filter_In.
        split; [apply list_elem_of_In; exact Hu|]. rewrite Hmem. reflexivity. }
    assert (Hwf' : Forall (fun t => tx_type t = SWAP -> swap_data t <> None) chosen).
    { apply Forall_forall. intros u Hu. rewrite Forall_forall in Hwf. apply Hwf, Hsub, Hu. }
    assert (Hchoice : forall s0,
              (if negb (length (set_intersection unique_transactions (input_transactions vars)) =? 0)%nat
               then log DEBUG "Got already queried transactions during pagination";;
                    mret (set_difference unique_transactions (input_transactions vars))
               else mret unique_transactions) s0
              = (Ok chosen, snd ((if negb (length (set_intersection unique_transactions
                                                     (input_transactions vars)) =? 0)%nat
                                  then log DEBUG "Got already queried transactions during pagination"
                                  else mret tt) s0))).
    { intros s0. subst chosen. destruct (negb _); reflexivity. }
    set (s0 := snd ((if negb (length (set_intersection unique_transactions
                                        (input_transactions vars)) =? 0)%nat
                     then log DEBUG "Got already queried transactions during pagination"
                     else mret tt) s)).
    assert (Hdb0 : db s0 = db s) by (subst s0; destruct (negb _); reflexivity).
    destruct (_add_zksynctxs_db_stores chosen s0 Hwf') as (s1 & Hadd & Hpre & Hall).
    rewrite Hdb0 in Hpre.
    rewrite (bind_Ok _ _ s s0 chosen) by apply Hchoice.
    rewrite (bind_Ok _ _ s0 s1 tt) by exact Hadd.
    rewrite bind_run. cbn.
    eexists _, _. split; [reflexivity|]. cbn.
    assert (Hstored : forall u, u ∈ unique_transactions ->
              hash_stored (tx_hash u) (zksynclite_transactions (db s1)) = true).
    { intros u Hu. destruct (Hcover u Hu) as [Hc|Hs]; [apply Hall, Hc|].
      eapply hash_stored_prefix; [exact Hpre|exact Hs]. }
    split.
    + apply Forall_forall. intros t Ht.
      destruct (set_union_hash new_transactions [] t Ht) as (u & Hu & <-).
      apply Hstored, Hu.
    + apply Forall_forall. intros t Ht.
      apply set_union_elem in Ht as [Ht|Ht].
      * rewrite Forall_forall in Hinput.
        eapply hash_stored_prefix; [exact Hpre|apply Hinput, Ht].
      * apply Hall, Ht.
  - exists vars, s. split; [reflexivity|]. split; [|exact Hinput].
    destruct new_transactions as [|t l]; [constructor|].
    exfalso. clear -Hlast. revert t Hlast. induction l as [|x l IH]; intros t Hlast.
    + discriminate Hlast.
    + cbn in Hlast. apply (IH x). exact Hlast.
Qed.

End SavedBatches.

(** ** Remote failures during a fetch *)

(** A walk cut after [k] pages is in a state whose rows the full walk
    keeps. *)
Lemma walk_cut_rows_kept `{Collaborators} {S : Type}
    (body : S -> list ZKSyncLiteTransaction -> M S) (fuel : nat) (address : string)
    (direction : Direction) :
  (forall acc batch, keeps rows_kept (body acc batch)) ->
  forall (k pages : nat) from_hash last_tx_hash acc (s sk s' : state) (r : result S),
    (k <= pages)%nat ->
    _query_zksync_api_transactions_loop body fuel k address from_hash direction
      last_tx_hash acc s = (Raise OutOfFuel, sk) ->
    _query_zksync_api_transactions_loop body fuel pages address from_hash direction
      last_tx_hash acc s = (r, s') ->
    rows_kept sk s'.
Proof.
  intros Hbody. induction k as [|k IH]; intros pages from_hash last_tx_hash acc s sk s' r Hle Hk Hp.
  - cbn in Hk. inversion Hk; subst sk.
    pose proof (keeps__query_zksync_api_transactions_loop rows_kept body fuel pages address
                  direction same_db_rows_kept Hbody from_hash last_tx_hash acc s) as Hkeeps.
    rewrite Hp in Hkeeps. exact Hkeeps.
  - destruct pages as [|pages]; [lia|].
    cbn [_query_zksync_api_transactions_loop] in Hk, Hp.
    step_both Hk Hp.
    match goal with c : loop_control S |- _ => destruct c end; [discriminate Hk|].
    eapply IH; [|exact Hk|exact Hp]. lia.
Qed.

Lemma perform_walk_cut_rows_kept `{Collaborators} (fuel k pages : nat) (address : string)
    (w : walk) (s sk s' : state) (r : result unit) :
  (k <= pages)%nat ->
  perform_walk fuel k address w s = (Raise OutOfFuel, sk) ->
  perform_walk fuel pages address w s = (r, s') ->
  rows_kept sk s'.
Proof.
  unfold perform_walk, _query_and_save_transactions_for_range, _query_zksync_api_transactions.
  intros Hle Hk Hp. rewrite bind_run in Hk, Hp.
  match type of Hk with
  | context [match ?m with _ => _ end] => destruct m as [[vk|ek] sk0] eqn:Hloopk
  end; [discriminate Hk|].
  match type of Hp with
  | context [match ?m with _ => _ end] => destruct m as [[vp|ep] sp0] eqn:Hloopp
  end.
  - inversion Hk; inversion Hp; subst.
    eapply walk_cut_rows_kept; [|exact Hle|exact Hloopk|exact Hloopp].
    intros acc batch. apply keeps_rows__query_and_save_transactions_for_range_body.
  - inversion Hk; inversion Hp; subst.
    eapply walk_cut_rows_kept; [|exact Hle|exact Hloopk|exact Hloopp].
    intros acc batch. apply keeps_rows__query_and_save_transactions_for_range_body.
Qed.

(** The rows stored at any point between two pages are kept to the end of
    the walks, however they end. *)
Lemma walk_point_rows_kept `{Collaborators} (fuel pages : nat) (address : string)
    (walks : list walk) (s sm : state) :
  walk_point fuel pages address walks s sm ->
  forall r s', for_each (perform_walk fuel pages address) walks s = (r, s') ->
  rows_kept sm s'.
Proof.
  induction 1 as [walks s|w walks s sk k Hle Hcut|w walks s s1 sm Hwalk Hpoint IH];
    intros r s' Hrun.
  - pose proof (keeps_for_each rows_kept (perform_walk fuel pages address) walks
                  (keeps_rows_perform_walk fuel pages address) s) as Hkeeps.
    rewrite Hrun in Hkeeps. exact Hkeeps.
  - cbn [for_each] in Hrun. rewrite bind_run in Hrun.
    destruct (perform_walk fuel pages address w s) as [[[]|e] s1] eqn:Hwalk.
    + transitivity s1.
      * exact (perform_walk_cut_rows_kept fuel k pages address w s sk s1 _ Hle Hcut Hwalk).
      * pose proof (keeps_for_each rows_kept (perform_walk fuel pages address) walks
                      (keeps_rows_perform_walk fuel pages address) s1) as Hkeeps.
        rewrite Hrun in Hkeeps. exact Hkeeps.
    + inversion Hrun; subst.
      exact (perform_walk_cut_rows_kept fuel k pages address w s sk s' _ Hle Hcut Hwalk).
  - cbn [for_each] in Hrun. rewrite (bind_Ok _ _ _ _ _ Hwalk) in Hrun.
    exact (IH _ _ Hrun).
Qed.

(** C8. When a walk of [fetch_transactions] raises a [RemoteError],
    [fetch_transactions] logs it and returns normally; the database it
    leaves is the one the failure found, and the rows stored at any point
    between two pages of the walks (in particular those of every batch
    saved before the failure, and those stored before the fetch) are in it,
    in their place. *)
Theorem remote_error_keeps_progress `{Collaborators} (fuel pages : nat) (address : string)
    (start_ts end_ts : Z) (walks : list walk) (s s1 : state) :
  fetch_transactions_walks (db s) address start_ts end_ts = Ok walks ->
  for_each (perform_walk fuel pages address) walks s = (Raise RemoteError, s1) ->
  exists s',
    fetch_transactions fuel pages address start_ts end_ts s = (Ok tt, s') /\
    logs s' =
      (ERROR, "Got error while querying zksync lite transactions from zksync api. Transactions not added to the DB.")
      :: logs s1 /\
    db s' = db s1 /\
    forall sm, walk_point fuel pages address walks s sm ->
      zksynclite_transactions (db sm) `prefix_of` zksynclite_transactions (db s').
Proof.
  intros Hwalks Hrun. unfold fetch_transactions.
  rewrite (bind_Ok get_db _ s s (db s)) by reflexivity.
  rewrite (bind_Ok (lift _) _ s s walks) by (unfold lift; rewrite Hwalks; reflexivity).
  unfold try_except. rewrite Hrun. cbn.
  eexists. split; [reflexivity|]. cbn. split; [reflexivity|]. split; [reflexivity|].
  intros sm Hpoint. exact (walk_point_rows_kept fuel pages address walks s sm Hpoint _ _ Hrun).
Qed.

Lemma remote_error_keeps_progress_witness :
  exists s',
    fetch_transactions 1 5 Sample.tracked 0 100
      (Sample.manager Sample.serve_then_fail Sample.empty_db) = (Ok tt, s') /\
    map (fun r => tx_hash (row_columns r)) (zksynclite_transactions (db s')) = ["a0"; "b0"].
Proof.
  set (s := Sample.manager Sample.serve_then_fail Sample.empty_db).
  set (walks := [{| walk_start_ts := 0; walk_end_ts := 100; walk_from_hash := "latest";
                    walk_direction := older |}]).
  set (s1 := snd (for_each (perform_walk 1 5 Sample.tracked) walks s)).
  assert (Hrun : for_each (perform_walk 1 5 Sample.tracked) walks s = (Raise RemoteError, s1))
    by (vm_compute; reflexivity).
  destruct (remote_error_keeps_progress 1 5 Sample.tracked 0 100 walks s s1 eq_refl Hrun)
    as (s' & Hfetch & _ & Hdb & _).
  exists s'. split; [exact Hfetch|]. rewrite Hdb. vm_compute. reflexivity.
Defined.

(** ** Overlapping pages *)

Lemma _query_zksync_api_transactions_entries_app `{Collaborators} (fuel : nat)
    (address : string) (entries1 entries2 : list json) :
  forall (idx : nat) (transactions : list ZKSyncLiteTransaction) (last_tx_hash : json)
         (s : state),
    _query_zksync_api_transactions_entries fuel address idx (entries1 ++ entries2)
      transactions last_tx_hash s =
    match _query_zksync_api_transactions_entries fuel address idx entries1
            transactions last_tx_hash s with
    | (Ok (transactions', last_tx_hash'), s1) =>
        _query_zksync_api_transactions_entries fuel address (idx + length entries1) entries2
          transactions' last_tx_hash' s1
    | (Raise e, s1) => (Raise e, s1)
    end.
Proof.
  induction entries1 as [|entry entries1 IH]; intros idx transactions last_tx_hash s.
  - cbn. rewrite Nat.add_0_r. reflexivity.
  - cbn [app _query_zksync_api_transactions_entries length].
    rewrite !bind_run.
    destruct ((if (idx =? 0)%nat
               then lift (getitem entry "txHash") ≫= λ entry_hash, mret (py_eq entry_hash last_tx_hash)
               else mret false) s) as [[skip|e] s1]; [|reflexivity].
    replace (idx + Datatypes.S (length entries1))%nat
      with (Datatypes.S idx + length entries1)%nat by lia.
    destruct skip; [apply IH|].
    rewrite !bind_run.
    destruct (_deserialize_zksync_transaction fuel entry address s1) as [[[tx|]|e] s2];
      [|apply IH|reflexivity].
    rewrite !bind_run. destruct (lift (getitem entry "txHash") s2) as [[h|e] s3];
      [apply IH|reflexivity].
Qed.

(** The first row of a page is dropped when its hash is the one
    remembered. *)
Lemma _query_zksync_api_transactions_entries_first_dropped `{Collaborators} (fuel : nat)
    (address : string) (entry : json) (entries : list json)
    (transactions : list ZKSyncLiteTransaction) (last_tx_hash entry_hash : json) (s : state) :
  getitem entry "txHash" = Ok entry_hash ->
  py_eq entry_hash last_tx_hash = true ->
  _query_zksync_api_transactions_entries fuel address 0 (entry :: entries)
    transactions last_tx_hash s =
  _query_zksync_api_transactions_entries fuel address 1 entries transactions last_tx_hash s.
Proof.
  intros Hhash Heq. cbn [_query_zksync_api_transactions_entries Nat.eqb].
  assert (Hskip : (lift (getitem entry "txHash")
                   ≫= λ entry_hash, mret (py_eq entry_hash last_tx_hash)) s = (Ok true, s)).
  { rewrite (bind_Ok (lift _) _ s s entry_hash) by (unfold lift; rewrite Hhash; reflexivity).
    unfold mret, M_ret. rewrite Heq. reflexivity. }
  rewrite (bind_Ok _ _ _ _ _ Hskip). reflexivity.
Qed.

(** A row that is not the first of its page and normalizes is appended,
    and its hash remembered. *)
Lemma _query_zksync_api_transactions_entries_last `{Collaborators} (fuel : nat)
    (address : string) (entry : json) (idx : nat)
    (transactions : list ZKSyncLiteTransaction) (last_tx_hash entry_hash : json)
    (tx : ZKSyncLiteTransaction) (s s' : state) :
  idx <> 0%nat ->
  _deserialize_zksync_transaction fuel entry address s = (Ok (Some tx), s') ->
  getitem entry "txHash" = Ok entry_hash ->
  _query_zksync_api_transactions_entries fuel address idx [entry] transactions last_tx_hash s
  = (Ok (transactions ++ [tx], entry_hash), s').
Proof.
  intros Hidx Htx Hhash. cbn [_query_zksync_api_transactions_entries].
  apply Nat.eqb_neq in Hidx. rewrite Hidx.
  rewrite (bind_Ok (mret false) _ s s false) by reflexivity. cbn iota.
  rewrite (bind_Ok _ _ _ _ _ Htx).
  rewrite (bind_Ok (lift _) _ s' s' entry_hash) by (unfold lift; rewrite Hhash; reflexivity).
  reflexivity.
Qed.

(** C7, as amended. Take a full page whose last row, the boundary row,
    normalizes, and the page that follows it, whose first row has the same
    hash. The iteration of the earlier page yields a batch that ends with
    the boundary row's transaction, asks for the next page from the
    boundary hash and remembers that hash; the iteration that follows
    therefore drops the first row of its page: it builds its batch from the
    rows after it. The boundary row is yielded once. *)
Theorem boundary_row_yielded_once `{Collaborators} {S : Type}
    (body : S -> list ZKSyncLiteTransaction -> M S) (fuel : nat) (address : string)
    (direction : Direction) (from_hash last_tx_hash : json) (acc acc' : S)
    (rows rest : list json) (boundary first_row : json)
    (batch : list ZKSyncLiteTransaction) (last1 h h' : json) (tx : ZKSyncLiteTransaction)
    (s s1 s2 s3 s4 : state) :
  _query_zksync_api_transactions_page address from_hash direction s
    = (Ok (JList (rows ++ [boundary])), s1) ->
  rows <> [] ->
  (ZKSYNCLITE_MAX_LIMIT <= length (rows ++ [boundary]))%nat ->
  _query_zksync_api_transactions_entries fuel address 0 rows [] last_tx_hash s1
    = (Ok (batch, last1), s2) ->
  _deserialize_zksync_transaction fuel boundary address s2 = (Ok (Some tx), s3) ->
  getitem boundary "txHash" = Ok h ->
  body acc (batch ++ [tx]) s3 = (Ok acc', s4) ->
  getitem first_row "txHash" = Ok h' ->
  py_eq h' h = true ->
  _query_zksync_api_transactions_iteration body fuel address from_hash direction
    last_tx_hash acc s = (Ok (Continue h h acc'), s4) /\
  forall s5,
    _query_zksync_api_transactions_entries fuel address 0 (first_row :: rest) [] h s5 =
    _query_zksync_api_transactions_entries fuel address 1 rest [] h s5.
Proof.
  intros Hpage Hrows Hfull Hentries Htx Hh Hbody Hh' Heq. split.
  - unfold _query_zksync_api_transactions_iteration.
    rewrite (bind_Ok _ _ _ _ _ Hpage).
    rewrite (bind_Ok (lift _) _ s1 s1 (rows ++ [boundary])) by reflexivity.
    assert (Hall : _query_zksync_api_transactions_entries fuel address 0 (rows ++ [boundary])
                     [] last_tx_hash s1 = (Ok (batch ++ [tx], h), s3)).
    { rewrite _query_zksync_api_transactions_entries_app, Hentries.
      apply (_query_zksync_api_transactions_entries_last fuel address boundary _ batch last1 h
               tx s2 s3); [|exact Htx|exact Hh].
      destruct rows; [contradiction|cbn; lia]. }
    rewrite (bind_Ok _ _ _ _ _ Hall). cbn beta iota.
    rewrite (bind_Ok _ _ _ _ _ Hbody).
    rewrite (bind_Ok (lift _) _ s4 s4 (length (rows ++ [boundary]))) by reflexivity.
    apply Nat.ltb_ge in Hfull. rewrite Hfull.
    rewrite (bind_Ok (lift _) _ s4 s4 boundary)
      by (unfold lift; cbn; rewrite last_snoc; reflexivity).
    rewrite (bind_Ok (lift _) _ s4 s4 h) by (unfold lift; rewrite Hh; reflexivity).
    reflexivity.
  - intros s5.
    apply (_query_zksync_api_transactions_entries_first_dropped fuel address first_row rest []
             h h' s5 Hh' Heq).
Qed.

Lemma boundary_row_yielded_once_witness :
  exists s1 s3,
    _query_zksync_api_transactions_page Sample.tracked (JStr "latest") older
      (Sample.manager (Sample.serve_overlap Sample.entry_b) Sample.empty_db)
    = (Ok (JList ([Sample.entry_a] ++ [Sample.entry_b])), s1) /\
    _query_zksync_api_transactions_iteration collect 1 Sample.tracked (JStr "latest") older
      (JStr "") [] (Sample.manager (Sample.serve_overlap Sample.entry_b) Sample.empty_db)
    = (Ok (Continue (JStr "b0") (JStr "b0")
             [[Sample.transfer_of "a0"; Sample.transfer_of "b0"]]), s3) /\
    forall s5,
      _query_zksync_api_transactions_entries 1 Sample.tracked 0
        [Sample.entry_b; Sample.entry_c] [] (JStr "b0") s5 =
      _query_zksync_api_transactions_entries 1 Sample.tracked 1 [Sample.entry_c] []
        (JStr "b0") s5.
Proof.
  set (s := Sample.manager (Sample.serve_overlap Sample.entry_b) Sample.empty_db).
  set (s1 := snd (_query_zksync_api_transactions_page Sample.tracked (JStr "latest") older s)).
  set (s2 := snd (_query_zksync_api_transactions_entries 1 Sample.tracked 0 [Sample.entry_a]
                    [] (JStr "") s1)).
  set (s3 := snd (_deserialize_zksync_transaction 1 Sample.entry_b Sample.tracked s2)).
  assert (Hpage : _query_zksync_api_transactions_page Sample.tracked (JStr "latest") older s
                  = (Ok (JList ([Sample.entry_a] ++ [Sample.entry_b])), s1))
    by (vm_compute; reflexivity).
  destruct (boundary_row_yielded_once collect 1 Sample.tracked older (JStr "latest") (JStr "")
              [] [[Sample.transfer_of "a0"; Sample.transfer_of "b0"]]
              [Sample.entry_a] [Sample.entry_c] Sample.entry_b Sample.entry_b
              [Sample.transfer_of "a0"] (JStr "a0") (JStr "b0") (JStr "b0")
              (Sample.transfer_of "b0") s s1 s2 s3 s3) as [Hiteration Hnext].
  - exact Hpage.
  - discriminate.
  - cbn. lia.
  - vm_compute. reflexivity.
  - vm_compute. reflexivity.
  - reflexivity.
  - reflexivity.
  - reflexivity.
  - reflexivity.
  - exists s1, s3. split; [exact Hpage|]. split; [exact Hiteration|exact Hnext].
Defined.

(** C7: the claim fails when the boundary row is one the normalizer
    discards. The pages [a0, b0] and [b0, c1] overlap on [b0], which is not
    finalized: the batches yielded hold [a0] and [c1], and [b0] not even
    once. *)
Lemma discarded_boundary_row_is_never_yielded :
  Sample.serve_overlap Sample.entry_b_pending 0 {| url := ""; options := [] |}
    = Sample.page_reply [Sample.entry_a; Sample.entry_b_pending] /\
  Sample.serve_overlap Sample.entry_b_pending 1 {| url := ""; options := [] |}
    = Sample.page_reply [Sample.entry_b_pending; Sample.entry_c] /\
  getitem Sample.entry_b_pending "txHash" = Ok (JStr "b0") /\
  exists s',
    yielded_batches 1 5 Sample.tracked (JStr "latest") older
      (Sample.manager (Sample.serve_overlap Sample.entry_b_pending) Sample.empty_db)
    = (Ok [[Sample.transfer_of "a0"]; [Sample.transfer_of "c1"]; []], s') /\
    length (List.filter (fun t => String.eqb (tx_hash t) "b0")
              (concat [[Sample.transfer_of "a0"]; [Sample.transfer_of "c1"]; []])) = 0%nat.
Proof.
  repeat (split; [reflexivity|]). eexists. split; [vm_compute; reflexivity|]. reflexivity.
Qed.

(** * Further properties of the code

    Error and edge behaviour, invariants, round trips and composition of the
    manager's methods, read off the code. *)

(** ** The remote client, whatever the server answers *)

(** One attempt of the loop: it is rate limited and the loop goes on with
    the backoff doubled, or the loop ends with the [result] of a 200 reply
    or with [RemoteError]. *)
Lemma _query_api_loop_attempt (r : request) (backoff : positive) (s : state) :
  Z.pos backoff < backoff_limit ->
  (exists body,
     server s (requests s) r = Response TOO_MANY_REQUESTS body /\
     _query_api_loop r backoff s =
       _query_api_loop r (2 * backoff) (backed_off (Z.pos backoff) s)) \/
  (exists res,
     _query_api_loop r backoff s = (res, attempted s) /\
     (res = Raise RemoteError \/
      exists body v,
        server s (requests s) r = Response HTTP_OK (Some body) /\
        dict_lookup "result" body = Some v /\ v <> JNull /\ res = Ok v)).
Proof.
  intros Hlt.
  destruct (server s (requests s) r) as [|status_code json_body] eqn:Hreply.
  - right. exists (Raise RemoteError). split; [|left; reflexivity].
    rewrite (_query_api_loop_equation_1 r backoff).
    destruct (Z_lt_dec (Z.pos backoff) backoff_limit) as [Hlt'|Hge]; [|contradiction].
    cbn. unfold mbind, M_bind, log, session_get. cbn. rewrite Hreply. reflexivity.
  - destruct (status_code =? TOO_MANY_REQUESTS) eqn:Hcode.
    + left. apply Z.eqb_eq in Hcode. subst status_code. exists json_body. split; [reflexivity|].
      apply (_query_api_loop_too_many_requests r backoff s json_body Hlt Hreply).
    + right.
      rewrite (_query_api_loop_equation_1 r backoff).
      destruct (Z_lt_dec (Z.pos backoff) backoff_limit) as [Hlt'|Hge]; [|contradiction].
      cbn. unfold mbind, M_bind, log, session_get. cbn. rewrite Hreply. cbn. rewrite Hcode.
      destruct (status_code =? HTTP_OK) eqn:Hok; cbn.
      2: { eexists. split; [reflexivity|]. left. reflexivity. }
      apply Z.eqb_eq in Hok. subst status_code.
      destruct json_body as [json_ret|]; cbn.
      2: { eexists. split; [reflexivity|]. left. reflexivity. }
      destruct (dict_lookup "result" json_ret) as [v|] eqn:Hresult; cbn.
      2: { eexists. split; [reflexivity|]. left. reflexivity. }
      destruct v;
        try (eexists; split; [reflexivity|]; right; exists json_ret; eexists;
             split; [reflexivity|]; split; [exact Hresult|]; split; [discriminate|reflexivity]).
      eexists. split; [reflexivity|]. left. reflexivity.
Qed.

(** What every call of [_query_api] does, whatever the server answers:
    [j] rate-limited attempts, each followed by its sleep, then either the
    limit is reached and the empty dict is returned, or one more attempt
    ends the call. *)
Lemma _query_api_outcome (url : string) (options : list (string * json)) (s : state) :
  exists (j : nat) (res : result json) (s' : state),
    _query_api url options s = (res, s') /\
    (j <= 6)%nat /\
    sleeps s' = rev (take j backoffs) ++ sleeps s /\
    requests s' = (requests s + Nat.min (S j) 6)%nat /\
    server s' = server s /\ db s' = db s /\
    id_to_token s' = id_to_token s /\ symbol_to_token s' = symbol_to_token s /\
    ws_messages s' = ws_messages s /\
    (j = 6%nat /\ res = Ok (JDict []) \/
     (j < 6)%nat /\
     (res = Raise RemoteError \/
      exists body v,
        server s (requests s + j)%nat {| url := url; options := options |}
          = Response HTTP_OK (Some body) /\
        dict_lookup "result" body = Some v /\ v <> JNull /\ res = Ok v)).
Proof.
  unfold _query_api. set (r := {| url := url; options := options |}).
  assert (Hend : forall (j : nat) (b : positive) (s0 : state) res,
            (j < 6)%nat ->
            server s0 = server s -> requests s0 = (requests s + j)%nat ->
            sleeps s0 = rev (take j backoffs) ++ sleeps s -> db s0 = db s ->
            id_to_token s0 = id_to_token s -> symbol_to_token s0 = symbol_to_token s ->
            ws_messages s0 = ws_messages s ->
            (res = Raise RemoteError \/
             exists body v,
               server s0 (requests s0) r = Response HTTP_OK (Some body) /\
               dict_lookup "result" body = Some v /\ v <> JNull /\ res = Ok v) ->
            exists (j : nat) (res' : result json) (s' : state),
              (res, attempted s0) = (res', s') /\
              (j <= 6)%nat /\
              sleeps s' = rev (take j backoffs) ++ sleeps s /\
              requests s' = (requests s + Nat.min (S j) 6)%nat /\
              server s' = server s /\ db s' = db s /\
              id_to_token s' = id_to_token s /\ symbol_to_token s' = symbol_to_token s /\
              ws_messages s' = ws_messages s /\
              (j = 6%nat /\ res' = Ok (JDict []) \/
               (j < 6)%nat /\
               (res' = Raise RemoteError \/
                exists body v,
                  server s (requests s + j)%nat r = Response HTTP_OK (Some body) /\
                  dict_lookup "result" body = Some v /\ v <> JNull /\ res' = Ok v))).
  { intros j b s0 res Hj Hserver Hrequests Hsleeps Hdb Hids Hsyms Hws Hres.
    exists j, res, (attempted s0). split; [reflexivity|]. split; [lia|].
    cbn. rewrite Hsleeps, Hrequests, Hserver, Hdb, Hids, Hsyms, Hws.
    split; [reflexivity|]. split; [lia|]. do 5 (split; [reflexivity|]).
    right. split; [exact Hj|]. rewrite Hserver, Hrequests in Hres. exact Hres. }
  destruct (_query_api_loop_attempt r 1 s ltac:(unfold backoff_limit; lia))
    as [(b0 & _ & Heq)|(res & Heq & Hres)]; rewrite Heq; clear Heq;
    [change (2 * 1)%positive with 2%positive|apply (Hend 0%nat 1%positive); auto; lia].
  destruct (_query_api_loop_attempt r 2 (backed_off 1 s) ltac:(unfold backoff_limit; lia))
    as [(b1 & _ & Heq)|(res & Heq & Hres)]; rewrite Heq; clear Heq;
    [change (2 * 2)%positive with 4%positive|apply (Hend 1%nat 2%positive); auto; cbn; lia].
  destruct (_query_api_loop_attempt r 4 (backed_off 2 (backed_off 1 s))
              ltac:(unfold backoff_limit; lia))
    as [(b2 & _ & Heq)|(res & Heq & Hres)]; rewrite Heq; clear Heq;
    [change (2 * 4)%positive with 8%positive|apply (Hend 2%nat 4%positive); auto; cbn; lia].
  destruct (_query_api_loop_attempt r 8 (backed_off 4 (backed_off 2 (backed_off 1 s)))
              ltac:(unfold backoff_limit; lia))
    as [(b3 & _ & Heq)|(res & Heq & Hres)]; rewrite Heq; clear Heq;
    [change (2 * 8)%positive with 16%positive|apply (Hend 3%nat 8%positive); auto; cbn; lia].
  destruct (_query_api_loop_attempt r 16
              (backed_off 8 (backed_off 4 (backed_off 2 (backed_off 1 s))))
              ltac:(unfold backoff_limit; lia))
    as [(b4 & _ & Heq)|(res & Heq & Hres)]; rewrite Heq; clear Heq;
    [change (2 * 16)%positive with 32%positive|apply (Hend 4%nat 16%positive); auto; cbn; lia].
  destruct (_query_api_loop_attempt r 32
              (backed_off 16 (backed_off 8 (backed_off 4 (backed_off 2 (backed_off 1 s)))))
              ltac:(unfold backoff_limit; lia))
    as [(b5 & _ & Heq)|(res & Heq & Hres)]; rewrite Heq; clear Heq;
    [change (2 * 32)%positive with 64%positive|apply (Hend 5%nat 32%positive); auto; cbn; lia].
  rewrite _query_api_loop_limit_reached by (unfold backoff_limit; lia).
  exists 6%nat. eexists _, _. split; [reflexivity|]. split; [lia|]. cbn.
  split; [reflexivity|]. split; [lia|]. do 5 (split; [reflexivity|]).
  left. split; reflexivity.
Qed.

Lemma backed_off_times_state (k : nat) :
  forall (b : positive) (s : state),
    server (backed_off_times k b s) = server s /\
    requests (backed_off_times k b s) = (requests s + k)%nat /\
    sleeps (backed_off_times k b s) = rev (doubling b k) ++ sleeps s /\
    db (backed_off_times k b s) = db s /\
    id_to_token (backed_off_times k b s) = id_to_token s /\
    symbol_to_token (backed_off_times k b s) = symbol_to_token s.
Proof.
  induction k as [|k IH]; intros b s; cbn [backed_off_times doubling].
  - rewrite Nat.add_0_r. repeat split; reflexivity.
  - destruct (IH (2 * b)%positive (backed_off (Z.pos b) s)) as (-> & -> & -> & -> & -> & ->).
    cbn. rewrite <- app_assoc. cbn. repeat split; try reflexivity. lia.
Qed.

(** While the server is rate limiting, the loop goes from one attempt to
    the next. *)
Lemma _query_api_loop_retries (r : request) (k : nat) :
  forall (b : positive) (s : state),
    (forall i, (i < k)%nat -> Z.pos (doubled i b) < backoff_limit) ->
    (forall i, (i < k)%nat ->
       exists body, server s (requests s + i)%nat r = Response TOO_MANY_REQUESTS body) ->
    _query_api_loop r b s = _query_api_loop r (doubled k b) (backed_off_times k b s).
Proof.
  induction k as [|k IH]; intros b s Hlimit Hserver; cbn [doubled backed_off_times].
  - reflexivity.
  - destruct (Hserver 0%nat ltac:(lia)) as [body Hbody]. rewrite Nat.add_0_r in Hbody.
    rewrite (_query_api_loop_too_many_requests r b s body (Hlimit 0%nat ltac:(lia)) Hbody).
    apply IH.
    + intros i Hi. apply (Hlimit (S i)). lia.
    + intros i Hi. cbn. destruct (Hserver (S i) ltac:(lia)) as [body' Hbody'].
      exists body'. rewrite <- Hbody'. f_equal. lia.
Qed.

Lemma doubled_limit (k : nat) :
  (k <= 5)%nat -> forall i, (i <= k)%nat -> Z.pos (doubled i 1) < backoff_limit.
Proof.
  intros Hk i Hi. unfold backoff_limit.
  do 6 (destruct i as [|i]; [cbn; lia|]). lia.
Qed.

Lemma doubling_backoffs (k : nat) : (k <= 6)%nat -> doubling 1 k = take k backoffs.
Proof. intros Hk. do 7 (destruct k as [|k]; [reflexivity|]). lia. Qed.

(** An attempt answered with status 200 and a [result] that is not null
    ends the loop with this result. *)
Lemma _query_api_loop_answered (r : request) (backoff : positive) (s : state)
    (body : list (string * json)) (v : json) :
  Z.pos backoff < backoff_limit ->
  server s (requests s) r = Response HTTP_OK (Some body) ->
  dict_lookup "result" body = Some v -> v <> JNull ->
  _query_api_loop r backoff s = (Ok v, attempted s).
Proof.
  intros Hlt Hreply Hresult Hv.
  rewrite (_query_api_loop_equation_1 r backoff).
  destruct (Z_lt_dec (Z.pos backoff) backoff_limit) as [Hlt'|Hge]; [|contradiction].
  cbn. unfold mbind, M_bind, log, session_get. cbn. rewrite Hreply. cbn. rewrite Hresult.
  destruct v; try reflexivity. contradiction.
Qed.

Lemma _query_api_loop_rejected (r : request) (backoff : positive) (s : state) :
  Z.pos backoff < backoff_limit ->
  bad_reply (server s (requests s) r) ->
  _query_api_loop r backoff s = (Raise RemoteError, attempted s).
Proof.
  intros Hlt Hbad.
  rewrite (_query_api_loop_equation_1 r backoff).
  destruct (Z_lt_dec (Z.pos backoff) backoff_limit) as [Hlt'|Hge]; [|contradiction].
  cbn. unfold mbind, M_bind, log, session_get. cbn.
  destruct (server s (requests s) r) as [|status_code json_body]; [reflexivity|].
  cbn in Hbad. destruct Hbad as [Hnot429 Hbad].
  destruct (status_code =? TOO_MANY_REQUESTS) eqn:H429; [apply Z.eqb_eq in H429; contradiction|].
  destruct (status_code =? HTTP_OK) eqn:Hok; cbn; [|reflexivity].
  apply Z.eqb_eq in Hok. destruct Hbad as [Hbad|Hbad]; [contradiction|].
  destruct json_body as [json_ret|]; [|reflexivity].
  destruct Hbad as [-> | ->]; reflexivity.
Qed.

(** X1. After at most five rate-limited attempts, a reply with status 200
    and a [result] that is not null ends [_query_api] with this result; the
    call has slept 1, 2, 4, ... once per rate-limited attempt and has left
    the database and the token directory as they were. *)
Theorem _query_api_retries_until_answered (url : string) (options : list (string * json))
    (s : state) (k : nat) (body : list (string * json)) (v : json) :
  (k <= 5)%nat ->
  (forall i, (i < k)%nat ->
     exists b, server s (requests s + i)%nat {| url := url; options := options |}
               = Response TOO_MANY_REQUESTS b) ->
  server s (requests s + k)%nat {| url := url; options := options |}
    = Response HTTP_OK (Some body) ->
  dict_lookup "result" body = Some v ->
  v <> JNull ->
  exists s',
    _query_api url options s = (Ok v, s') /\
    sleeps s' = rev (take k backoffs) ++ sleeps s /\
    requests s' = (requests s + k + 1)%nat /\
    db s' = db s /\ id_to_token s' = id_to_token s /\ symbol_to_token s' = symbol_to_token s.
Proof.
  intros Hk H429 Hreply Hresult Hv. unfold _query_api.
  set (r := {| url := url; options := options |}) in *.
  rewrite (_query_api_loop_retries r k 1 s)
    by (auto; intros i Hi; apply (doubled_limit k Hk); lia).
  destruct (backed_off_times_state k 1 s) as (Hserver & Hrequests & Hsleeps & Hdb & Hids & Hsyms).
  rewrite (_query_api_loop_answered r _ _ body v).
  - eexists. split; [reflexivity|]. cbn.
    rewrite Hsleeps, Hrequests, Hdb, Hids, Hsyms, doubling_backoffs by lia.
    repeat split; try reflexivity. lia.
  - apply (doubled_limit k Hk). lia.
  - rewrite Hserver, Hrequests. exact Hreply.
  - exact Hresult.
  - exact Hv.
Qed.

(** X2. After at most five rate-limited attempts, a failed request, a
    status other than 200, a body that is no JSON object or one without a
    [result] that is not null ends [_query_api] with [RemoteError], without
    a further attempt. *)
Theorem _query_api_bad_reply_raises (url : string) (options : list (string * json))
    (s : state) (k : nat) :
  (k <= 5)%nat ->
  (forall i, (i < k)%nat ->
     exists b, server s (requests s + i)%nat {| url := url; options := options |}
               = Response TOO_MANY_REQUESTS b) ->
  bad_reply (server s (requests s + k)%nat {| url := url; options := options |}) ->
  exists s',
    _query_api url options s = (Raise RemoteError, s') /\
    sleeps s' = rev (take k backoffs) ++ sleeps s /\
    requests s' = (requests s + k + 1)%nat.
Proof.
  intros Hk H429 Hbad. unfold _query_api.
  set (r := {| url := url; options := options |}) in *.
  rewrite (_query_api_loop_retries r k 1 s)
    by (auto; intros i Hi; apply (doubled_limit k Hk); lia).
  destruct (backed_off_times_state k 1 s) as (Hserver & Hrequests & Hsleeps & Hdb & Hids & Hsyms).
  rewrite _query_api_loop_rejected.
  - eexists. split; [reflexivity|]. cbn.
    rewrite Hsleeps, Hrequests, doubling_backoffs by lia. split; [reflexivity|lia].
  - apply (doubled_limit k Hk). lia.
  - rewrite Hserver, Hrequests. exact Hbad.
Qed.

(** X3. Whatever the server answers, [_query_api] makes at least one and at
    most six requests; it sleeps after each rate-limited attempt, for 1, 2,
    4, 8, 16 and 32 seconds in this order, hence for 63 seconds at most in
    all; it writes neither to the database nor to the token directory. *)
Theorem _query_api_bounded_backoff (url : string) (options : list (string * json))
    (s : state) :
  exists slept,
    sleeps (snd (_query_api url options s)) = rev slept ++ sleeps s /\
    slept `prefix_of` backoffs /\
    foldr Z.add 0 slept <= 63 /\
    (requests s < requests (snd (_query_api url options s)) <= requests s + 6)%nat /\
    (length slept <= requests (snd (_query_api url options s)) - requests s <= length slept + 1)%nat /\
    db (snd (_query_api url options s)) = db s /\
    id_to_token (snd (_query_api url options s)) = id_to_token s /\
    symbol_to_token (snd (_query_api url options s)) = symbol_to_token s.
Proof.
  destruct (_query_api_outcome url options s)
    as (j & res & s' & -> & Hj & Hsleeps & Hrequests & _ & Hdb & Hids & Hsyms & _ & _).
  cbn [snd]. exists (take j backoffs). split; [exact Hsleeps|].
  split; [apply prefix_take|].
  split; [do 7 (destruct j as [|j]; [cbn; lia|]); lia|].
  rewrite Hrequests, Hdb, Hids, Hsyms.
  assert (Hlen : length (take j backoffs) = j)
    by (rewrite length_take; cbn; lia).
  rewrite Hlen. repeat split; try reflexivity; lia.
Qed.

(** X4. [_query_api] raises no exception other than [RemoteError], and the
    value it returns is never [None]. *)
Theorem _query_api_raises_only_RemoteError (url : string) (options : list (string * json))
    (s : state) :
  match fst (_query_api url options s) with
  | Raise e => e = RemoteError
  | Ok v => v <> JNull
  end.
Proof.
  destruct (_query_api_outcome url options s)
    as (j & res & s' & -> & _ & _ & _ & _ & _ & _ & _ & _ & Hres).
  cbn [fst].
  destruct Hres as [[_ ->]|[_ [->|(body & v & _ & _ & Hv & ->)]]];
    [discriminate|reflexivity|exact Hv].
Qed.

Lemma _query_api_retries_until_answered_witness :
  exists s',
    _query_api "tokens" []
      (Sample.manager (serve_after 2 (Response HTTP_OK (Some [("result", JStr "ok")])))
         Sample.empty_db) = (Ok (JStr "ok"), s') /\
    sleeps s' = [2; 1] /\ requests s' = 3%nat.
Proof.
  destruct (_query_api_retries_until_answered "tokens" []
              (Sample.manager (serve_after 2 (Response HTTP_OK (Some [("result", JStr "ok")])))
                 Sample.empty_db) 2 [("result", JStr "ok")] (JStr "ok"))
    as (s' & Hrun & Hsleeps & Hrequests & _).
  - lia.
  - intros i Hi. exists None. destruct i as [|[|i]]; [reflexivity|reflexivity|lia].
  - reflexivity.
  - reflexivity.
  - discriminate.
  - exists s'. split; [exact Hrun|]. split; [exact Hsleeps|exact Hrequests].
Defined.

Lemma _query_api_bad_reply_raises_witness :
  exists s',
    _query_api "tokens" []
      (Sample.manager (serve_after 1 (Response HTTP_OK (Some [("result", JNull)])))
         Sample.empty_db) = (Raise RemoteError, s') /\
    sleeps s' = [1] /\ requests s' = 2%nat.
Proof.
  destruct (_query_api_bad_reply_raises "tokens" []
              (Sample.manager (serve_after 1 (Response HTTP_OK (Some [("result", JNull)])))
                 Sample.empty_db) 1)
    as (s' & Hrun & Hsleeps & Hrequests).
  - lia.
  - intros i Hi. exists None. destruct i as [|i]; [reflexivity|lia].
  - cbn. split; [discriminate|]. right. right. reflexivity.
  - exists s'. split; [exact Hrun|]. split; [exact Hsleeps|exact Hrequests].
Defined.

(** ** The normalizer, type by type *)

Lemma _get_token_by_id_found `{Collaborators} (pages : nat) (token_id : json) (s s' : state)
    (found : option CryptoAsset) :
  _get_token_by_id pages token_id s = (Ok found, s') ->
  token_dict_get token_id (id_to_token s') = Ok found.
Proof.
  unfold _get_token_by_id. intros Hrun. invert_run.
  all: unfold get_state in *; tidy_eqs; assumption.
Qed.

Lemma token_dict_get_nonempty {A : Type} (key : json) (d : list (json * A)) (a : A) :
  token_dict_get key d = Ok (Some a) -> d <> [].
Proof.
  unfold token_dict_get. destruct (hashable key); [|discriminate].
  destruct d; [discriminate|]. intros _. discriminate.
Qed.

(** Once the directory holds a token, a lookup is local: no request is
    made and the state is left as it is. *)
Lemma _get_token_by_id_local `{Collaborators} (pages : nat) (token_id : json) (s : state) :
  id_to_token s <> [] ->
  _get_token_by_id pages token_id s = (token_dict_get token_id (id_to_token s), s).
Proof.
  intros Hne. unfold _get_token_by_id.
  rewrite (bind_Ok get_state _ s s s) by reflexivity.
  destruct (id_to_token s) as [|p d] eqn:Hids; [contradiction|]. cbn [length Nat.eqb].
  rewrite (bind_Ok (mret tt) _ s s tt) by reflexivity.
  rewrite (bind_Ok get_state _ s s s) by reflexivity.
  rewrite Hids. reflexivity.
Qed.

Lemma _get_token_and_amount_by_id_or_log_token `{Collaborators} (fuel : nat) (entry : json)
    (asset_key : string) (amount_key : option string) (s s' : state) (a : CryptoAsset)
    (amt : FVal) :
  _get_token_and_amount_by_id_or_log fuel entry asset_key amount_key s
    = (Ok (Some (a, amt)), s') ->
  op_token entry asset_key (id_to_token s') a /\
  (amount_key = None -> amt = ZERO).
Proof.
  unfold _get_token_and_amount_by_id_or_log. intros Hrun. invert_run.
  all: match goal with
       | Hf : _get_token_by_id _ _ _ = _ |- _ => apply _get_token_by_id_found in Hf
       end.
  all: split; [eexists; split; eassumption|].
  all: try reflexivity.
  all: intros Hnone; discriminate Hnone.
Qed.

Lemma _swap_asset_data_leg `{Collaborators} (fuel : nat) (entry : json) (idx : nat)
    (s s' : state) (a : CryptoAsset) (amt : FVal) :
  _swap_asset_data fuel entry idx s = (Ok (Some (a, amt)), s') ->
  swap_leg entry idx (id_to_token s') a amt.
Proof.
  unfold _swap_asset_data. intros Hrun. invert_run.
  match goal with
  | Hf : _get_token_by_id _ _ _ = _ |- _ => apply _get_token_by_id_found in Hf
  end.
  repeat match goal with
         | H1 : ?t = Ok ?a, H2 : ?t = Ok ?b |- _ =>
             lazymatch a with b => fail | _ => idtac end;
             rewrite H1 in H2; injection H2 as H2; subst
         end.
  unfold swap_leg. repeat eexists; eassumption.
Qed.

(** A leg looked up in a directory that holds a token leaves the state as
    it is. *)
Lemma _swap_asset_data_local `{Collaborators} (fuel : nat) (entry : json) (idx : nat)
    (s s' : state) (leg : CryptoAsset * FVal) :
  id_to_token s <> [] ->
  _swap_asset_data fuel entry idx s = (Ok (Some leg), s') -> s' = s.
Proof.
  intros Hne. unfold _swap_asset_data. intros Hrun. invert_run.
  match goal with
  | Hf : _get_token_by_id _ _ ?s0 = _ |- _ =>
      rewrite (_get_token_by_id_local _ _ s0 Hne) in Hf; inversion Hf; subst
  end.
  reflexivity.
Qed.

Ltac normalizer_cases Hrun :=
  unfold _deserialize_zksync_transaction in Hrun;
  apply try_except_Ok_inv in Hrun as [Hrun|(? & ? & _ & _ & Hrun)];
  [|invert_run];
  unfold _deserialize_zksync_transaction_body in Hrun;
  invert_run.

(** X5. The fields every normalized transaction owes to its envelope: the
    envelope is finalized (or has no status), the type is that of
    [op.type], the block number is [blockNumber] as it is, the timestamp is
    that of [createdAt], the hash is [txHash], except for a FullExit, whose
    hash is [op.ethHash]; only a Swap carries swap data. The database is
    not written to. *)
Theorem normalized_common_fields `{Collaborators} (fuel : nat) (entry : json)
    (concerning_address : string) (s s' : state) (tx : ZKSyncLiteTransaction) :
  _deserialize_zksync_transaction fuel entry concerning_address s = (Ok (Some tx), s') ->
  (exists status, get_default entry "status" (JStr "finalized") = Ok status /\
                  py_eq status (JStr "finalized") = true) /\
  (exists type_raw, entry_op entry "type" = Ok type_raw /\
                    ZKSyncLiteTXType_deserialize type_raw = Ok (tx_type tx)) /\
  getitem entry "blockNumber" = Ok (block_number tx) /\
  (exists created_at, getitem entry "createdAt" = Ok created_at /\
                      iso8601ts_to_timestamp created_at = Ok (timestamp tx)) /\
  (exists hash_raw,
     (if bool_decide (tx_type tx = FULLEXIT) then entry_op entry "ethHash"
      else getitem entry "txHash") = Ok hash_raw /\
     deserialize_evm_tx_hash hash_raw = Ok (tx_hash tx)) /\
  (swap_data tx = None <-> tx_type tx <> SWAP) /\
  db s' = db s.
Proof.
  intros Hrun.
  assert (Hdb : db s' = db s).
  { pose proof (keeps_same_db__deserialize_zksync_transaction fuel entry concerning_address s)
      as Hkeeps. rewrite Hrun in Hkeeps. exact Hkeeps. }
  normalizer_cases Hrun.
  all: cbn.
  all: apply negb_false_iff in Heqb.
  all: repeat match goal with |- _ /\ _ => split end.
  all: try (eexists; split; eassumption).
  all: try assumption.
  all: try (split; [intros _; discriminate|reflexivity]).
  all: try (split; [discriminate|intros Hne; contradiction]).
Qed.

(** X6. The addresses of a normalized transaction. A Deposit, a Transfer
    and a Withdraw take them from [op.from] and [op.to]; a ChangePubKey has
    the sender [op.account] and no recipient; a ForcedExit goes from the
    queried address to [op.target]; a FullExit and a Swap go from the
    queried address to itself. *)
Theorem normalized_addresses `{Collaborators} (fuel : nat) (entry : json)
    (concerning_address : string) (s s' : state) (tx : ZKSyncLiteTransaction) :
  _deserialize_zksync_transaction fuel entry concerning_address s = (Ok (Some tx), s') ->
  match tx_type tx with
  | DEPOSIT | TRANSFER | WITHDRAW =>
      exists a b, from_address tx = Some a /\ to_address tx = Some b /\
                  op_address entry "from" a /\ op_address entry "to" b
  | CHANGEPUBKEY =>
      exists a, from_address tx = Some a /\ to_address tx = None /\
                op_address entry "account" a
  | FORCEDEXIT =>
      exists b, from_address tx = Some concerning_address /\ to_address tx = Some b /\
                op_address entry "target" b
  | FULLEXIT | SWAP =>
      from_address tx = Some concerning_address /\ to_address tx = Some concerning_address
  end.
Proof.
  intros Hrun. normalizer_cases Hrun.
  all: cbn.
  all: unfold op_address.
  all: repeat eexists; eassumption.
Qed.

(** X7. The asset and the amount of a normalized transaction. The asset is
    what the token directory holds for the token id of the envelope
    ([op.tokenId] for a Deposit and a FullExit, [op.token] for a Transfer,
    a Withdraw and a ForcedExit, [op.feeToken] for a ChangePubKey and a
    Swap). The amount is [op.amount] scaled by the decimals of the asset
    for a Deposit, a Transfer and a Withdraw, [op.fee] scaled likewise for
    a Swap, and zero for the exits and for a ChangePubKey. *)
Theorem normalized_asset_and_amount `{Collaborators} (fuel : nat) (entry : json)
    (concerning_address : string) (s s' : state) (tx : ZKSyncLiteTransaction) :
  _deserialize_zksync_transaction fuel entry concerning_address s = (Ok (Some tx), s') ->
  match tx_type tx with
  | DEPOSIT =>
      op_token entry "tokenId" (id_to_token s') (asset tx) /\
      op_amount entry "amount" (asset tx) (amount tx)
  | TRANSFER | WITHDRAW =>
      op_token entry "token" (id_to_token s') (asset tx) /\
      op_amount entry "amount" (asset tx) (amount tx)
  | FORCEDEXIT => op_token entry "token" (id_to_token s') (asset tx) /\ amount tx = ZERO
  | FULLEXIT => op_token entry "tokenId" (id_to_token s') (asset tx) /\ amount tx = ZERO
  | CHANGEPUBKEY => op_token entry "feeToken" (id_to_token s') (asset tx) /\ amount tx = ZERO
  | SWAP =>
      op_token entry "feeToken" (id_to_token s') (asset tx) /\
      op_amount entry "fee" (asset tx) (amount tx)
  end.
Proof.
  intros Hrun. normalizer_cases Hrun.
  all: cbn.
  all: try match goal with
       | Ht : _get_token_and_amount_by_id_or_log _ _ _ _ _ = (Ok (Some _), ?s0),
         Hl : _swap_asset_data _ _ _ ?s0 = (Ok (Some _), _) |- _ =>
           assert (Hne : id_to_token s0 <> [])
             by (destruct (_get_token_and_amount_by_id_or_log_token _ _ _ _ _ _ _ _ Ht)
                   as [(? & _ & Hfound) _];
                 exact (token_dict_get_nonempty _ _ _ Hfound))
       end.
  all: repeat match goal with
         | Hne : id_to_token ?s0 <> [],
           Hl : _swap_asset_data _ _ _ ?s0 = (Ok (Some _), ?s1) |- _ =>
             apply (_swap_asset_data_local _ _ _ _ _ _ Hne) in Hl; subst s1
         end.
  all: match goal with
       | Ht : _get_token_and_amount_by_id_or_log _ _ _ (Some ?k) _ = (Ok (Some _), _) |- _ =>
           pose proof (_get_token_and_amount_by_id_or_log_amount _ _ _ k _ _ _ _
                         ltac:(discriminate) Ht) as Hamount;
           apply _get_token_and_amount_by_id_or_log_token in Ht as [Htoken _]
       | Ht : _get_token_and_amount_by_id_or_log _ _ _ None _ = (Ok (Some _), _) |- _ =>
           apply _get_token_and_amount_by_id_or_log_token in Ht as [Htoken Hzero];
           specialize (Hzero eq_refl)
       end.
  all: split; try assumption; try reflexivity.
Qed.

(** X8. The fee of a normalized transaction, whatever its type: there is
    none when [op.fee] is absent or null, and none when it parses to zero;
    otherwise it is the parsed integer scaled by the decimals of the
    transaction's asset. *)
Theorem normalized_fee `{Collaborators} (fuel : nat) (entry : json)
    (concerning_address : string) (s s' : state) (tx : ZKSyncLiteTransaction) :
  _deserialize_zksync_transaction fuel entry concerning_address s = (Ok (Some tx), s') ->
  exists op fee_str,
    getitem entry "op" = Ok op /\
    get_default op "fee" JNull = Ok fee_str /\
    match fee_str with
    | JNull => fee tx = None
    | _ =>
        exists fee_raw,
          deserialize_int_from_str fee_str = Ok fee_raw /\
          fee tx = (if fee_raw =? 0 then None
                    else Some (asset_normalized_value fee_raw (asset tx)))
    end.
Proof.
  intros Hrun. normalizer_cases Hrun.
  all: cbn.
  all: do 2 eexists; (split; [eassumption|]); (split; [eassumption|]).
  all: try reflexivity.
  all: eexists; split; [eassumption|reflexivity].
Qed.

(** X9. The legs of a normalized Swap: what the first order sells is what
    the swap gives away, what the second order sells is what it brings. *)
Theorem normalized_swap_legs `{Collaborators} (fuel : nat) (entry : json)
    (concerning_address : string) (s s' : state) (tx : ZKSyncLiteTransaction) :
  _deserialize_zksync_transaction fuel entry concerning_address s = (Ok (Some tx), s') ->
  tx_type tx = SWAP ->
  exists data,
    swap_data tx = Some data /\
    swap_leg entry 0 (id_to_token s') (from_asset data) (from_amount data) /\
    swap_leg entry 1 (id_to_token s') (to_asset data) (to_amount data).
Proof.
  intros Hrun Hty. normalizer_cases Hrun.
  all: cbn in Hty; try discriminate Hty.
  all: cbn.
  all: match goal with
       | Ht : _get_token_and_amount_by_id_or_log _ _ _ _ _ = (Ok (Some _), ?s0),
         Hl : _swap_asset_data _ _ _ ?s0 = (Ok (Some _), _) |- _ =>
           assert (Hne : id_to_token s0 <> [])
             by (destruct (_get_token_and_amount_by_id_or_log_token _ _ _ _ _ _ _ _ Ht)
                   as [(? & _ & Hfound) _];
                 exact (token_dict_get_nonempty _ _ _ Hfound))
       end.
  all: match goal with
       | Hl0 : _swap_asset_data _ _ 0 ?s0 = (Ok (Some _), ?s1),
         Hl1 : _swap_asset_data _ _ 1 ?s1 = (Ok (Some _), _) |- _ =>
           pose proof (_swap_asset_data_local _ _ _ _ _ _ Hne Hl0); subst s1;
           apply _swap_asset_data_leg in Hl0;
           pose proof (_swap_asset_data_local _ _ _ _ _ _ Hne Hl1) as Heq;
           apply _swap_asset_data_leg in Hl1; rewrite Heq in *
       end.
  all: eexists; split; [reflexivity|]; split; assumption.
Qed.

(** X10. The normalizer lets no [KeyError] and no [DeserializationError] out:
    an envelope that lacks a field or holds one that does not parse is
    dropped. The normalizer does not write to the database either. *)
Theorem _deserialize_zksync_transaction_contains_errors `{Collaborators} (fuel : nat)
    (entry : json) (concerning_address : string) (s : state) :
  fst (_deserialize_zksync_transaction fuel entry concerning_address s) <> Raise KeyError /\
  fst (_deserialize_zksync_transaction fuel entry concerning_address s)
    <> Raise DeserializationError /\
  db (snd (_deserialize_zksync_transaction fuel entry concerning_address s)) = db s.
Proof.
  split; [|split].
  3: apply (keeps_same_db__deserialize_zksync_transaction fuel entry concerning_address s).
  all: unfold _deserialize_zksync_transaction, try_except.
  all: destruct (_deserialize_zksync_transaction_body fuel entry concerning_address s)
         as [[tx|e] s1]; [discriminate|].
  all: destruct e; cbn; discriminate.
Qed.

(** An envelope whose status is not [finalized] is skipped at once:
    nothing else of it is read, no request is made, the token directory is
    not consulted; only a debug line is logged. *)
Lemma non_finalized_is_skipped `{Collaborators} (fuel : nat) (entry : json)
    (concerning_address : string) (s : state) (status : json) :
  get_default entry "status" (JStr "finalized") = Ok status ->
  py_eq status (JStr "finalized") = false ->
  exists s',
    _deserialize_zksync_transaction fuel entry concerning_address s = (Ok None, s') /\
    logs s' = (DEBUG, "Skipping zksynce lite transaction due to status") :: logs s /\
    requests s' = requests s /\ db s' = db s /\
    id_to_token s' = id_to_token s /\ symbol_to_token s' = symbol_to_token s.
Proof.
  intros Hstatus Hne.
  unfold _deserialize_zksync_transaction, try_except, _deserialize_zksync_transaction_body.
  rewrite (bind_Ok (lift _) _ s s status) by (unfold lift; rewrite Hstatus; reflexivity).
  rewrite Hne. cbn.
  eexists. split; [reflexivity|]. cbn. repeat split; reflexivity.
Qed.

Lemma normalized_common_fields_witness :
  exists s',
    _deserialize_zksync_transaction 1 Examples.full_exit_entry Sample.tracked
      (Examples.manager Sample.always_429 Sample.empty_db)
    = (Ok (Some Examples.full_exit_normalized), s') /\
    exists hash_raw,
      entry_op Examples.full_exit_entry "ethHash" = Ok hash_raw /\
      deserialize_evm_tx_hash hash_raw = Ok "ee".
Proof.
  set (s := Examples.manager Sample.always_429 Sample.empty_db).
  set (s' := snd (_deserialize_zksync_transaction 1 Examples.full_exit_entry Sample.tracked s)).
  assert (Hrun : _deserialize_zksync_transaction 1 Examples.full_exit_entry Sample.tracked s
                 = (Ok (Some Examples.full_exit_normalized), s'))
    by (vm_compute; reflexivity).
  exists s'. split; [exact Hrun|].
  destruct (normalized_common_fields 1 Examples.full_exit_entry Sample.tracked s s'
              Examples.full_exit_normalized Hrun) as (_ & _ & _ & _ & Hhash & _).
  exact Hhash.
Defined.

Lemma normalized_addresses_witness :
  exists s',
    _deserialize_zksync_transaction 1 Examples.swap_entry Sample.tracked
      (Examples.manager Sample.always_429 Sample.empty_db)
    = (Ok (Some Examples.swap_normalized), s') /\
    from_address Examples.swap_normalized = Some Sample.tracked /\
    to_address Examples.swap_normalized = Some Sample.tracked.
Proof.
  set (s := Examples.manager Sample.always_429 Sample.empty_db).
  set (s' := snd (_deserialize_zksync_transaction 1 Examples.swap_entry Sample.tracked s)).
  assert (Hrun : _deserialize_zksync_transaction 1 Examples.swap_entry Sample.tracked s
                 = (Ok (Some Examples.swap_normalized), s'))
    by (vm_compute; reflexivity).
  exists s'. split; [exact Hrun|].
  exact (normalized_addresses 1 Examples.swap_entry Sample.tracked s s'
           Examples.swap_normalized Hrun).
Defined.

Lemma normalized_asset_and_amount_witness :
  exists s',
    _deserialize_zksync_transaction 1 Examples.full_exit_entry Sample.tracked
      (Examples.manager Sample.always_429 Sample.empty_db)
    = (Ok (Some Examples.full_exit_normalized), s') /\
    op_token Examples.full_exit_entry "tokenId" (id_to_token s')
      (asset Examples.full_exit_normalized) /\
    amount Examples.full_exit_normalized = ZERO.
Proof.
  set (s := Examples.manager Sample.always_429 Sample.empty_db).
  set (s' := snd (_deserialize_zksync_transaction 1 Examples.full_exit_entry Sample.tracked s)).
  assert (Hrun : _deserialize_zksync_transaction 1 Examples.full_exit_entry Sample.tracked s
                 = (Ok (Some Examples.full_exit_normalized), s'))
    by (vm_compute; reflexivity).
  exists s'. split; [exact Hrun|].
  exact (normalized_asset_and_amount 1 Examples.full_exit_entry Sample.tracked s s'
           Examples.full_exit_normalized Hrun).
Defined.

Lemma normalized_fee_witness :
  exists s' op fee_str,
    _deserialize_zksync_transaction 1 Examples.swap_entry Sample.tracked
      (Examples.manager Sample.always_429 Sample.empty_db)
    = (Ok (Some Examples.swap_normalized), s') /\
    getitem Examples.swap_entry "op" = Ok op /\
    get_default op "fee" JNull = Ok fee_str.
Proof.
  set (s := Examples.manager Sample.always_429 Sample.empty_db).
  set (s' := snd (_deserialize_zksync_transaction 1 Examples.swap_entry Sample.tracked s)).
  assert (Hrun : _deserialize_zksync_transaction 1 Examples.swap_entry Sample.tracked s
                 = (Ok (Some Examples.swap_normalized), s'))
    by (vm_compute; reflexivity).
  destruct (normalized_fee 1 Examples.swap_entry Sample.tracked s s'
              Examples.swap_normalized Hrun) as (op & fee_str & Hop & Hfee & _).
  exists s', op, fee_str. split; [exact Hrun|]. split; [exact Hop|exact Hfee].
Defined.

Lemma normalized_swap_legs_witness :
  exists s' data,
    _deserialize_zksync_transaction 1 Examples.swap_entry Sample.tracked
      (Examples.manager Sample.always_429 Sample.empty_db)
    = (Ok (Some Examples.swap_normalized), s') /\
    swap_data Examples.swap_normalized = Some data /\
    swap_leg Examples.swap_entry 0 (id_to_token s') (from_asset data) (from_amount data) /\
    swap_leg Examples.swap_entry 1 (id_to_token s') (to_asset data) (to_amount data).
Proof.
  set (s := Examples.manager Sample.always_429 Sample.empty_db).
  set (s' := snd (_deserialize_zksync_transaction 1 Examples.swap_entry Sample.tracked s)).
  assert (Hrun : _deserialize_zksync_transaction 1 Examples.swap_entry Sample.tracked s
                 = (Ok (Some Examples.swap_normalized), s'))
    by (vm_compute; reflexivity).
  destruct (normalized_swap_legs 1 Examples.swap_entry Sample.tracked s s'
              Examples.swap_normalized Hrun eq_refl) as (data & Hdata & Hleg0 & Hleg1).
  exists s', data. split; [exact Hrun|]. split; [exact Hdata|]. split; assumption.
Defined.

(** ** The token directory *)

Lemma py_eq_refl_hashable (j : json) : hashable j = true -> py_eq j j = true.
Proof.
  destruct j; cbn; try discriminate; intros _.
  - reflexivity.
  - apply Bool.eqb_reflx.
  - apply Z.eqb_refl.
  - apply String.eqb_refl.
Qed.

Lemma assoc_find_assoc_set {A : Type} (key : json) (v : A) (d : list (json * A)) :
  py_eq key key = true -> assoc_find key (assoc_set key v d) = Some v.
Proof.
  intros Hrefl. induction d as [|[k w] d IH]; cbn.
  - rewrite Hrefl. reflexivity.
  - destruct (py_eq k key) eqn:Hk; cbn; rewrite Hk; [reflexivity|exact IH].
Qed.

Lemma token_dict_get_set {A : Type} (key : json) (v : A) (d d' : list (json * A)) :
  token_dict_set key v d = Ok d' -> token_dict_get key d' = Ok (Some v).
Proof.
  unfold token_dict_set, token_dict_get. destruct (hashable key) eqn:Hh; [|discriminate].
  intros Heq. injection Heq as <-.
  rewrite assoc_find_assoc_set by (apply py_eq_refl_hashable; exact Hh). reflexivity.
Qed.

(** X11. A token entry with an id, a symbol and an address that parses is
    registered under its id and under its symbol: as the native asset when
    the address is the zero address, as the token the registry gives for
    the address otherwise. A lookup of the id then finds it without any
    request. *)
Theorem _create_tokens_mapping_entry_registers `{Collaborators} (entry : json) (s : state)
    (token_id token_symbol address_raw : json) (address : string) (asset : CryptoAsset) :
  getitem entry "id" = Ok token_id ->
  getitem entry "symbol" = Ok token_symbol ->
  getitem entry "address" = Ok address_raw ->
  deserialize_evm_address address_raw = Ok address ->
  hashable token_id = true ->
  hashable token_symbol = true ->
  (if String.eqb address ZERO_ADDRESS then asset = A_ETH
   else get_or_create_evm_token address = Some asset) ->
  exists s',
    _create_tokens_mapping_entry entry s = (Ok tt, s') /\
    token_dict_get token_id (id_to_token s') = Ok (Some asset) /\
    token_dict_get token_symbol (symbol_to_token s') = Ok (Some asset) /\
    requests s' = requests s /\ logs s' = logs s /\ db s' = db s /\
    forall pages, _get_token_by_id pages token_id s' = (Ok (Some asset), s').
Proof.
  intros Hid Hsymbol Haddress_raw Haddress Hhid Hhsymbol Hasset.
  assert (Hstore : exists s',
            (s0 ← get_state;
             ids ← lift (token_dict_set token_id asset (id_to_token s0));
             set_tokens ids (symbol_to_token s0);;
             syms ← lift (token_dict_set token_symbol asset (symbol_to_token s0));
             set_tokens ids syms) s = (Ok tt, s') /\
            token_dict_get token_id (id_to_token s') = Ok (Some asset) /\
            token_dict_get token_symbol (symbol_to_token s') = Ok (Some asset) /\
            requests s' = requests s /\ logs s' = logs s /\ db s' = db s).
  { unfold mbind, M_bind, get_state, lift, set_tokens, token_dict_set.
    rewrite Hhid. cbn. rewrite Hhsymbol. cbn.
    eexists. split; [reflexivity|]. cbn.
    split; [apply (token_dict_get_set token_id asset (id_to_token s));
            unfold token_dict_set; rewrite Hhid; reflexivity|].
    split; [apply (token_dict_get_set token_symbol asset (symbol_to_token s));
            unfold token_dict_set; rewrite Hhsymbol; reflexivity|].
    repeat split; reflexivity. }
  destruct Hstore as (s' & Hstore & Hget_id & Hget_symbol & Hrequests & Hlogs & Hdb).
  exists s'. split.
  - unfold _create_tokens_mapping_entry, try_except.
    rewrite (bind_Ok (lift _) _ s s token_id) by (unfold lift; rewrite Hid; reflexivity).
    rewrite (bind_Ok (lift _) _ s s token_symbol) by (unfold lift; rewrite Hsymbol; reflexivity).
    rewrite (bind_Ok (lift _) _ s s address_raw)
      by (unfold lift; rewrite Haddress_raw; reflexivity).
    rewrite (bind_Ok (lift _) _ s s address) by (unfold lift; rewrite Haddress; reflexivity).
    destruct (String.eqb address ZERO_ADDRESS).
    + subst asset. rewrite Hstore. reflexivity.
    + rewrite Hasset, Hstore. reflexivity.
  - repeat (split; [assumption|]).
    intros pages.
    rewrite _get_token_by_id_local by (exact (token_dict_get_nonempty _ _ _ Hget_id)).
    rewrite Hget_id. reflexivity.
Qed.

Lemma _create_tokens_mapping_entry_registers_witness :
  exists s',
    _create_tokens_mapping_entry Examples.eth_entry
      (Examples.fresh_manager Sample.always_429 Sample.empty_db) = (Ok tt, s') /\
    _get_token_by_id 0 (JInt 0) s' = (Ok (Some A_ETH), s').
Proof.
  destruct (_create_tokens_mapping_entry_registers (H := Sample.collaborators) Examples.eth_entry
              (Examples.fresh_manager Sample.always_429 Sample.empty_db)
              (JInt 0) (JStr "ETH") (JStr ZERO_ADDRESS) ZERO_ADDRESS A_ETH
              eq_refl eq_refl eq_refl eq_refl eq_refl eq_refl eq_refl)
    as (s' & Hrun & _ & _ & _ & _ & _ & Hlookup).
  exists s'. split; [exact Hrun|apply Hlookup].
Defined.

(** X12. A token entry that lacks its id, its symbol or its address, or whose
    address does not parse, is logged and skipped: the directory is left as
    it is and the entries that follow are still read. *)
Theorem _create_tokens_mapping_entry_skips_malformed `{Collaborators}
    (d : list (string * json)) (s : state) :
  dict_lookup "id" d = None \/ dict_lookup "symbol" d = None \/
  dict_lookup "address" d = None \/
  (exists address_raw, dict_lookup "address" d = Some address_raw /\
                       deserialize_evm_address address_raw = Raise DeserializationError) ->
  exists s',
    _create_tokens_mapping_entry (JDict d) s = (Ok tt, s') /\
    logs s' = (ERROR, "ZKSync lite token entry failed to be parsed") :: logs s /\
    id_to_token s' = id_to_token s /\ symbol_to_token s' = symbol_to_token s /\
    requests s' = requests s /\
    forall entries,
      for_each _create_tokens_mapping_entry (JDict d :: entries) s =
      for_each _create_tokens_mapping_entry entries s'.
Proof.
  intros Hbad.
  assert (Hentry : _create_tokens_mapping_entry (JDict d) s =
                   log ERROR "ZKSync lite token entry failed to be parsed" s).
  { unfold _create_tokens_mapping_entry, try_except, mbind, M_bind, lift. cbn [getitem].
    destruct (dict_lookup "id" d) as [token_id|] eqn:Hid; [|reflexivity].
    destruct (dict_lookup "symbol" d) as [token_symbol|] eqn:Hsymbol; [|reflexivity].
    destruct (dict_lookup "address" d) as [address_raw|] eqn:Haddress; [|reflexivity].
    destruct Hbad as [Hbad|[Hbad|[Hbad|(a & Ha & Hbad)]]]; try discriminate Hbad.
    injection Ha as <-. rewrite Hbad. reflexivity. }
  eexists. split; [exact Hentry|]. cbn.
  repeat (split; [reflexivity|]).
  intros entries. cbn [for_each]. rewrite bind_run, Hentry. reflexivity.
Qed.

Lemma _create_tokens_mapping_entry_skips_malformed_witness :
  exists s',
    _create_tokens_mapping_entry (JDict [("id", JInt 9); ("symbol", JStr "NOADDR")])
      (Examples.fresh_manager Sample.always_429 Sample.empty_db) = (Ok tt, s') /\
    id_to_token s' = [] /\ symbol_to_token s' = [].
Proof.
  destruct (_create_tokens_mapping_entry_skips_malformed (H := Sample.collaborators)
              [("id", JInt 9); ("symbol", JStr "NOADDR")]
              (Examples.fresh_manager Sample.always_429 Sample.empty_db))
    as (s1 & Hrun & _ & Hids & Hsyms & _).
  - right. right. left. reflexivity.
  - exists s1. split; [exact Hrun|]. split; [exact Hids|exact Hsyms].
Defined.



(** ** What a walk records *)

#[global] Instance same_ranges_preorder : PreOrder same_ranges.
Proof.
  split; [intros s; reflexivity|].
  intros s1 s2 s3 H12 H23. unfold same_ranges in *. congruence.
Qed.

#[global] Instance same_events_preorder : PreOrder same_events.
Proof.
  split; [intros s; reflexivity|].
  intros s1 s2 s3 H12 H23. unfold same_events in *. congruence.
Qed.

Lemma same_db_same_ranges (s s' : state) : same_db s s' -> same_ranges s s'.
Proof. unfold same_db, same_ranges. intros ->. reflexivity. Qed.

Lemma same_db_same_events (s s' : state) : same_db s s' -> same_events s s'.
Proof. unfold same_db, same_events. intros ->. reflexivity. Qed.

(** Decomposes a goal [keeps R m] for a relation [R] that holds between
    states with the same database, once the steps that write to the
    database are known to keep it. *)
Ltac keeps_steps_from Hsame :=
  repeat
    (intros;
     match goal with
     | |- keeps _ (mret _) => apply keeps_ret; typeclasses eauto
     | |- keeps _ (raise _) => apply keeps_raise; typeclasses eauto
     | |- keeps _ (lift _) => apply keeps_lift; typeclasses eauto
     | |- keeps _ (_ ≫= _) => apply keeps_bind; [typeclasses eauto| |]
     | |- keeps _ (try_except _ _ _) => apply keeps_try_except; [typeclasses eauto| |]
     | |- keeps _ (for_each _ _) => apply keeps_for_each; [typeclasses eauto|]
     | |- keeps _ (if ?b then _ else _) => destruct b
     | |- keeps _ (match ?x with _ => _ end) => destruct x
     | |- keeps _ (let '(_, _) := ?x in _) => destruct x
     | |- keeps _ _ => solve [auto with keeps_db]
     | |- keeps ?R _ => apply (keeps_weaken same_db R _ Hsame); solve [auto with keeps_db]
     end).

Lemma keeps_ranges_insert_transaction `{Collaborators} (t : ZKSyncLiteTransaction) :
  keeps same_ranges (insert_transaction t).
Proof.
  intros s. unfold insert_transaction, same_ranges. rewrite bind_run. cbn.
  destruct (hash_stored (tx_hash t) (zksynclite_transactions (db s))); reflexivity.
Qed.

Lemma keeps_ranges_insert_swap (tx_id : Z) (data : ZKSyncLiteSwapData) :
  keeps same_ranges (insert_swap tx_id data).
Proof. intros s. reflexivity. Qed.

Lemma keeps_events_insert_transaction `{Collaborators} (t : ZKSyncLiteTransaction) :
  keeps same_events (insert_transaction t).
Proof.
  intros s. unfold insert_transaction, same_events. rewrite bind_run. cbn.
  destruct (hash_stored (tx_hash t) (zksynclite_transactions (db s))); reflexivity.
Qed.

Lemma keeps_events_insert_swap (tx_id : Z) (data : ZKSyncLiteSwapData) :
  keeps same_events (insert_swap tx_id data).
Proof. intros s. reflexivity. Qed.

Lemma keeps_events_update_used_query_range (location_string : string) (queried_range : Z * Z) :
  keeps same_events (update_used_query_range location_string queried_range).
Proof. intros s. reflexivity. Qed.

#[global] Hint Resolve keeps_ranges_insert_transaction keeps_ranges_insert_swap
  keeps_events_insert_transaction keeps_events_insert_swap
  keeps_events_update_used_query_range : keeps_db.

Lemma keeps_ranges__add_zksynctxs_db `{Collaborators} (transactions : list ZKSyncLiteTransaction) :
  keeps same_ranges (_add_zksynctxs_db transactions).
Proof.
  unfold _add_zksynctxs_db, _add_zksynctxs_db_transaction.
  keeps_steps_from same_db_same_ranges.
Qed.

Lemma keeps_events__add_zksynctxs_db `{Collaborators} (transactions : list ZKSyncLiteTransaction) :
  keeps same_events (_add_zksynctxs_db transactions).
Proof.
  unfold _add_zksynctxs_db, _add_zksynctxs_db_transaction.
  keeps_steps_from same_db_same_events.
Qed.

#[global] Hint Resolve keeps_ranges__add_zksynctxs_db keeps_events__add_zksynctxs_db : keeps_db.

Lemma find_filter_other (name location_string : string) (ranges : list (string * (Z * Z))) :
  name <> location_string ->
  find (fun e => String.eqb (fst e) name)
    (filter (fun e => negb (String.eqb (fst e) location_string)) ranges) =
  find (fun e => String.eqb (fst e) name) ranges.
Proof.
  intros Hne. induction ranges as [|[k v] ranges IH]; [reflexivity|].
  rewrite filter_cons. cbn [fst find].
  destruct (String.eqb k location_string) eqn:Hk; cbn.
  - apply String.eqb_eq in Hk. subst k.
    destruct (decide _) as [Hd|Hd]; [exfalso; apply Hd; reflexivity || discriminate Hd|].
    destruct (String.eqb location_string name) eqn:Hn;
      [apply String.eqb_eq in Hn; congruence|exact IH].
  - destruct (decide _) as [Hd|Hd]; [|exfalso; apply Hd; reflexivity].
    cbn [find fst]. destruct (String.eqb k name); [reflexivity|exact IH].
Qed.

(** X14. A page without entries ends the walk and records nothing: no
    transaction and no used query range. *)
Theorem empty_page_records_nothing `{Collaborators} (fuel pages : nat) (address : string)
    (start_ts end_ts : Z) (from_hash : json) (direction : Direction) (s s1 : state) :
  (0 < ZKSYNCLITE_MAX_LIMIT)%nat ->
  _query_zksync_api_transactions_page address from_hash direction s = (Ok (JList []), s1) ->
  _query_and_save_transactions_for_range fuel (S pages) address start_ts end_ts from_hash
    direction s = (Ok tt, s1) /\
  db s1 = db s.
Proof.
  intros Hlimit Hpage. split.
  - unfold _query_and_save_transactions_for_range, _query_zksync_api_transactions.
    cbn [_query_zksync_api_transactions_loop].
    unfold _query_zksync_api_transactions_iteration.
    rewrite !bind_run, Hpage. unfold mbind, M_bind, lift. cbn -[Nat.ltb].
    apply Nat.ltb_lt in Hlimit. rewrite Hlimit. reflexivity.
  - pose proof (keeps_same_db__query_zksync_api_transactions_page address from_hash direction s)
      as Hkeeps. rewrite Hpage in Hkeeps. exact Hkeeps.
Qed.

Lemma empty_page_records_nothing_witness :
  exists s1,
    _query_and_save_transactions_for_range 1 1 Sample.tracked 0 100 (JStr "latest") older
      (Sample.manager (fun _ _ => Sample.page_reply []) Sample.empty_db) = (Ok tt, s1) /\
    db s1 = Sample.empty_db.
Proof.
  set (s := Sample.manager (fun _ _ => Sample.page_reply []) Sample.empty_db).
  set (s1 := snd (_query_zksync_api_transactions_page Sample.tracked (JStr "latest") older s)).
  exists s1.
  apply (empty_page_records_nothing (H := Sample.collaborators) 1 0 Sample.tracked 0 100
           (JStr "latest") older s s1).
  - cbn. lia.
  - vm_compute. reflexivity.
Defined.





(** ** Reading back what was stored *)

Lemma get_db_transactions_loop_not_swap `{Collaborators} (d : database)
    (cursor1 cursor2 : list tx_row) :
  Forall not_swap_row cursor1 ->
  forall (transactions : list ZKSyncLiteTransaction) (s : state),
    get_db_transactions_loop d (cursor1 ++ cursor2) transactions s =
    get_db_transactions_loop d cursor2 (transactions ++ map row_columns cursor1) s.
Proof.
  induction 1 as [|entry cursor1 Hentry Hcursor IH]; intros transactions s.
  - cbn. rewrite app_nil_r. reflexivity.
  - cbn [app get_db_transactions_loop map].
    rewrite bool_decide_eq_false_2 by exact Hentry.
    rewrite IH, <- app_assoc. reflexivity.
Qed.

Lemma next_identifier_fresh (rows : list tx_row) (r : tx_row) :
  r ∈ rows -> row_identifier r < next_identifier rows.
Proof.
  unfold next_identifier. induction rows as [|x rows IH]; intros Hin.
  - apply elem_of_nil in Hin. contradiction.
  - cbn. apply elem_of_cons in Hin as [->|Hin]; [lia|]. specialize (IH Hin). lia.
Qed.

Lemma find_new_row (rows : list tx_row) (row : tx_row) :
  row_identifier row = next_identifier rows ->
  find (fun r => row_identifier r =? row_identifier row) (rows ++ [row]) = Some row.
Proof.
  intros Hid.
  assert (Hold : forall r, r ∈ rows -> (row_identifier r =? row_identifier row) = false).
  { intros r Hr. apply Z.eqb_neq. pose proof (next_identifier_fresh rows r Hr). lia. }
  clear Hid. induction rows as [|x rows IH]; cbn.
  - rewrite Z.eqb_refl. reflexivity.
  - rewrite (Hold x) by left. apply IH. intros r Hr. apply Hold. right. exact Hr.
Qed.

(** The database a stored transaction leaves: its row at the end of the
    table and, for a Swap, its swap data under the identifier of the
    row. *)
Lemma _add_zksynctxs_db_transaction_fresh_db `{Collaborators}
    (transaction : ZKSyncLiteTransaction) (s : state) :
  hash_stored (tx_hash transaction) (zksynclite_transactions (db s)) = false ->
  (tx_type transaction = SWAP -> swap_data transaction <> None) ->
  exists s',
    _add_zksynctxs_db_transaction transaction s = (Ok tt, s') /\
    zksynclite_transactions (db s') =
      zksynclite_transactions (db s) ++
      [{| row_identifier := next_identifier (zksynclite_transactions (db s));
          row_columns := serialize_for_db transaction; is_decoded := 0 |}] /\
    zksynclite_swaps (db s') =
      (if bool_decide (tx_type transaction = SWAP) then
         match swap_data transaction with
         | Some data =>
             <[next_identifier (zksynclite_transactions (db s)) := data]>
               (zksynclite_swaps (db s))
         | None => zksynclite_swaps (db s)
         end
       else zksynclite_swaps (db s)) /\
    history_events (db s') = history_events (db s) /\
    used_query_ranges (db s') = used_query_ranges (db s).
Proof.
  intros Hfresh Hswap.
  unfold _add_zksynctxs_db_transaction, try_except, insert_transaction.
  rewrite !bind_run. cbn. rewrite Hfresh. cbn.
  case_bool_decide as Hty; cbn.
  - pose proof (find_new_row (zksynclite_transactions (db s))
                  {| row_identifier := next_identifier (zksynclite_transactions (db s));
                     row_columns := serialize_for_db transaction; is_decoded := 0 |}
                  eq_refl) as Hfind.
    cbn in Hfind. unfold set_db, get_db, insert_swap, mbind, M_bind, mret, M_ret. cbn.
    rewrite Hfind.
    destruct (swap_data transaction) as [data|] eqn:Hdata;
      [|exfalso; apply (Hswap Hty); reflexivity].
    cbn. eexists. split; [reflexivity|]. cbn. repeat split; reflexivity.
  - eexists. split; [reflexivity|]. cbn. repeat split; reflexivity.
Qed.



(** X18. [get_db_transactions] runs the swaps query on the cursor it
    iterates, so it returns nothing of the rows that follow the first Swap
    row: the transactions of the rows before it and, if its swap data is
    stored, the Swap itself. *)
Theorem get_db_transactions_stops_at_first_swap `{Collaborators} (s : state)
    (before after : list tx_row) (r : tx_row) :
  zksynclite_transactions (db s) = before ++ r :: after ->
  Forall not_swap_row before ->
  tx_type (row_columns r) = SWAP ->
  exists s',
    get_db_transactions None s =
      (Ok (map row_columns before ++
           match zksynclite_swaps (db s) !! row_identifier r with
           | Some data => [with_swap_data (row_columns r) data]
           | None => []
           end), s') /\
    db s' = db s.
Proof.
  intros Hrows Hbefore Hty.
  unfold get_db_transactions. rewrite (bind_Ok get_db _ s s (db s)) by reflexivity.
  rewrite Hrows, (get_db_transactions_loop_not_swap _ _ _ Hbefore).
  cbn [get_db_transactions_loop app]. rewrite bool_decide_eq_true_2 by exact Hty.
  destruct (zksynclite_swaps (db s) !! row_identifier r) as [data|].
  - eexists. split; [reflexivity|reflexivity].
  - rewrite app_nil_r. eexists. split; [reflexivity|reflexivity].
Qed.

Lemma get_db_transactions_stops_at_first_swap_witness :
  exists s',
    get_db_transactions None (Sample.manager Sample.always_429 Examples.swap_in_the_middle)
      = (Ok [Sample.foreign_transfer; Sample.swap], s').
Proof.
  destruct (get_db_transactions_stops_at_first_swap (H := Sample.collaborators)
              (Sample.manager Sample.always_429 Examples.swap_in_the_middle)
              [Sample.row_of 1 Sample.foreign_transfer 0]
              [Sample.row_of 3 (Sample.transfer_of "a0") 0]
              (Sample.row_of 2 Sample.swap 0))
    as (s' & Hrun & _).
  - reflexivity.
  - repeat constructor; intros Hty; discriminate Hty.
  - reflexivity.
  - exists s'. exact Hrun.
Defined.

(** ** The walks a fetch chooses, and what a fetch leaves alone *)

Lemma select_tx_hash_min_timestamp_oldest (rows : list tx_row) (h : string) (t : Z) :
  select_tx_hash_min_timestamp rows = Some (h, t) ->
  exists r, r ∈ rows /\ tx_hash (row_columns r) = h /\ timestamp (row_columns r) = t /\
            forall r', r' ∈ rows -> t <= timestamp (row_columns r').
Proof.
  revert h t. induction rows as [|x rows IH]; intros h t Hsel; [discriminate|].
  cbn in Hsel.
  destruct (select_tx_hash_min_timestamp rows) as [[h0 t0]|] eqn:Hrest.
  - destruct (IH h0 t0 eq_refl) as (r & Hr & Hh & Ht & Hmin).
    destruct (timestamp (row_columns x) <=? t0) eqn:Hle; injection Hsel as <- <-.
    + apply Z.leb_le in Hle. exists x. split; [left|]. repeat split.
      intros r' Hr'. apply elem_of_cons in Hr' as [->|Hr']; [lia|].
      specialize (Hmin r' Hr'). lia.
    + apply Z.leb_gt in Hle. exists r. split; [right; exact Hr|]. repeat split; try assumption.
      intros r' Hr'. apply elem_of_cons in Hr' as [->|Hr']; [lia|]. apply Hmin, Hr'.
  - injection Hsel as <- <-. exists x. split; [left|]. repeat split.
    intros r' Hr'. apply elem_of_cons in Hr' as [->|Hr']; [lia|].
    destruct rows; [apply elem_of_nil in Hr'; contradiction|].
    cbn in Hrest. destruct (select_tx_hash_min_timestamp rows) as [[? ?]|];
      [destruct (_ <=? _)|]; discriminate.
Qed.

(** X19. The walks a fetch performs. Without a used query range for the
    address, one backward walk from the latest transaction over the whole
    range asked for. With a range whose start is zero, one forward walk.
    With a range whose start is not zero, a backward walk followed by a
    forward walk; the backward walk starts from a stored transaction of
    least timestamp and its range ends at that timestamp, or, when nothing
    is stored, starts from the latest transaction with the empty range
    from [start_ts] to [start_ts]. *)
Theorem fetch_transactions_walks_policy `{Collaborators} (d : database) (address : string)
    (start_ts end_ts : Z) :
  match get_used_query_range d ("zksynctxs_" +:+ address) with
  | None =>
      fetch_transactions_walks d address start_ts end_ts =
      Ok [{| walk_start_ts := start_ts; walk_end_ts := end_ts;
             walk_from_hash := "latest"; walk_direction := older |}]
  | Some (range_start, _) =>
      if range_start =? 0 then
        exists w, fetch_transactions_walks d address start_ts end_ts = Ok [w] /\
                  walk_direction w = newer
      else
        exists w1 w2,
          fetch_transactions_walks d address start_ts end_ts = Ok [w1; w2] /\
          walk_direction w1 = older /\ walk_start_ts w1 = start_ts /\
          walk_direction w2 = newer /\
          match zksynclite_transactions d with
          | [] => walk_from_hash w1 = "latest" /\ walk_end_ts w1 = start_ts
          | _ :: _ =>
              exists r, r ∈ zksynclite_transactions d /\
                        walk_from_hash w1 = "0x" +:+ tx_hash (row_columns r) /\
                        walk_end_ts w1 = timestamp (row_columns r) /\
                        forall r', r' ∈ zksynclite_transactions d ->
                                   timestamp (row_columns r) <= timestamp (row_columns r')
          end
  end.
Proof.
  unfold fetch_transactions_walks. cbn.
  destruct (get_used_query_range d ("zksynctxs_" +:+ address)) as [[range_start range_end]|].
  2: { destruct (select_tx_hash_min_timestamp (zksynclite_transactions d)) as [[h t]|];
         reflexivity. }
  destruct (select_tx_hash_min_timestamp (zksynclite_transactions d)) as [[h t]|] eqn:Hmin;
    cbn; destruct (range_start =? 0); cbn.
  - eexists. split; reflexivity.
  - do 2 eexists. split; [reflexivity|]. cbn. repeat (split; [reflexivity|]).
    destruct (select_tx_hash_min_timestamp_oldest _ _ _ Hmin) as (r & Hr & <- & <- & Hleast).
    destruct (zksynclite_transactions d) as [|x rows] eqn:Hrows;
      [apply elem_of_nil in Hr; contradiction|].
    exists r. repeat split; assumption.
  - eexists. split; reflexivity.
  - do 2 eexists. split; [reflexivity|]. cbn. repeat (split; [reflexivity|]).
    destruct (zksynclite_transactions d) as [|x rows]; [split; reflexivity|].
    cbn in Hmin. destruct (select_tx_hash_min_timestamp rows) as [[? ?]|];
      [destruct (_ <=? _)|]; discriminate.
Qed.

Lemma keeps_events__query_and_save_transactions_for_range_body `{Collaborators}
    (address : string) (direction : Direction) (vars : range_vars)
    (new_transactions : list ZKSyncLiteTransaction) :
  keeps same_events
    (_query_and_save_transactions_for_range_body address direction vars new_transactions).
Proof.
  unfold _query_and_save_transactions_for_range_body.
  keeps_steps_from same_db_same_events.
Qed.

Lemma keeps_events_perform_walk `{Collaborators} (fuel pages : nat) (address : string)
    (w : walk) :
  keeps same_events (perform_walk fuel pages address w).
Proof.
  unfold perform_walk, _query_and_save_transactions_for_range, _query_zksync_api_transactions.
  apply keeps_bind; [typeclasses eauto| |intros; apply keeps_ret; typeclasses eauto].
  apply keeps__query_zksync_api_transactions_loop;
    [typeclasses eauto|exact same_db_same_events|].
  intros acc batch. apply keeps_events__query_and_save_transactions_for_range_body.
Qed.

#[global] Hint Resolve keeps_events_perform_walk : keeps_db.

Lemma keeps_events_fetch_transactions `{Collaborators} (fuel pages : nat) (address : string)
    (start_ts end_ts : Z) :
  keeps same_events (fetch_transactions fuel pages address start_ts end_ts).
Proof. unfold fetch_transactions. keeps_steps_from same_db_same_events. Qed.

(** X20. What a fetch never does, whatever the server answers and whatever
    is stored: it lets no [RemoteError] out, it removes or changes no
    stored transaction row (rows are only added after those that were
    there), and it leaves the ledger events as they are. *)
Theorem fetch_transactions_guarantees `{Collaborators} (fuel pages : nat) (address : string)
    (start_ts end_ts : Z) (s : state) :
  fst (fetch_transactions fuel pages address start_ts end_ts s) <> Raise RemoteError /\
  zksynclite_transactions (db s) `prefix_of`
    zksynclite_transactions (db (snd (fetch_transactions fuel pages address start_ts end_ts s))) /\
  history_events (db (snd (fetch_transactions fuel pages address start_ts end_ts s)))
    = history_events (db s).
Proof.
  split; [|split].
  - unfold fetch_transactions. rewrite (bind_Ok get_db _ s s (db s)) by reflexivity.
    destruct (forward_walk_from_latest (db s) address start_ts end_ts) as (walks & Hwalks & _).
    rewrite (bind_Ok (lift _) _ s s walks) by (unfold lift; rewrite Hwalks; reflexivity).
    unfold try_except.
    destruct (for_each (perform_walk fuel pages address) walks s) as [[[]|e] s1];
      [discriminate|].
    destruct e; cbn; discriminate.
  - apply (keeps_rows_fetch_transactions fuel pages address start_ts end_ts s).
  - apply (keeps_events_fetch_transactions fuel pages address start_ts end_ts s).
Qed.

(** ** The lookup of a single transaction *)

Lemma _add_zksynctxs_db_transaction_Ok_stored `{Collaborators}
    (transaction : ZKSyncLiteTransaction) (s s' : state) :
  _add_zksynctxs_db_transaction transaction s = (Ok tt, s') ->
  hash_stored (tx_hash transaction) (zksynclite_transactions (db s')) = true.
Proof.
  intros Hrun.
  destruct (hash_stored (tx_hash transaction) (zksynclite_transactions (db s))) eqn:Hstored.
  - destruct (_add_zksynctxs_db_transaction_duplicate transaction s Hstored)
      as (s1 & Hdup & Hdb & _).
    rewrite Hdup in Hrun. injection Hrun as <-. rewrite Hdb. exact Hstored.
  - destruct (swap_data transaction) as [data|] eqn:Hdata.
    + destruct (_add_zksynctxs_db_transaction_fresh transaction s Hstored)
        as (s1 & Hfresh & Hrows); [rewrite Hdata; intros _; discriminate|].
      rewrite Hfresh in Hrun. injection Hrun as <-. rewrite Hrows.
      apply hash_stored_serialize.
    + destruct (decide (tx_type transaction = SWAP)) as [Hty|Hty].
      * exfalso. revert Hrun.
        unfold _add_zksynctxs_db_transaction, try_except, insert_transaction.
        rewrite !bind_run. cbn. rewrite Hstored. cbn.
        rewrite bool_decide_eq_true_2 by exact Hty.
        pose proof (find_new_row (zksynclite_transactions (db s))
                      {| row_identifier := next_identifier (zksynclite_transactions (db s));
                         row_columns := serialize_for_db transaction; is_decoded := 0 |}
                      eq_refl) as Hfind.
        cbn in Hfind. unfold set_db, get_db, insert_swap, mbind, M_bind, mret, M_ret. cbn.
        rewrite Hfind, Hdata. cbn. discriminate.
      * destruct (_add_zksynctxs_db_transaction_fresh transaction s Hstored)
          as (s1 & Hfresh & Hrows); [intros Hty'; contradiction|].
        rewrite Hfresh in Hrun. injection Hrun as <-. rewrite Hrows.
        apply hash_stored_serialize.
Qed.

Lemma keeps_rows_query_single_transaction `{Collaborators} (pages : nat) (h : string)
    (concerning_address : string) :
  keeps rows_kept (query_single_transaction pages h concerning_address).
Proof. unfold query_single_transaction. keeps_steps. Qed.

(** X21. What [query_single_transaction] returns is stored: when it returns
    a transaction, a row of the table holds its hash; when it returns
    [None], the database is as it was. In both cases the rows that were
    stored are still there, in their place. *)
Theorem query_single_transaction_stores_what_it_returns `{Collaborators} (pages : nat)
    (h : string) (concerning_address : string) (s s' : state)
    (found : option ZKSyncLiteTransaction) :
  query_single_transaction pages h concerning_address s = (Ok found, s') ->
  zksynclite_transactions (db s) `prefix_of` zksynclite_transactions (db s') /\
  match found with
  | Some tx => hash_stored (tx_hash tx) (zksynclite_transactions (db s')) = true
  | None => db s' = db s
  end.
Proof.
  intros Hrun. split.
  { pose proof (keeps_rows_query_single_transaction pages h concerning_address s) as Hkeeps.
    rewrite Hrun in Hkeeps. exact Hkeeps. }
  unfold query_single_transaction in Hrun.
  apply bind_Ok_inv in Hrun as (response & s1 & Htry & Hrun).
  assert (Hs1 : db s1 = db s).
  { match type of Htry with
    | ?m s = _ =>
        assert (Hkeeps : keeps same_db m) by keeps_steps;
        specialize (Hkeeps s); rewrite Htry in Hkeeps; exact Hkeeps
    end. }
  clear Htry. destruct response as [response|].
  2: { apply ret_Ok_inv in Hrun as [-> ->]. exact Hs1. }
  apply bind_Ok_inv in Hrun as (tx_entry & s2 & Hentry & Hrun).
  apply lift_Ok_inv in Hentry as [Hentry ->].
  assert (Hnormalize :
            (tx ← _deserialize_zksync_transaction pages tx_entry concerning_address;
             match tx with
             | None => log ERROR "Could not deserialize transaction. Got None";; mret None
             | Some tx => _add_zksynctxs_db [tx];; mret (Some tx)
             end) s1 = (Ok found, s') ->
            match found with
            | Some tx => hash_stored (tx_hash tx) (zksynclite_transactions (db s')) = true
            | None => db s' = db s
            end).
  { clear Hrun. intros Hrun.
    apply bind_Ok_inv in Hrun as (tx & s3 & Htx & Hrun).
    assert (Hs3 : db s3 = db s).
    { pose proof (keeps_same_db__deserialize_zksync_transaction pages tx_entry
                    concerning_address s1) as Hkeeps.
      rewrite Htx in Hkeeps. unfold same_db in Hkeeps. cbn in Hkeeps. congruence. }
    destruct tx as [tx|].
    - apply bind_Ok_inv in Hrun as ([] & s4 & Hadd & Hrun).
      apply ret_Ok_inv in Hrun as [-> ->].
      unfold _add_zksynctxs_db in Hadd. cbn [for_each] in Hadd.
      apply bind_Ok_inv in Hadd as ([] & s5 & Hadd & Hret).
      apply ret_Ok_inv in Hret as [_ ->].
      exact (_add_zksynctxs_db_transaction_Ok_stored tx s3 s5 Hadd).
    - apply bind_Ok_inv in Hrun as ([] & s4 & Hlog & Hrun).
      apply ret_Ok_inv in Hrun as [-> ->]. inversion Hlog; subst. exact Hs3. }
  destruct tx_entry; try exact (Hnormalize Hrun).
  apply bind_Ok_inv in Hrun as ([] & s4 & Hlog & Hrun).
  apply ret_Ok_inv in Hrun as [-> ->]. inversion Hlog; subst. exact Hs1.
Qed.

Lemma query_single_transaction_stores_what_it_returns_witness :
  exists s',
    query_single_transaction 1 "a0" Sample.tracked
      (Sample.manager Examples.serve_single Sample.empty_db)
    = (Ok (Some (Sample.transfer_of "a0")), s') /\
    hash_stored "a0" (zksynclite_transactions (db s')) = true.
Proof.
  set (s := Sample.manager Examples.serve_single Sample.empty_db).
  set (s' := snd (query_single_transaction 1 "a0" Sample.tracked s)).
  assert (Hrun : query_single_transaction 1 "a0" Sample.tracked s
                 = (Ok (Some (Sample.transfer_of "a0")), s')) by (vm_compute; reflexivity).
  exists s'. split; [exact Hrun|].
  exact (proj2 (query_single_transaction_stores_what_it_returns (H := Sample.collaborators)
                  1 "a0" Sample.tracked s s' (Some (Sample.transfer_of "a0")) Hrun)).
Defined.

(** ** The events of each type of transaction *)

(** A decode whose [match] statement yields [event_data] stores the events
    built from it after those that were stored. *)
Lemma decode_transaction_stores `{Collaborators} (tx tx' : ZKSyncLiteTransaction)
    (tracked_addresses : list string) (event_data : list event_entry) (s : state) :
  decode_transaction_event_data tx tracked_addresses = Ok (tx', event_data) ->
  exists s',
    decode_transaction tx tracked_addresses s = (Ok tx', s') /\
    history_events (db s') =
      history_events (db s) ++ decode_transaction_events tx' event_data.
Proof.
  intros Hdata.
  destruct (decode_transaction_run tx tx' tracked_addresses event_data s Hdata)
    as (s' & Hrun & Hdb).
  exists s'. split; [exact Hrun|]. rewrite Hdb. reflexivity.
Qed.

Ltac decoded_with Hdata s :=
  let s' := fresh "s'" in
  let Hrun := fresh "Hrun" in
  let Hevents := fresh "Hevents" in
  destruct (decode_transaction_stores _ _ _ _ s Hdata) as (s' & Hrun & Hevents);
  exists s'; eexists; split; [exact Hrun|]; split; [exact Hevents|].

(** X22. The events of a Transfer. Between two tracked addresses it is one
    transfer event, from a tracked address to another address one spend
    event, both labelled with the sender and followed by the fee event if
    the transfer carries a fee. To a tracked address from another address
    it is one receive event labelled with the recipient, and no fee event
    whether the transfer carries a fee or not. Between two addresses that
    are not tracked there is no event. *)
Theorem transfer_events `{Collaborators} (tx : ZKSyncLiteTransaction)
    (tracked_addresses : list string) (s : state) :
  tx_type tx = TRANSFER ->
  exists s' events,
    decode_transaction tx tracked_addresses s = (Ok tx, s') /\
    history_events (db s') = history_events (db s) ++ events /\
    match is_tracked (from_address tx) tracked_addresses,
          is_tracked (to_address tx) tracked_addresses with
    | false, false => events = []
    | false, true =>
        exists e, events = [e] /\
          event_type e = HET_RECEIVE /\ event_subtype e = HEST_NONE /\
          ev_asset e = asset tx /\ balance e = amount tx /\
          location_label e = to_address tx /\ address e = from_address tx
    | true, to_tracked =>
        exists e rest, events = e :: rest /\
          event_type e = (if to_tracked then HET_TRANSFER else HET_SPEND) /\
          event_subtype e = HEST_NONE /\
          ev_asset e = asset tx /\ balance e = amount tx /\
          location_label e = from_address tx /\ address e = to_address tx /\
          fee_follows tx e rest
    end.
Proof.
  intros Hty.
  destruct (is_tracked (from_address tx) tracked_addresses) eqn:Hfrom,
           (is_tracked (to_address tx) tracked_addresses) eqn:Hto;
    (assert (Hdata : exists event_data,
               decode_transaction_event_data tx tracked_addresses = Ok (tx, event_data))
       by (unfold decode_transaction_event_data; rewrite Hty, Hfrom, Hto;
           eexists; reflexivity));
    destruct Hdata as [event_data Hdata];
    pose proof Hdata as Hshape;
    unfold decode_transaction_event_data in Hshape; rewrite Hty, Hfrom, Hto in Hshape;
    cbn in Hshape; injection Hshape as <-;
    decoded_with Hdata s;
    unfold decode_transaction_events, fee_follows, is_fee_event; cbn -[ZKL_IDENTIFIER];
    destruct (fee tx) as [fee_amount|]; cbn -[ZKL_IDENTIFIER];
    try reflexivity; repeat eexists.
Qed.

Lemma transfer_events_witness :
  exists s' e,
    decode_transaction Examples.incoming_transfer [Sample.tracked]
      (Sample.manager Sample.always_429 Sample.empty_db) = (Ok Examples.incoming_transfer, s') /\
    history_events (db s') = [e] /\ event_type e = HET_RECEIVE.
Proof.
  destruct (transfer_events (H := Sample.collaborators) Examples.incoming_transfer
              [Sample.tracked] (Sample.manager Sample.always_429 Sample.empty_db) eq_refl)
    as (s' & events & Hrun & Hevents & e & -> & Htype & _).
  exists s', e. split; [exact Hrun|]. split; [exact Hevents|exact Htype].
Defined.

(** X23. The events of a Deposit and of a Withdraw. A Deposit is decoded
    only when its recipient is tracked, as a withdrawal event of subtype
    bridge labelled with the recipient and without counterparty; a Withdraw
    only when its sender is tracked, as a deposit event of subtype bridge
    labelled with the sender, the recipient being its counterparty. In both
    cases the fee event follows if the transaction carries a fee;
    otherwise there is no event. *)
Theorem bridge_events `{Collaborators} (tx : ZKSyncLiteTransaction)
    (tracked_addresses : list string) (s : state) :
  tx_type tx = DEPOSIT \/ tx_type tx = WITHDRAW ->
  exists s' events,
    decode_transaction tx tracked_addresses s = (Ok tx, s') /\
    history_events (db s') = history_events (db s) ++ events /\
    if is_tracked (if bool_decide (tx_type tx = DEPOSIT) then to_address tx
                   else from_address tx) tracked_addresses
    then
      exists e rest, events = e :: rest /\
        event_type e = (if bool_decide (tx_type tx = DEPOSIT) then HET_WITHDRAWAL
                        else HET_DEPOSIT) /\
        event_subtype e = HEST_BRIDGE /\
        ev_asset e = asset tx /\ balance e = amount tx /\
        location_label e = (if bool_decide (tx_type tx = DEPOSIT) then to_address tx
                            else from_address tx) /\
        address e = (if bool_decide (tx_type tx = DEPOSIT) then None else to_address tx) /\
        fee_follows tx e rest
    else events = [].
Proof.
  intros [Hty|Hty]; rewrite Hty;
    rewrite ?bool_decide_eq_true_2 by reflexivity;
    rewrite ?bool_decide_eq_false_2 by discriminate;
    match goal with
    | |- context [is_tracked ?a ?l] => destruct (is_tracked a l) eqn:Htracked
    end;
    (assert (Hdata : exists event_data,
               decode_transaction_event_data tx tracked_addresses = Ok (tx, event_data))
       by (unfold decode_transaction_event_data; rewrite Hty, Htracked;
           eexists; reflexivity));
    destruct Hdata as [event_data Hdata];
    pose proof Hdata as Hshape;
    unfold decode_transaction_event_data in Hshape; rewrite Hty, Htracked in Hshape;
    cbn in Hshape; injection Hshape as <-;
    decoded_with Hdata s;
    unfold decode_transaction_events, fee_follows, is_fee_event; cbn -[ZKL_IDENTIFIER];
    destruct (fee tx) as [fee_amount|]; cbn -[ZKL_IDENTIFIER];
    try reflexivity; repeat eexists.
Qed.

Lemma bridge_events_witness :
  exists s' e,
    decode_transaction Examples.deposit [Sample.tracked]
      (Sample.manager Sample.always_429 Sample.empty_db) = (Ok Examples.deposit, s') /\
    history_events (db s') = [e] /\
    event_type e = HET_WITHDRAWAL /\ event_subtype e = HEST_BRIDGE.
Proof.
  destruct (bridge_events (H := Sample.collaborators) Examples.deposit
              [Sample.tracked] (Sample.manager Sample.always_429 Sample.empty_db)
              (or_introl eq_refl))
    as (s' & events & Hrun & Hevents & Hshape).
  cbn in Hshape. destruct Hshape as (e & rest & -> & Htype & Hsub & _ & _ & _ & _ & ->).
  exists s', e. split; [exact Hrun|]. split; [exact Hevents|]. split; assumption.
Defined.

(** X24. The events of a FullExit and of a ForcedExit. Whether or not an
    address of the transaction is tracked, an exit is decoded as one
    informational event labelled with its sender, followed by the fee event
    if the exit carries a fee. *)
Theorem exit_events `{Collaborators} (tx : ZKSyncLiteTransaction)
    (tracked_addresses : list string) (s : state) :
  tx_type tx = FULLEXIT \/ tx_type tx = FORCEDEXIT ->
  exists s' e rest,
    decode_transaction tx tracked_addresses s = (Ok tx, s') /\
    history_events (db s') = history_events (db s) ++ e :: rest /\
    event_type e = HET_INFORMATIONAL /\ event_subtype e = HEST_NONE /\
    ev_asset e = asset tx /\ balance e = amount tx /\
    location_label e = from_address tx /\ address e = to_address tx /\
    fee_follows tx e rest.
Proof.
  intros [Hty|Hty];
    (assert (Hdata : exists event_data,
               decode_transaction_event_data tx tracked_addresses = Ok (tx, event_data))
       by (unfold decode_transaction_event_data; rewrite Hty; eexists; reflexivity));
    destruct Hdata as [event_data Hdata];
    pose proof Hdata as Hshape;
    unfold decode_transaction_event_data in Hshape; rewrite Hty in Hshape;
    cbn in Hshape; injection Hshape as <-;
    destruct (decode_transaction_stores _ _ _ _ s Hdata) as (s' & Hrun & Hevents);
    exists s';
    unfold decode_transaction_events in Hevents; cbn -[ZKL_IDENTIFIER] in Hevents;
    unfold fee_follows, is_fee_event;
    destruct (fee tx) as [fee_amount|]; cbn -[ZKL_IDENTIFIER] in Hevents;
    do 2 eexists; (split; [exact Hrun|]); (split; [exact Hevents|]);
    cbn -[ZKL_IDENTIFIER]; repeat (split; [reflexivity|]);
    try reflexivity; eexists; repeat split; reflexivity.
Qed.

Lemma exit_events_witness :
  exists s' e fee_event,
    decode_transaction Examples.forced_exit []
      (Sample.manager Sample.always_429 Sample.empty_db) = (Ok Examples.forced_exit, s') /\
    history_events (db s') = [e; fee_event] /\
    event_type e = HET_INFORMATIONAL /\ event_subtype fee_event = HEST_FEE.
Proof.
  destruct (exit_events (H := Sample.collaborators) Examples.forced_exit []
              (Sample.manager Sample.always_429 Sample.empty_db) (or_intror eq_refl))
    as (s' & e & rest & Hrun & Hevents & Htype & _ & _ & _ & _ & _ & Hfee).
  cbn in Hfee. destruct Hfee as (fee_event & -> & _ & Hsub & _).
  exists s', e, fee_event. split; [exact Hrun|]. split; [exact Hevents|]. split; assumption.
Defined.

(** X25. The events of a ChangePubKey. With a fee it is decoded as a single
    spend event of subtype fee whose amount is the fee, labelled with the
    account; no separate fee event follows. Without a fee (or with a fee
    that is not true) no event is stored and an error is logged; the
    transaction is flagged as decoded in both cases. *)
Theorem change_pub_key_events `{Collaborators} (tx : ZKSyncLiteTransaction)
    (tracked_addresses : list string) (s : state) :
  tx_type tx = CHANGEPUBKEY ->
  exists tx' s' events,
    decode_transaction tx tracked_addresses s = (Ok tx', s') /\
    history_events (db s') = history_events (db s) ++ events /\
    flagged_decoded (tx_hash tx) (db s') /\
    match fee tx with
    | Some fee_amount =>
        if FVal_bool fee_amount then
          exists e, events = [e] /\
            event_type e = HET_SPEND /\ event_subtype e = HEST_FEE /\
            ev_asset e = asset tx /\ balance e = fee_amount /\
            location_label e = from_address tx /\ sequence_index e = 0 /\
            logs s' = logs s
        else events = [] /\ exists line, logs s' = (ERROR, line) :: logs s
    | None => events = [] /\ exists line, logs s' = (ERROR, line) :: logs s
    end.
Proof.
  intros Hty.
  unfold decode_transaction, decode_transaction_event_data.
  rewrite Hty. rewrite bool_decide_eq_true_2 by reflexivity.
  unfold has_fee.
  destruct (fee tx) as [fee_amount|] eqn:Hfee; [destruct (FVal_bool fee_amount) eqn:Hbool|];
    do 3 eexists;
    (split; [reflexivity|]);
    (split; [reflexivity|]);
    (split; [intros r Hr Hh;
             exact (with_is_decoded_flag 1 (tx_hash tx) (zksynclite_transactions (db s))
                      r Hr Hh)|]);
    cbn -[ZKL_IDENTIFIER].
  - eexists. split; [reflexivity|]. cbn -[ZKL_IDENTIFIER]. repeat split; reflexivity.
  - split; [|eexists; reflexivity].
    unfold decode_transaction_events. cbn. destruct (fee tx); reflexivity.
  - split; [|eexists; reflexivity].
    unfold decode_transaction_events. cbn. destruct (fee tx); reflexivity.
Qed.

Lemma change_pub_key_events_witness :
  exists tx' s' e,
    decode_transaction Sample.change_pub_key [Sample.tracked]
      (Sample.manager Sample.always_429 Sample.pending_db) = (Ok tx', s') /\
    history_events (db s') = [e] /\
    event_subtype e = HEST_FEE /\ balance e = (1 # 1000)%Q.
Proof.
  destruct (change_pub_key_events (H := Sample.collaborators) Sample.change_pub_key
              [Sample.tracked] (Sample.manager Sample.always_429 Sample.pending_db) eq_refl)
    as (tx' & s' & events & Hrun & Hevents & _ & Hshape).
  cbn in Hshape. destruct Hshape as (e & -> & _ & Hsub & _ & Hbalance & _).
  exists tx', s', e. split; [exact Hrun|]. split; [exact Hevents|]. split; assumption.
Defined.

Lemma event_data_shape `{Collaborators} (tx tx' : ZKSyncLiteTransaction)
    (tracked_addresses : list string) (event_data : list event_entry) :
  decode_transaction_event_data tx tracked_addresses = Ok (tx', event_data) ->
  tx_hash tx' = tx_hash tx /\ timestamp tx' = timestamp tx /\
  (length event_data <= 2)%nat /\
  map ee_sequence_index event_data = map Z.of_nat (seq 0 (length event_data)).
Proof.
  unfold decode_transaction_event_data. intros Hdata.
  destruct (tx_type tx);
    repeat match type of Hdata with
           | context [if ?b then _ else _] => destruct b
           | context [match ?o with Some _ => _ | None => _ end] => destruct o
           end;
    try discriminate Hdata; injection Hdata as <- <-; cbn; repeat split; lia.
Qed.

(** X26. The events a decode stores are well formed. They are added after
    the events that were stored, there are at most three of them, their
    sequence indices are 0, 1, 2 in this order, and each carries the
    identifier derived from the hash of the transaction, this hash, the
    transaction's timestamp in milliseconds and the location of the
    chain. *)
Theorem decoded_events_are_well_formed `{Collaborators} (tx tx' : ZKSyncLiteTransaction)
    (tracked_addresses : list string) (s s' : state) :
  decode_transaction tx tracked_addresses s = (Ok tx', s') ->
  exists events,
    history_events (db s') = history_events (db s) ++ events /\
    (length events <= 3)%nat /\
    map sequence_index events = map Z.of_nat (seq 0 (length events)) /\
    Forall (fun e => event_identifier e = ZKL_IDENTIFIER (tx_hash tx) /\
                     ev_tx_hash e = tx_hash tx /\
                     ev_timestamp e = timestamp tx * 1000 /\
                     location e = ZKSYNC_LITE) events.
Proof.
  intros Hrun.
  destruct (decode_transaction_event_data tx tracked_addresses) as [[tx0 event_data]|e]
    eqn:Hdata.
  2: { rewrite (decode_transaction_Raise tx tracked_addresses e s Hdata) in Hrun.
       discriminate Hrun. }
  destruct (decode_transaction_stores tx tx0 tracked_addresses event_data s Hdata)
    as (s1 & Hrun1 & Hevents).
  rewrite Hrun in Hrun1. injection Hrun1 as <- <-.
  destruct (event_data_shape tx tx' tracked_addresses event_data Hdata)
    as (Hhash & Hts & Hlen & Hidx).
  exists (decode_transaction_events tx' event_data). split; [exact Hevents|].
  clear Hrun Hevents Hdata. rewrite <- Hhash, <- Hts. clear Hhash Hts.
  unfold decode_transaction_events.
  destruct event_data as [|e0 [|e1 [|e2 event_data]]]; cbn in Hlen; [| | |lia].
  - cbn. destruct (fee tx'); cbn; repeat split; try lia; constructor.
  - cbn in Hidx. injection Hidx as Hidx0. cbn -[ZKL_IDENTIFIER].
    destruct (fee tx') as [fee_amount|]; [destruct (bool_decide _)|];
      cbn -[ZKL_IDENTIFIER]; rewrite ?Hidx0; unfold ts_sec_to_ms;
      (split; [lia|]); (split; [reflexivity|]); repeat constructor.
  - cbn in Hidx. injection Hidx as Hidx0 Hidx1. cbn -[ZKL_IDENTIFIER].
    destruct (fee tx') as [fee_amount|]; [destruct (bool_decide _)|];
      cbn -[ZKL_IDENTIFIER]; rewrite ?Hidx0, ?Hidx1; unfold ts_sec_to_ms;
      (split; [lia|]); (split; [reflexivity|]); repeat constructor.
Qed.

Lemma decoded_events_are_well_formed_witness :
  exists tx' s' events,
    decode_transaction Sample.swap [Sample.tracked]
      (Sample.manager Sample.always_429 Sample.stored_db) = (Ok tx', s') /\
    history_events (db s') = events /\
    map sequence_index events = [0; 1; 2].
Proof.
  set (s := Sample.manager Sample.always_429 Sample.stored_db).
  set (s' := snd (decode_transaction Sample.swap [Sample.tracked] s)).
  assert (Hrun : decode_transaction Sample.swap [Sample.tracked] s = (Ok Sample.swap, s'))
    by (vm_compute; reflexivity).
  destruct (decoded_events_are_well_formed (H := Sample.collaborators) Sample.swap Sample.swap
              [Sample.tracked] s s' Hrun) as (events & Hevents & _ & _ & _).
  exists Sample.swap, s', (history_events (db s')).
  split; [exact Hrun|]. split; [reflexivity|]. vm_compute. reflexivity.
Defined.

(** ** Bulk decoding passes *)

Lemma decode_undecoded_transactions_loop_total `{Collaborators} (send_ws_notifications : bool)
    (total_transactions : nat) (tracked_addresses : list string)
    (transactions : list ZKSyncLiteTransaction) :
  Forall (fun t => tx_type t = SWAP -> swap_data t <> None) transactions ->
  forall (tx_index : nat) (s : state),
  exists s',
    decode_undecoded_transactions_loop send_ws_notifications total_transactions
      tracked_addresses tx_index transactions s = (Ok tt, s').
Proof.
  induction 1 as [|t transactions Ht Hwf IH]; intros tx_index s;
    cbn [decode_undecoded_transactions_loop].
  - eexists. reflexivity.
  - destruct (event_data_total t tracked_addresses Ht) as (t' & event_data & Hdata).
    set (s0 := snd (delete_history_events (ZKL_IDENTIFIER (tx_hash t)) s)).
    rewrite (bind_Ok (delete_history_events _) _ s s0 tt) by reflexivity.
    destruct (decode_transaction_run t t' tracked_addresses event_data s0 Hdata)
      as (s1 & Hrun & _).
    rewrite (bind_Ok _ _ _ _ _ Hrun).
    destruct (send_ws_notifications && (tx_index mod 10 =? 0)%nat).
    + rewrite (bind_Ok (add_message _ _) _ s1
                 (snd (add_message total_transactions tx_index s1)) tt) by reflexivity.
      apply IH.
    + rewrite (bind_Ok (mret tt) _ s1 s1 tt) by reflexivity. apply IH.
Qed.

Lemma pending_rows_read `{Collaborators} (s : state) :
  Forall not_swap_row (pending_rows (db s)) ->
  get_db_transactions (Some 0) s = (Ok (map row_columns (pending_rows (db s))), s).
Proof.
  intros Hrows. unfold get_db_transactions.
  rewrite (bind_Ok get_db _ s s (db s)) by reflexivity.
  fold (pending_rows (db s)).
  rewrite <- (app_nil_r (pending_rows (db s))) at 1.
  rewrite (get_db_transactions_loop_not_swap _ _ _ Hrows). reflexivity.
Qed.

(** A pass over pending rows none of which is a Swap returns their number
    and decodes each of them afresh, in order. *)
Lemma decode_undecoded_transactions_pending `{Collaborators} (send_ws_notifications : bool)
    (s : state) :
  Forall not_swap_row (pending_rows (db s)) ->
  exists s',
    decode_undecoded_transactions false send_ws_notifications s
      = (Ok (length (pending_rows (db s))), s') /\
    db s' = fold_left (redecoded_db (zksync_lite_accounts (db s)))
              (map row_columns (pending_rows (db s))) (db s).
Proof.
  intros Hrows.
  assert (Hrun : exists s',
            decode_undecoded_transactions false send_ws_notifications s
            = (Ok (length (pending_rows (db s))), s')).
  { unfold decode_undecoded_transactions.
    rewrite (bind_Ok _ _ _ _ _ (pending_rows_read s Hrows)).
    rewrite (bind_Ok get_db _ s s (db s)) by reflexivity.
    destruct (decode_undecoded_transactions_loop_total send_ws_notifications
                (length (map row_columns (pending_rows (db s))))
                (zksync_lite_accounts (db s)) (map row_columns (pending_rows (db s)))
                ltac:(apply Forall_forall; intros t Ht Hty;
                      apply list_elem_of_fmap in Ht as (r & -> & Hr);
                      rewrite Forall_forall in Hrows; exfalso; exact (Hrows r Hr Hty))
                0%nat s) as (s1 & Hloop).
    rewrite (bind_Ok _ _ _ _ _ Hloop). rewrite bind_run.
    destruct send_ws_notifications; cbn; rewrite length_map; eexists; reflexivity. }
  destruct Hrun as (s' & Hrun). exists s'. split; [exact Hrun|].
  destruct (decode_undecoded_transactions_db false send_ws_notifications s s' _ Hrun)
    as (L & s0 & Hget & Hdb).
  cbn in Hget. rewrite (pending_rows_read s Hrows) in Hget. injection Hget as <- _.
  exact Hdb.
Qed.

Lemma fold_redecoded_db_flags `{Collaborators} (tracked_addresses : list string)
    (L : list ZKSyncLiteTransaction) :
  forall d,
    (forall r, r ∈ zksynclite_transactions d -> is_decoded r = 0 ->
               tx_hash (row_columns r) ∈ map tx_hash L) ->
    Forall (fun r => is_decoded r <> 0)
      (zksynclite_transactions (fold_left (redecoded_db tracked_addresses) L d)).
Proof.
  induction L as [|t L IH]; intros d Hpending; cbn [fold_left].
  - apply Forall_forall. intros r Hr Hzero.
    specialize (Hpending r Hr Hzero). apply elem_of_nil in Hpending. contradiction.
  - apply IH. intros r Hr Hzero.
    change (zksynclite_transactions (redecoded_db tracked_addresses d t))
      with (with_is_decoded 1 (tx_hash t) (zksynclite_transactions d)) in Hr.
    unfold with_is_decoded in Hr. apply list_elem_of_fmap in Hr as (r0 & Hr0 & Hin).
    destruct (String.eqb (tx_hash (row_columns r0)) (tx_hash t)) eqn:Heq.
    + subst r. cbn in Hzero. discriminate Hzero.
    + subst r. specialize (Hpending r0 Hin Hzero). cbn in Hpending.
      apply elem_of_cons in Hpending as [Hsame|Hrest]; [|exact Hrest].
      apply String.eqb_neq in Heq. contradiction.
Qed.

(** X27. A bulk pass that is not forced leaves nothing pending. When no
    pending row is a Swap, the pass returns the number of pending rows and
    afterwards no row is pending, the stored hashes being the same; a
    second pass that is not forced then reads nothing and returns 0. *)
Theorem pass_leaves_nothing_pending `{Collaborators} (ws1 ws2 : bool) (s : state) :
  Forall not_swap_row (pending_rows (db s)) ->
  exists s1 s2,
    decode_undecoded_transactions false ws1 s = (Ok (length (pending_rows (db s))), s1) /\
    stored_hashes (db s1) = stored_hashes (db s) /\
    pending_rows (db s1) = [] /\
    decode_undecoded_transactions false ws2 s1 = (Ok 0%nat, s2) /\
    history_events (db s2) = history_events (db s1).
Proof.
  intros Hrows.
  destruct (decode_undecoded_transactions_pending ws1 s Hrows) as (s1 & Hrun1 & Hdb1).
  assert (Hnone : pending_rows (db s1) = []).
  { unfold pending_rows. rewrite Hdb1.
    pose proof (fold_redecoded_db_flags (zksync_lite_accounts (db s))
                  (map row_columns (pending_rows (db s))) (db s)) as Hflags.
    match type of Hflags with
    | ?P -> _ => assert (Hpending : P)
    end.
    { intros r Hr Hzero. rewrite map_map. apply list_elem_of_fmap. exists r.
      split; [reflexivity|]. unfold pending_rows. apply list_elem_of_filter.
      split; assumption. }
    specialize (Hflags Hpending). clear Hpending.
    induction Hflags as [|r rows Hr Hflags IH]; [reflexivity|].
    rewrite filter_cons. destruct (decide (is_decoded r = 0)); [contradiction|exact IH]. }
  destruct (decode_undecoded_transactions_pending ws2 s1) as (s2 & Hrun2 & Hdb2).
  { rewrite Hnone. constructor. }
  rewrite Hnone in Hrun2, Hdb2. cbn in Hrun2, Hdb2.
  exists s1, s2. split; [exact Hrun1|]. split.
  { rewrite Hdb1.
    exact (proj1 (fold_redecoded_db_stored_hashes (zksync_lite_accounts (db s))
                    (map row_columns (pending_rows (db s))) (db s))). }
  split; [exact Hnone|]. split; [exact Hrun2|]. rewrite Hdb2. reflexivity.
Qed.

Lemma pass_leaves_nothing_pending_witness :
  exists s1 s2,
    decode_undecoded_transactions false false
      (Sample.manager Sample.always_429 Sample.pending_db) = (Ok 2%nat, s1) /\
    pending_rows (db s1) = [] /\
    decode_undecoded_transactions false false s1 = (Ok 0%nat, s2).
Proof.
  destruct (pass_leaves_nothing_pending (H := Sample.collaborators) false false
              (Sample.manager Sample.always_429 Sample.pending_db))
    as (s1 & s2 & Hrun1 & _ & Hnone & Hrun2 & _).
  - repeat constructor; intros Hty; discriminate Hty.
  - exists s1, s2. split; [exact Hrun1|]. split; [exact Hnone|exact Hrun2].
Defined.

(** X28. A bulk pass returns the number of transactions it read and replaces
    the events of these transactions only: the events stored under any
    other identifier are the same after the pass, in the same order. A pass
    changes neither the stored hashes nor the swap data. *)
Theorem pass_keeps_other_events `{Collaborators} (force_redecode send_ws_notifications : bool)
    (s s' s0 : state) (n : nat) (L : list ZKSyncLiteTransaction) :
  decode_undecoded_transactions force_redecode send_ws_notifications s = (Ok n, s') ->
  get_db_transactions (if force_redecode then None else Some 0) s = (Ok L, s0) ->
  n = length L /\
  stored_hashes (db s') = stored_hashes (db s) /\
  forall event_id,
    (forall t, t ∈ L -> ZKL_IDENTIFIER (tx_hash t) <> event_id) ->
    events_of event_id (db s') = events_of event_id (db s).
Proof.
  intros Hrun Hget.
  destruct (decode_undecoded_transactions_db force_redecode send_ws_notifications s s' n Hrun)
    as (L' & s0' & Hget' & Hdb).
  rewrite Hget in Hget'. injection Hget' as <- <-.
  split; [|split].
  - unfold decode_undecoded_transactions in Hrun.
    rewrite (bind_Ok _ _ _ _ _ Hget) in Hrun.
    apply bind_Ok_inv in Hrun as (d & s1 & _ & Hrun).
    apply bind_Ok_inv in Hrun as ([] & s2 & _ & Hrun).
    apply bind_Ok_inv in Hrun as ([] & s3 & _ & Hrun).
    apply ret_Ok_inv in Hrun as [-> _]. reflexivity.
  - rewrite Hdb. apply fold_redecoded_db_stored_hashes.
  - intros event_id Hother. rewrite Hdb.
    apply fold_redecoded_events_other. exact Hother.
Qed.

Lemma pass_keeps_other_events_witness :
  exists s',
    decode_undecoded_transactions true false
      (Sample.manager Sample.always_429 Sample.pending_db) = (Ok 2%nat, s') /\
    events_of "other" (db s') = [].
Proof.
  set (s := Sample.manager Sample.always_429 Sample.pending_db).
  set (s' := snd (decode_undecoded_transactions true false s)).
  assert (Hrun : decode_undecoded_transactions true false s = (Ok 2%nat, s'))
    by (vm_compute; reflexivity).
  exists s'. split; [exact Hrun|].
  destruct (pass_keeps_other_events (H := Sample.collaborators) true false s s' s 2
              [Sample.change_pub_key; Sample.foreign_transfer] Hrun eq_refl)
    as (_ & _ & Hother).
  rewrite (Hother "other"); [reflexivity|].
  intros t Ht.
  apply elem_of_cons in Ht as [->|Ht]; [discriminate|].
  apply elem_of_cons in Ht as [->|Ht]; [discriminate|].
  apply elem_of_nil in Ht. contradiction.
Defined.

(** ** Balances *)

Section Balances.

Context `{Collaborators}.
Context (find_usd_price : CryptoAsset -> M FVal).
Context (asset_eq : CryptoAsset -> CryptoAsset -> bool).

Lemma asset_dict_set_nonempty (asset : CryptoAsset) (balance : Balance)
    (d : list (CryptoAsset * Balance)) :
  asset_dict_set asset_eq asset balance d <> [].
Proof. destruct d as [|[k w] d]; cbn; [discriminate|]. destruct (asset_eq k asset); discriminate. Qed.

Lemma balances_set_keys (address : string) (asset : CryptoAsset) (balance : Balance)
    (balances : list (string * list (CryptoAsset * Balance))) :
  map fst (balances_set asset_eq address asset balance balances) =
  if decide (address ∈ map fst balances) then map fst balances
  else map fst balances ++ [address].
Proof.
  induction balances as [|[a d] balances IH]; cbn [balances_set map fst].
  - destruct (decide (address ∈ [])) as [Hin|_]; [apply elem_of_nil in Hin; contradiction|].
    reflexivity.
  - destruct (String.eqb a address) eqn:Ha.
    + apply String.eqb_eq in Ha. subst a. cbn.
      destruct (decide (address ∈ address :: map fst balances)) as [_|Hnot];
        [reflexivity|]. exfalso. apply Hnot. left.
    + apply String.eqb_neq in Ha. cbn. rewrite IH.
      destruct (decide (address ∈ map fst balances)) as [Hin|Hnot];
        destruct (decide (address ∈ a :: map fst balances)) as [Hin'|Hnot'];
        try reflexivity.
      * exfalso. apply Hnot'. right. exact Hin.
      * exfalso. apply elem_of_cons in Hin' as [Heq|Hin']; [congruence|contradiction].
Qed.

Lemma balances_set_balances_of (seen : list string) (address : string) (asset : CryptoAsset)
    (balance : Balance) (balances : list (string * list (CryptoAsset * Balance))) :
  address ∈ seen ->
  balances_of seen balances ->
  balances_of seen (balances_set asset_eq address asset balance balances).
Proof.
  intros Hseen [Hnodup Hall]. split.
  - rewrite balances_set_keys. destruct (decide _) as [Hin|Hnot]; [exact Hnodup|].
    apply NoDup_app. split; [exact Hnodup|]. split.
    + intros a Ha Ha'. apply list_elem_of_singleton in Ha'. subst a. contradiction.
    + apply NoDup_singleton.
  - clear Hnodup. induction Hall as [|[a d] balances [Ha Hd] Hall IH]; cbn [balances_set].
    + constructor; [|constructor]. split; [exact Hseen|apply asset_dict_set_nonempty].
    + destruct (String.eqb a address).
      * constructor; [|exact Hall]. split; [exact Ha|apply asset_dict_set_nonempty].
      * constructor; [split; assumption|exact IH].
Qed.

Lemma try_for_each_invariant {A S : Type} (P : S -> Prop) (body : S -> A -> M S)
    (handled : exn -> bool) (handler : exn -> M unit) (l : list A) :
  (forall acc x s acc' s', P acc -> body acc x s = (Ok acc', s') -> P acc') ->
  forall acc s acc' s',
    P acc -> try_for_each body handled handler l acc s = (Ok acc', s') -> P acc'.
Proof.
  intros Hbody. induction l as [|x l IH]; intros acc s acc' s' Hacc Hrun;
    cbn [try_for_each] in Hrun.
  - apply ret_Ok_inv in Hrun as [-> _]. exact Hacc.
  - destruct (body acc x s) as [[acc1|e] s1] eqn:Hx.
    + exact (IH _ _ _ _ (Hbody _ _ _ _ _ Hacc Hx) Hrun).
    + destruct (handled e); [|discriminate Hrun].
      apply bind_Ok_inv in Hrun as ([] & s2 & _ & Hret).
      apply ret_Ok_inv in Hret as [-> _]. exact Hacc.
Qed.

Lemma get_balances_item_balances_of (seen : list string) (pages : nat) (address : string)
    (balances balances' : list (string * list (CryptoAsset * Balance)))
    (item : string * json) (s s' : state) :
  address ∈ seen ->
  balances_of seen balances ->
  get_balances_item find_usd_price asset_eq pages address balances item s = (Ok balances', s') ->
  balances_of seen balances'.
Proof.
  intros Hseen Hok Hrun. unfold get_balances_item in Hrun.
  destruct item as [symbol raw_amount_str].
  apply bind_Ok_inv in Hrun as (found & s1 & _ & Hrun).
  destruct found as [asset|].
  2: { apply bind_Ok_inv in Hrun as ([] & s2 & _ & Hret).
       apply ret_Ok_inv in Hret as [-> _]. exact Hok. }
  apply bind_Ok_inv in Hrun as (raw_amount & s2 & _ & Hrun).
  apply bind_Ok_inv in Hrun as (usd_price & s3 & _ & Hrun).
  destruct usd_price as [usd_price|]; apply ret_Ok_inv in Hrun as [-> _];
    [|exact Hok].
  apply balances_set_balances_of; assumption.
Qed.

Lemma get_balances_address_balances_of (seen : list string) (pages : nat) (address : string)
    (balances balances' : list (string * list (CryptoAsset * Balance))) (s s' : state) :
  address ∈ seen ->
  balances_of seen balances ->
  get_balances_address find_usd_price asset_eq pages balances address s = (Ok balances', s') ->
  balances_of seen balances'.
Proof.
  intros Hseen Hok Hrun. unfold get_balances_address in Hrun.
  apply bind_Ok_inv in Hrun as (result & s1 & _ & Hrun).
  apply bind_Ok_inv in Hrun as (finalized_result & s2 & _ & Hrun).
  assert (Hloop : forall items_of,
            (balances_json ← lift (get_default finalized_result "balances" (JDict []));
             items ← lift (py_items balances_json);
             try_for_each (get_balances_item find_usd_price asset_eq pages address)
               (fun e => bool_decide (e = KeyError) || bool_decide (e = DeserializationError)
                         || bool_decide (e = RemoteError))
               (fun _ => log ERROR "Failed to query zksync balances")
               items balances) s2 = (Ok balances', s') ->
            items_of = tt -> balances_of seen balances').
  { intros _ Hitems _.
    apply bind_Ok_inv in Hitems as (balances_json & s3 & _ & Hitems).
    apply bind_Ok_inv in Hitems as (items & s4 & _ & Hitems).
    eapply (try_for_each_invariant (balances_of seen)); [|exact Hok|exact Hitems].
    intros acc x s0 acc' s0' Hacc Hx.
    exact (get_balances_item_balances_of seen pages address acc acc' x s0 s0' Hseen Hacc Hx). }
  destruct finalized_result; try exact (Hloop tt Hrun eq_refl).
  discriminate Hrun.
Qed.

Lemma get_balances_loop_balances_of (seen : list string) (pages : nat)
    (addresses : list string) :
  (forall a, a ∈ addresses -> a ∈ seen) ->
  forall (balances balances' : list (string * list (CryptoAsset * Balance))) (s s' : state),
    balances_of seen balances ->
    get_balances_loop find_usd_price asset_eq pages addresses balances s = (Ok balances', s') ->
    balances_of seen balances'.
Proof.
  induction addresses as [|address addresses IH]; intros Hsub balances balances' s s' Hok Hrun;
    cbn [get_balances_loop] in Hrun.
  - apply ret_Ok_inv in Hrun as [-> _]. exact Hok.
  - apply bind_Ok_inv in Hrun as (balances1 & s1 & Haddress & Hrun).
    apply (IH (fun a Ha => Hsub a (list_elem_of_further _ _ _ Ha)) balances1 balances' s1 s');
      [|exact Hrun].
    apply (get_balances_address_balances_of seen pages address balances balances1 s s1);
      [apply Hsub; left|exact Hok|exact Haddress].
Qed.

(** X29. The dict [get_balances] returns has one entry per address at most,
    only for addresses that were asked for, and none of them with an empty
    dict of balances: an address for which no balance could be priced does
    not appear in it. This holds whatever the price oracle does. *)
Theorem get_balances_entries (pages : nat) (addresses : list string) (s s' : state)
    (balances : list (string * list (CryptoAsset * Balance))) :
  get_balances find_usd_price asset_eq pages addresses s = (Ok balances, s') ->
  NoDup (map fst balances) /\
  Forall (fun entry => fst entry ∈ addresses /\ snd entry <> []) balances.
Proof.
  intros Hrun. unfold get_balances in Hrun.
  apply (get_balances_loop_balances_of addresses pages addresses (fun a Ha => Ha)
           [] balances s s'); [|exact Hrun].
  split; constructor.
Qed.

Lemma contains_bind {A B : Type} (m : M A) (f : A -> M B) :
  contains_parse_errors m -> (forall a, contains_parse_errors (f a)) ->
  contains_parse_errors (m ≫= f).
Proof.
  intros Hm Hf s. rewrite bind_run. specialize (Hm s).
  destruct (m s) as [[a|e] s1]; [apply Hf|].
  cbn in *. destruct Hm as [Hkey Hparse].
  split; intros Heq; injection Heq as ->; [apply Hkey|apply Hparse]; reflexivity.
Qed.

Lemma contains_ret {A : Type} (a : A) : contains_parse_errors (mret a).
Proof. intros s. split; discriminate. Qed.

Lemma contains__query_api (url : string) (options : list (string * json)) :
  contains_parse_errors (_query_api url options).
Proof.
  intros s.
  destruct (_query_api_outcome url options s)
    as (j & res & s' & -> & _ & _ & _ & _ & _ & _ & _ & _ & Hres).
  cbn [fst].
  destruct Hres as [[_ ->]|[_ [->|(body & v & _ & _ & _ & ->)]]]; split; discriminate.
Qed.

Lemma contains_try_for_each {A S : Type} (body : S -> A -> M S) (l : list A) :
  forall acc,
    contains_parse_errors
      (try_for_each body
         (fun e => bool_decide (e = KeyError) || bool_decide (e = DeserializationError)
                   || bool_decide (e = RemoteError))
         (fun _ => log ERROR "Failed to query zksync balances") l acc).
Proof.
  induction l as [|x l IH]; intros acc s; cbn [try_for_each].
  - split; discriminate.
  - destruct (body acc x s) as [[acc1|e] s1]; [apply IH|].
    destruct e; cbn; split; discriminate.
Qed.

Lemma contains_get_balances_address (pages : nat)
    (balances : list (string * list (CryptoAsset * Balance))) (address : string) :
  contains_parse_errors (get_balances_address find_usd_price asset_eq pages balances address).
Proof.
  unfold get_balances_address.
  apply contains_bind; [apply contains__query_api|intros result].
  apply contains_bind.
  { intros s. unfold lift, get_default. destruct result; cbn; try (split; discriminate).
    destruct (dict_lookup "finalized" d); split; discriminate. }
  intros finalized_result.
  assert (Hloop : contains_parse_errors
            (balances_json ← lift (get_default finalized_result "balances" (JDict []));
             items ← lift (py_items balances_json);
             try_for_each (get_balances_item find_usd_price asset_eq pages address)
               (fun e => bool_decide (e = KeyError) || bool_decide (e = DeserializationError)
                         || bool_decide (e = RemoteError))
               (fun _ => log ERROR "Failed to query zksync balances")
               items balances)).
  { apply contains_bind.
    { intros s. unfold lift, get_default.
      destruct finalized_result; cbn; try (split; discriminate).
      destruct (dict_lookup "balances" d); split; discriminate. }
    intros balances_json. apply contains_bind.
    { intros s. unfold lift, py_items. destruct balances_json; cbn; split; discriminate. }
    intros items. apply contains_try_for_each. }
  destruct finalized_result; try exact Hloop.
  intros s. split; discriminate.
Qed.

(** X30. [get_balances] lets neither a [KeyError] nor a
    [DeserializationError] out, whatever the server answers and whatever
    the price oracle does: a balance that does not parse ends the reading
    of its address, and the addresses that follow are still queried. *)
Theorem get_balances_contains_parse_errors (pages : nat) (addresses : list string) (s : state) :
  fst (get_balances find_usd_price asset_eq pages addresses s) <> Raise KeyError /\
  fst (get_balances find_usd_price asset_eq pages addresses s) <> Raise DeserializationError.
Proof.
  unfold get_balances. generalize (@nil (string * list (CryptoAsset * Balance))).
  revert s. induction addresses as [|address addresses IH]; intros s balances;
    cbn [get_balances_loop].
  - split; discriminate.
  - apply (contains_bind (get_balances_address find_usd_price asset_eq pages balances address)
             (fun balances' =>
                get_balances_loop find_usd_price asset_eq pages addresses balances'));
      [apply contains_get_balances_address|].
    intros balances' s0. apply IH.
Qed.

End Balances.

Lemma get_balances_entries_witness :
  exists s' balances,
    get_balances Examples.usd_price_of Examples.same_asset 1 [Sample.tracked]
      (Examples.manager (fun _ _ => Examples.account_reply) Sample.empty_db)
    = (Ok balances, s') /\
    map fst balances = [Sample.tracked] /\
    Forall (fun entry => fst entry ∈ [Sample.tracked] /\ snd entry <> []) balances.
Proof.
  set (s := Examples.manager (fun _ _ => Examples.account_reply) Sample.empty_db).
  set (s' := snd (get_balances Examples.usd_price_of Examples.same_asset 1 [Sample.tracked] s)).
  assert (Hrun : get_balances Examples.usd_price_of Examples.same_asset 1 [Sample.tracked] s
                 = (Ok [(Sample.tracked, [(A_ETH, (1%Q, 2000%Q))])], s'))
    by (vm_compute; reflexivity).
  exists s', [(Sample.tracked, [(A_ETH, (1%Q, 2000%Q))])].
  split; [exact Hrun|]. split; [reflexivity|].
  exact (proj2 (get_balances_entries (H := Sample.collaborators) Examples.usd_price_of
                  Examples.same_asset 1 [Sample.tracked] s s' _ Hrun)).
Defined.
